(** * Excel cleaner: the analysis pass, the fix proposer and the patch applier

    A shallow embedding of [src/utils/excelAnalyzer.ts] (its last and largest
    revision, the one that declares [detectFormulaIssues], [detectEmptyGaps]
    and [detectFormatInconsistencies]).

    Conventions of the embedding.
    - A JavaScript string is a Rocq [string] whose characters are UTF-16 code
      units in the range 0..255 (Latin-1).  Inside that range every operation
      below follows ECMAScript; the two letters whose upper-case form lies
      outside Latin-1 (U+00B5 and U+00FF) are left alone by [toUpperCase].
    - A cell's numeric value is an integer, printed in plain decimal digits
      (as ECMAScript prints integers below 10^21); floating point values are
      outside the model.
    - The spreadsheet codec (SheetJS, [XLSX.read] and [XLSX.write]) is a black
      box: the functions take and return the decoded workbook.
    - The module-level regular expressions carry the [g] flag, so their
      [lastIndex] survives from one call of [test] to the next.  That state
      is threaded explicitly through every function that touches them. *)

From Stdlib Require Import String Ascii List Arith Lia ZArith DecimalString.
From stdpp Require Import gmap strings list.

Open Scope string_scope.

(* ================================================================== *)
(** * ECMAScript strings *)
(* ================================================================== *)

Module JS.

Definition code (c : ascii) : nat := nat_of_ascii c.

Definition between (lo hi n : nat) : bool := (lo <=? n)%nat && (n <=? hi)%nat.

(** The double quote, which a literal cannot hold. *)
Definition dq : string := String "034"%char "".

(** Literals of this file are written in UTF-8; [lit] turns the two-byte
    sequences of U+0080..U+00FF into the single Latin-1 code unit. *)
Fixpoint lit (s : string) : string :=
  match s with
  | "" => ""
  | String c s' =>
      match s' with
      | String d s'' =>
          if (code c =? 194)%nat then String d (lit s'')
          else if (code c =? 195)%nat then String (ascii_of_nat (code d + 64)) (lit s'')
          else String c (lit s')
      | "" => String c ""
      end
  end.

(** Upper-case form of one code unit when that form is again one Latin-1
    code unit (this is also [Canonicalize] of a pattern character under the
    [i] flag without the [u] flag). *)
Definition upper_unit (c : ascii) : ascii :=
  let n := code c in
  if between 97 122 n || (between 224 254 n && negb (n =? 247)%nat)
  then ascii_of_nat (n - 32) else c.

Definition lower_unit (c : ascii) : ascii :=
  let n := code c in
  if between 65 90 n || (between 192 222 n && negb (n =? 215)%nat)
  then ascii_of_nat (n + 32) else c.

(** [String.prototype.toUpperCase]: the sharp s (U+00DF) becomes "SS". *)
Fixpoint toUpperCase (s : string) : string :=
  match s with
  | "" => ""
  | String c s' =>
      if (code c =? 223)%nat then String "S" (String "S" (toUpperCase s'))
      else String (upper_unit c) (toUpperCase s')
  end.

Fixpoint toLowerCase (s : string) : string :=
  match s with
  | "" => ""
  | String c s' => String (lower_unit c) (toLowerCase s')
  end.

(** White space and line terminators of ECMAScript that are Latin-1. *)
Definition isSpace (c : ascii) : bool :=
  let n := code c in between 9 13 n || (n =? 32)%nat || (n =? 160)%nat.

Fixpoint trimStart (s : string) : string :=
  match s with
  | "" => ""
  | String c s' => if isSpace c then trimStart s' else s
  end.

Fixpoint trimEnd (s : string) : string :=
  match s with
  | "" => ""
  | String c s' =>
      let r := trimEnd s' in
      if isSpace c && String.eqb r "" then "" else String c r
  end.

Definition trim (s : string) : string := trimEnd (trimStart s).

Definition startsWith (s p : string) : bool := String.prefix p s.

Fixpoint includes (s sub : string) : bool :=
  String.prefix sub s ||
  match s with
  | "" => false
  | String _ s' => includes s' sub
  end.

(** [s.substring(a, b)] for [a <= b], and [s.substring(a)]. *)
Definition substring (s : string) (a b : nat) : string :=
  String.substring a (b - a) s.

Definition substringFrom (s : string) (a : nat) : string :=
  String.substring a (String.length s - a) s.

(** [s.split(sep)] for a one-character separator: never empty. *)
Fixpoint split (sep : ascii) (s : string) : list string :=
  match s with
  | "" => [""]
  | String c s' =>
      if Ascii.eqb c sep then "" :: split sep s'
      else match split sep s' with
           | h :: t => String c h :: t
           | [] => [String c ""]
           end
  end.

(** A string in a condition: the empty string is falsy. *)
Definition truthy (s : string) : bool := negb (String.eqb s "").

(** [`${n}`] for a natural number. *)
Definition ofNat (n : nat) : string := NilZero.string_of_uint (Nat.to_uint n).

Definition ofZ (z : Z) : string := NilZero.string_of_int (Z.to_int z).

(** [o || d] on an optional string: [undefined] and [''] both give [d]. *)
Definition orElse (o : option string) (d : string) : string :=
  match o with
  | Some s => if truthy s then s else d
  | None => d
  end.

(** [GetSubstitution] for [String.prototype.replace] with a string pattern
    (no captures): [$$], [$&], [$`] and [$'] are expanded, every other
    character, a [$] before a digit included, stands for itself. *)
Fixpoint getSubstitution (matched before after template : string) : string :=
  match template with
  | "" => ""
  | String c t =>
      if Ascii.eqb c "$" then
        match t with
        | String d t' =>
            if Ascii.eqb d "$" then String "$" (getSubstitution matched before after t')
            else if Ascii.eqb d "&" then matched ++ getSubstitution matched before after t'
            else if Ascii.eqb d "`" then before ++ getSubstitution matched before after t'
            else if Ascii.eqb d "'" then after ++ getSubstitution matched before after t'
            else String c (getSubstitution matched before after t)
        | "" => String c ""
        end
      else String c (getSubstitution matched before after t)
  end.

(** [s.replace(pat, template)] for a string [pat]: the first occurrence. *)
Fixpoint replaceAt (before s pat template : string) : string :=
  if String.prefix pat s then
    before ++ getSubstitution pat before
                (String.substring (String.length pat) (String.length s) s) template
           ++ String.substring (String.length pat) (String.length s) s
  else
    match s with
    | "" => before
    | String c s' => replaceAt (before ++ String c "") s' pat template
    end.

Definition replace (s pat template : string) : string :=
  replaceAt "" s pat template.

End JS.

(* ================================================================== *)
(** * Regular expressions *)
(* ================================================================== *)

(** A backtracking matcher for the fragment the analyzer's patterns use:
    sequences, ordered alternatives, greedy repetition, capture groups,
    [^], [$] and [\b].  Alternatives are tried left to right and a
    repetition takes as many rounds as it can before giving one back, as
    ECMAScript prescribes. *)
Module RegExp.

Inductive re : Type :=
  | Eps
  | Chr (p : ascii -> bool)
  | Seq (a b : re)
  | Alt (a b : re)
  | Star (a : re)
  | Bol
  | Eol
  | WordB
  | Grp (n : nat) (a : re).

Definition Plus (a : re) : re := Seq a (Star a).
Definition Opt (a : re) : re := Alt a Eps.

(** A position in the subject: the index, the character before it and the
    characters from it on. *)
Record cursor := { pos : nat; prev : option ascii; rest : list ascii }.

(** Start and end index of each capture group that took part. *)
Definition captures := list (nat * (nat * nat)).

Definition isWord (c : ascii) : bool :=
  let n := JS.code c in
  JS.between 48 57 n || JS.between 65 90 n || JS.between 97 122 n || (n =? 95)%nat.

Definition isWordAt (o : option ascii) : bool :=
  match o with Some c => isWord c | None => false end.

Definition advance (c : cursor) : option cursor :=
  match rest c with
  | [] => None
  | a :: s => Some {| pos := S (pos c); prev := Some a; rest := s |}
  end.

Fixpoint run (r : re) (c : cursor) (cs : captures)
    (k : cursor -> captures -> option (nat * captures)) : option (nat * captures) :=
  match r with
  | Eps => k c cs
  | Chr p =>
      match rest c with
      | a :: s => if p a then k {| pos := S (pos c); prev := Some a; rest := s |} cs else None
      | [] => None
      end
  | Seq a b => run a c cs (fun c' cs' => run b c' cs' k)
  | Alt a b =>
      match run a c cs k with
      | Some res => Some res
      | None => run b c cs k
      end
  | Star a =>
      (fix rounds (n : nat) (c : cursor) (cs : captures) : option (nat * captures) :=
         match n with
         | O => k c cs
         | S n' =>
             match run a c cs (fun c' cs' =>
                       if (pos c <? pos c')%nat then rounds n' c' cs' else None) with
             | Some res => Some res
             | None => k c cs
             end
         end) (S (length (rest c))) c cs
  | Bol => if (pos c =? 0)%nat then k c cs else None
  | Eol => match rest c with [] => k c cs | _ => None end
  | WordB =>
      if xorb (isWordAt (prev c)) (isWordAt (head (rest c))) then k c cs else None
  | Grp n a => run a c cs (fun c' cs' => k c' ((n, (pos c, pos c')) :: cs'))
  end.

(** One attempt at the cursor: the end index of the match and its groups. *)
Definition matchAt (r : re) (c : cursor) : option (nat * captures) :=
  run r c [] (fun c' cs => Some (pos c', cs)).

(** The leftmost match at or after the cursor: start, end, groups. *)
Fixpoint search (r : re) (p : nat) (pv : option ascii) (s : list ascii)
    : option (nat * nat * captures) :=
  match matchAt r {| pos := p; prev := pv; rest := s |} with
  | Some (e, cs) => Some (p, e, cs)
  | None =>
      match s with
      | [] => None
      | a :: s' => search r (S p) (Some a) s'
      end
  end.

(** The cursor [i] characters into the subject, when it is that long. *)
Fixpoint seek (i : nat) (c : cursor) : option cursor :=
  match i with
  | O => Some c
  | S i' => match advance c with Some c' => seek i' c' | None => None end
  end.

Definition start (s : string) : cursor :=
  {| pos := 0; prev := None; rest := list_ascii_of_string s |}.

Definition searchFrom (r : re) (s : string) (i : nat) : option (nat * nat * captures) :=
  match seek i (start s) with
  | Some c => search r (pos c) (prev c) (rest c)
  | None => None
  end.

(** A regular expression object: the pattern, the [g] flag and the mutable
    [lastIndex]. *)
Record t := { source : re; global : bool; lastIndex : nat }.

Definition compile (r : re) (g : bool) : t :=
  {| source := r; global := g; lastIndex := 0 |}.

(** [RegExpBuiltinExec]: a global expression starts at [lastIndex], stores
    the end of the match there, and resets it to 0 when nothing matches. *)
Definition exec (rx : t) (s : string) : option (nat * nat * captures) * t :=
  let i := if global rx then lastIndex rx else 0 in
  match searchFrom (source rx) s i with
  | Some (b, e, cs) =>
      (Some (b, e, cs),
       if global rx then {| source := source rx; global := true; lastIndex := e |} else rx)
  | None =>
      (None,
       if global rx then {| source := source rx; global := true; lastIndex := 0 |} else rx)
  end.

(** [rx.test(s)]. *)
Definition test (rx : t) (s : string) : bool * t :=
  let '(m, rx') := exec rx s in (bool_decide (is_Some m), rx').

(** [test] on an expression without the [g] flag leaves nothing behind. *)
Definition matches (r : re) (s : string) : bool :=
  fst (test (compile r false) s).

(** All matches of a global expression from index 0, as [s.match(rx)] and
    [s.replace(rx, ...)] enumerate them: each search resumes where the
    match before it ended, one further after an empty match. *)
Fixpoint allFrom (fuel : nat) (r : re) (s : string) (i : nat)
    : list (nat * nat * captures) :=
  match fuel with
  | O => []
  | S fuel' =>
      match searchFrom r s i with
      | Some (b, e, cs) =>
          (b, e, cs) :: allFrom fuel' r s (if (e =? b)%nat then S e else e)
      | None => []
      end
  end.

Definition matchAll (r : re) (s : string) : list (nat * nat * captures) :=
  allFrom (S (String.length s)) r s 0.

Definition group (s : string) (cs : captures) (n : nat) : string :=
  match List.find (fun g => (fst g =? n)%nat) cs with
  | Some (_, (b, e)) => JS.substring s b e
  | None => ""
  end.

(** ** Building patterns *)

Definition char (c : ascii) : re := Chr (Ascii.eqb c).
Definition charI (c : ascii) : re :=
  Chr (fun x => Ascii.eqb (JS.upper_unit x) (JS.upper_unit c)).

(** A literal, case sensitive or (flag [i]) not. *)
Fixpoint text (ignoreCase : bool) (s : string) : re :=
  match s with
  | "" => Eps
  | String c s' => Seq (if ignoreCase then charI c else char c) (text ignoreCase s')
  end.

Fixpoint anyOf (rs : list re) : re :=
  match rs with
  | [] => Chr (fun _ => false)
  | [r] => r
  | r :: rs' => Alt r (anyOf rs')
  end.

Definition digit : re := Chr (fun c => JS.between 48 57 (JS.code c)).
Definition space : re := Chr JS.isSpace.
Definition oneOf (s : string) : re :=
  Chr (fun c => bool_decide (c ∈ list_ascii_of_string s)).
Definition noneOf (p : ascii -> bool) : re := Chr (fun c => negb (p c)).
(** [.]: anything but a line terminator. *)
Definition dot : re := Chr (fun c => negb ((JS.code c =? 10)%nat || (JS.code c =? 13)%nat)).

End RegExp.

(* ================================================================== *)
(** * The codec's view of a workbook *)
(* ================================================================== *)

Module XLSX.

(** [cell.t]: 'b', 'n', 'e', 's', 'd' and 'z'. *)
Inductive ExcelDataType := TBoolean | TNumber | TError | TString | TDate | TStub.

(** [cell.v]: a string, a number or a boolean. *)
Inductive CellValue :=
  | VString (s : string)
  | VNumber (z : Z)
  | VBoolean (b : bool).

(** The fields of a cell object the analyzer reads or writes. *)
Record CellObject := { t : ExcelDataType; v : option CellValue; f : option string }.

Record CellAddress := { r : nat; c : nat }.
Record Range := { s : CellAddress; e : CellAddress }.

(** A sheet: ['!ref'] already decoded (absent when the key is missing or
    empty), ['!merges'], and the cell objects under their A1-style keys. *)
Record WorkSheet := {
  ref : option Range;
  merges : option (list Range);
  cells : gmap string CellObject
}.

Record WorkBook := {
  SheetNames : list string;
  Sheets : gmap string WorkSheet
}.

(** [v.toString()]. *)
Definition toString (x : CellValue) : string :=
  match x with
  | VString s => s
  | VNumber z => JS.ofZ z
  | VBoolean true => "true"
  | VBoolean false => "false"
  end.

(** A value in a condition: [''], [0] and [false] are falsy. *)
Definition truthy (x : CellValue) : bool :=
  match x with
  | VString s => JS.truthy s
  | VNumber z => negb (z =? 0)%Z
  | VBoolean b => b
  end.

(** [cell.v?.toString() || ''] *)
Definition valueText (cell : CellObject) : string :=
  match v cell with
  | Some x => toString x
  | None => ""
  end.

(** [cell.f || ''] *)
Definition formulaText (cell : CellObject) : string := JS.orElse (f cell) "".

(** [cell && cell.v] in a condition. *)
Definition hasValue (o : option CellObject) : bool :=
  match o with
  | Some cell => match v cell with Some x => truthy x | None => false end
  | None => false
  end.

(** [cell && cell.f] in a condition. *)
Definition hasFormula (o : option CellObject) : bool :=
  match o with
  | Some cell => JS.truthy (formulaText cell)
  | None => false
  end.

Fixpoint encode_col_loop (fuel col : nat) (acc : string) : string :=
  match fuel with
  | O => acc
  | S fuel' =>
      if (col =? 0)%nat then acc
      else encode_col_loop fuel' ((col - 1) / 26)
             (String (ascii_of_nat ((col - 1) mod 26 + 65)) acc)
  end.

(** Modelled from the spec: the codec's [utils.encode_col], the column label
    of a 0-based column index (0 is "A", 25 is "Z", 26 is "AA"); the
    library's loop [for (++col; col; col = floor((col-1)/26))] prepends one
    letter per round. *)
Definition encode_col (col : nat) : string := encode_col_loop (S col) (S col) "".

(** Modelled from the spec: the codec's [utils.encode_cell], the A1-style
    address of a 0-based (row, column) pair. *)
Definition encode_cell (a : CellAddress) : string :=
  encode_col (c a) ++ JS.ofNat (r a + 1).

Definition A1 : Range := {| s := {| r := 0; c := 0 |}; e := {| r := 0; c := 0 |} |}.

(** [XLSX.utils.decode_range(worksheet['!ref'] || 'A1')] *)
Definition rangeOf (worksheet : WorkSheet) : Range :=
  match ref worksheet with Some rg => rg | None => A1 end.

(** [worksheet[address]] *)
Definition cellAt (worksheet : WorkSheet) (address : string) : option CellObject :=
  cells worksheet !! address.

End XLSX.

(* ================================================================== *)
(** * Findings *)
(* ================================================================== *)

Inductive Severity := critical | warning | info.

Record ErrorDetail := {
  row : nat;
  col : string;
  type : string;
  value : string;
  proposed : option string;
  reason : option string;
  sheet : option string;
  severity : option Severity
}.

(* ================================================================== *)
(** * The pattern library *)
(* ================================================================== *)

Import RegExp.

(** An alternation of literal signatures with the flags [gi]. *)
Definition signatures (alts : list string) : RegExp.t :=
  compile (anyOf (map (fun a => text true (JS.lit a)) alts)) true.

Definition ERROR_PATTERNS : list (string * RegExp.t) :=
  [ ("REF", signatures ["#REF!"; "#REF?"]);
    ("VALUE", signatures ["#VALUE!"; "#VALOR!"]);
    ("NAME", signatures ["#NAME?"; "#NOME?"]);
    ("DIV", signatures ["#DIV/0!"; "#DIV!"; "#DIV/0?"]);
    ("NULL", signatures ["#NULL!"; "#NULO!"]);
    ("NA", signatures ["#N/A"; "#N/D"; "#ND"]);
    ("NUM", signatures ["#NUM!"; "#NÚM!"]);
    ("GETTING_DATA", signatures ["#GETTING_DATA"; "#OBTENDO_DADOS"]) ].

Definition notSpaceOrAt : re := noneOf (fun c => JS.isSpace c || Ascii.eqb c "@").

(** [/^-?\d+\.?\d*$/] *)
Definition NUMBER_PATTERN : re :=
  Seq Bol (Seq (Opt (char "-")) (Seq (Plus digit)
    (Seq (Opt (char ".")) (Seq (Star digit) Eol)))).

(** [/^\d{1,2}[/-]\d{1,2}[/-]\d{2,4}$/] *)
Definition DATE_PATTERN : re :=
  Seq Bol (Seq digit (Seq (Opt digit) (Seq (oneOf "/-")
    (Seq digit (Seq (Opt digit) (Seq (oneOf "/-")
      (Seq digit (Seq digit (Seq (Opt (Seq digit (Opt digit))) Eol))))))))).

(** [/^[R$€£¥₹]\s*-?\d+[.,]?\d*$/]; of the six symbols, four are Latin-1. *)
Definition CURRENCY_PATTERN : re :=
  Seq Bol (Seq (oneOf (JS.lit "R$£¥")) (Seq (Star space) (Seq (Opt (char "-"))
    (Seq (Plus digit) (Seq (Opt (oneOf ".,")) (Seq (Star digit) Eol)))))).

(** [/^[^\s@]+@[^\s@]+\.[^\s@]+$/] *)
Definition EMAIL_PATTERN : re :=
  Seq Bol (Seq (Plus notSpaceOrAt) (Seq (char "@") (Seq (Plus notSpaceOrAt)
    (Seq (char ".") (Seq (Plus notSpaceOrAt) Eol))))).

(** [/^[\d\s\(\)\-\+]+$/] *)
Definition PHONE_PATTERN : re :=
  Seq Bol (Seq (Plus (Chr (fun c =>
    JS.between 48 57 (JS.code c) || JS.isSpace c
    || bool_decide (c ∈ list_ascii_of_string "()-+")))) Eol).

(** [/VLOOKUP|PROCV/gi] and [/HLOOKUP|PROCH/gi] *)
Definition VLOOKUP_REGEX : RegExp.t := signatures ["VLOOKUP"; "PROCV"].
Definition HLOOKUP_REGEX : RegExp.t := signatures ["HLOOKUP"; "PROCH"].

(** The mutable objects of the module: what one call of the analyzer leaves
    in them is what the next call finds. *)
Record Realm := {
  patterns : list (string * RegExp.t);
  vlookup : RegExp.t;
  hlookup : RegExp.t
}.

(** The realm right after the module is loaded. *)
Definition fresh : Realm :=
  {| patterns := ERROR_PATTERNS; vlookup := VLOOKUP_REGEX; hlookup := HLOOKUP_REGEX |}.

(** Computations that read and write the realm. *)
Definition M (A : Type) : Type := Realm -> A * Realm.

Definition ret {A : Type} (a : A) : M A := fun g => (a, g).

Definition bind {A B : Type} (m : M A) (k : A -> M B) : M B :=
  fun g => let (a, g') := m g in k a g'.

Notation "x <- m ;; k" := (bind m (fun x => k))
  (at level 100, m at next level, right associativity).

(** [VLOOKUP_REGEX.test(s)] and [HLOOKUP_REGEX.test(s)] *)
Definition testVLOOKUP (subject : string) : M bool :=
  fun g =>
    let (b, rx) := test (vlookup g) subject in
    (b, {| patterns := patterns g; vlookup := rx; hlookup := hlookup g |}).

Definition testHLOOKUP (subject : string) : M bool :=
  fun g =>
    let (b, rx) := test (hlookup g) subject in
    (b, {| patterns := patterns g; vlookup := vlookup g; hlookup := rx |}).

(** The loop over [Object.entries(ERROR_PATTERNS)] up to its [break]: the
    kind of the first entry whose pattern matches the value or, failing
    that, the formula.  Every [test] on the way moves that pattern's
    [lastIndex]. *)
Fixpoint scanPatterns (ps : list (string * RegExp.t)) (cellValue cellFormula : string)
    : option string * list (string * RegExp.t) :=
  match ps with
  | [] => (None, [])
  | (errorType, pattern) :: ps' =>
      let (onValue, p1) := test pattern cellValue in
      let (hit, p2) := if onValue then (true, p1) else test p1 cellFormula in
      if hit then (Some errorType, (errorType, p2) :: ps')
      else
        let (found, ps'') := scanPatterns ps' cellValue cellFormula in
        (found, (errorType, p2) :: ps'')
  end.

Definition firstSignature (cellValue cellFormula : string) : M (option string) :=
  fun g =>
    let (found, ps) := scanPatterns (patterns g) cellValue cellFormula in
    (found, {| patterns := ps; vlookup := vlookup g; hlookup := hlookup g |}).

(* ================================================================== *)
(** * Detectors *)
(* ================================================================== *)

Import XLSX.

(** [/\bIF\(/g] *)
Definition IF_CALL : re := Seq WordB (text false "IF(").

(** [/([A-Z]+)(\d+)/g] *)
Definition CELL_REFERENCE : re :=
  Seq (Grp 1 (Plus (Chr (fun c => JS.between 65 90 (JS.code c))))) (Grp 2 (Plus digit)).

(** [s.replace(rx, ...)] for a global expression: every match, left to
    right, gives way to what [render] makes of it. *)
Fixpoint splice (subject : string) (from : nat) (ms : list (nat * nat * captures))
    (render : nat -> nat -> captures -> string) : string :=
  match ms with
  | [] => JS.substringFrom subject from
  | (b, e, cs) :: ms' => JS.substring subject from b ++ render b e cs ++ splice subject e ms' render
  end.

Definition replaceAll (rx : re) (subject : string)
    (render : nat -> nat -> captures -> string) : string :=
  splice subject 0 (matchAll rx subject) render.

(** [formula.replace(/([A-Z]+)(\d+)/g, '$$$1$$$2')] *)
Definition lockReferences (formula : string) : string :=
  replaceAll CELL_REFERENCE formula
    (fun _ _ cs => "$" ++ group formula cs 1 ++ "$" ++ group formula cs 2).

Definition detectFormulaIssues (formula cellAddress sheetName : string) (R C : nat)
    : M (option ErrorDetail) :=
  let upperFormula := JS.toUpperCase formula in
  if (500 <? String.length formula)%nat then
    ret (Some {|
      row := R + 1;
      col := encode_col C;
      type := "COMPLEX_FORMULA";
      value := "=" ++ JS.substring formula 0 100 ++ "...";
      sheet := Some sheetName;
      severity := Some info;
      reason := Some (JS.lit
        "Fórmula muito longa e complexa. Considere dividir em células auxiliares.");
      proposed := None |})
  else
    let ifCount := length (matchAll IF_CALL upperFormula) in
    if (5 <? ifCount)%nat then
      ret (Some {|
        row := R + 1;
        col := encode_col C;
        type := "NESTED_IFS";
        value := "=" ++ formula;
        sheet := Some sheetName;
        severity := Some warning;
        reason := Some (JS.ofNat ifCount ++ JS.lit
          " funções IF aninhadas detectadas. Considere usar SWITCH ou tabelas de referência.");
        proposed := None |})
    else
      isLookup <- testVLOOKUP upperFormula ;;
      if isLookup && negb (JS.includes formula "$") then
        ret (Some {|
          row := R + 1;
          col := encode_col C;
          type := "VLOOKUP_NO_LOCK";
          value := "=" ++ formula;
          sheet := Some sheetName;
          severity := Some warning;
          reason := Some (JS.lit
            "VLOOKUP/PROCV sem referências absolutas ($). Pode causar erros ao copiar.");
          proposed := Some ("=" ++ lockReferences formula) |})
      else ret None.

Definition detectEmptyGaps (worksheet : WorkSheet) (R C : nat) (range : Range)
    (sheetName : string) : option ErrorDetail :=
  let cell := cellAt worksheet (encode_cell {| r := R; c := C |}) in
  if hasValue cell then None
  else
    let hasAbove :=
      existsb (fun R' => hasValue (cellAt worksheet (encode_cell {| r := R'; c := C |})))
        (seq (r (s range)) (R - r (s range))) in
    let hasBelow :=
      existsb (fun R' => hasValue (cellAt worksheet (encode_cell {| r := R'; c := C |})))
        (seq (R + 1) (r (e range) - R)) in
    if hasAbove && hasBelow then
      Some {|
        row := R + 1;
        col := encode_col C;
        type := "EMPTY_GAP";
        value := "(vazio)";
        sheet := Some sheetName;
        severity := Some info;
        reason := Some (JS.lit
          "Célula vazia detectada em meio aos dados. Pode indicar informação faltante.");
        proposed := None |}
    else None.

(** The format of a displayed value, as [detectFormatInconsistencies] names it. *)
Definition formatOf (text : string) : string :=
  if matches NUMBER_PATTERN text then "number"
  else if matches DATE_PATTERN text then "date"
  else if matches EMAIL_PATTERN text then "email"
  else if matches PHONE_PATTERN text && (8 <? String.length text)%nat then "phone"
  else if matches CURRENCY_PATTERN text then "currency"
  else "text".

(** A [Map] in insertion order: [upsert] changes the entry of a key in place
    or appends a new entry made from the default. *)
Fixpoint upsert {K V : Type} (same : K -> K -> bool) (k : K) (change : V -> V)
    (default : V) (entries : list (K * V)) : list (K * V) :=
  match entries with
  | [] => [(k, change default)]
  | (k', x) :: rest =>
      if same k' k then (k', change x) :: rest
      else (k', x) :: upsert same k change default rest
  end.

Definition detectFormatInconsistencies (worksheet : WorkSheet) (sheetName : string)
    (range : Range) : list ErrorDetail :=
  flat_map (fun C =>
    let columnFormats : list (string * list nat) :=
      fold_left (fun acc R =>
        let cell := cellAt worksheet (encode_cell {| r := R; c := C |}) in
        if hasValue cell then
          let text := from_option valueText "" cell in
          upsert String.eqb (formatOf text) (fun rows => app rows [R]) [] acc
        else acc)
        (seq (r (s range)) (r (e range) + 1 - r (s range))) [] in
    if (1 <? length columnFormats)%nat then
      let formats := map fst columnFormats in
      let mainFormat :=
        JS.orElse (List.find (fun fmt => negb (String.eqb fmt "text")) formats) "text" in
      flat_map (fun entry : string * list nat =>
        let (format, rows) := entry in
        if negb (String.eqb format mainFormat) && (length rows <? 5)%nat then
          map (fun R =>
            let cell := cellAt worksheet (encode_cell {| r := R; c := C |}) in
            {| row := R + 1;
               col := encode_col C;
               type := "FORMAT_MISMATCH";
               value := from_option valueText "" cell;
               sheet := Some sheetName;
               severity := Some info;
               reason := Some (JS.lit "Formato " ++ JS.dq ++ format ++ JS.dq
                 ++ JS.lit " detectado em coluna com formato predominante "
                 ++ JS.dq ++ mainFormat ++ JS.dq ++ ".");
               proposed := None |}) rows
        else []) columnFormats
    else [])
    (seq (c (s range)) (c (e range) + 1 - c (s range))).

Definition validateDataType (cell : CellObject) (R C : nat) (sheetName : string)
    (worksheet : WorkSheet) (range : Range) : option ErrorDetail :=
  let cellValue := valueText cell in
  let colLetter := encode_col C in
  let counts : nat * nat :=
    fold_left (fun (acc : nat * nat) R' =>
      let (numericCount, textCount) := acc in
      match cellAt worksheet (encode_cell {| r := R'; c := C |}) with
      | None => acc
      | Some checkCell =>
          if JS.truthy (formulaText checkCell) then acc
          else
            let val := valueText checkCell in
            if matches NUMBER_PATTERN val then (numericCount + 1, textCount)
            else if (0 <? String.length val)%nat then (numericCount, textCount + 1)
            else acc
      end)
      (seq (r (s range)) (Nat.min (r (s range) + 20) (r (e range)) + 1 - r (s range)))
      (0, 0) in
  let (numericCount, textCount) := counts in
  (* textCount < numericCount / 3, a division of reals *)
  if (5 <? numericCount)%nat && (3 * textCount <? numericCount)%nat then
    if negb (matches NUMBER_PATTERN cellValue) && (0 <? String.length cellValue)%nat then
      Some {|
        row := R + 1;
        col := colLetter;
        type := "TYPE_MISMATCH";
        value := cellValue;
        sheet := Some sheetName;
        severity := Some warning;
        reason := Some (JS.lit
          "Texto detectado em coluna numérica. Isso pode causar erros em cálculos.");
        proposed := None |}
    else None
  else None.

Definition validateMergedCell (merge : Range) (sheetName : string)
    (worksheet : WorkSheet) : option ErrorDetail :=
  let startCell := encode_cell {| r := r (s merge); c := c (s merge) |} in
  let endCell := encode_cell {| r := r (e merge); c := c (e merge) |} in
  if hasFormula (cellAt worksheet startCell) then
    Some {|
      row := r (s merge) + 1;
      col := encode_col (c (s merge));
      type := "MERGED_FORMULA";
      value := "Mesclado " ++ startCell ++ ":" ++ endCell;
      sheet := Some sheetName;
      severity := Some warning;
      reason := Some (JS.lit
        "Célula mesclada contém fórmula, o que pode causar comportamento inesperado.");
      proposed := None |}
  else None.

(** The expression of [validateCrossSheetReferences], flag [g]: an optional
    quote (single or double), group 1 made of one or more characters that
    are neither a quote nor an exclamation mark, an optional quote, and an
    exclamation mark. *)
Definition sheetRefPattern : re :=
  let quote := oneOf ("'" ++ JS.dq) in
  Seq (Opt quote)
    (Seq (Grp 1 (Plus (noneOf (fun x => bool_decide (x ∈ list_ascii_of_string ("'" ++ JS.dq ++ "!"))))))
      (Seq (Opt quote) (char "!"))).

(** [`${workbook.SheetNames[0]}`]: a missing element prints as "undefined". *)
Definition firstSheetName (workbook : WorkBook) : string :=
  match SheetNames workbook with
  | name :: _ => name
  | [] => "undefined"
  end.

Definition validateCrossSheetReferences (worksheet : WorkSheet) (sheetName : string)
    (workbook : WorkBook) (range : Range) : list ErrorDetail :=
  flat_map (fun R =>
    flat_map (fun C =>
      let cellAddress := encode_cell {| r := R; c := C |} in
      let cell := cellAt worksheet cellAddress in
      if hasFormula cell then
        let formula := from_option formulaText "" cell in
        (* the expression is back at lastIndex 0 whenever the loop below ends *)
        flat_map (fun m : nat * nat * captures =>
          let '(b, e', cs) := m in
          let referencedSheet := group formula cs 1 in
          if bool_decide (referencedSheet ∈ SheetNames workbook) then []
          else
            [ {| row := R + 1;
                 col := encode_col C;
                 type := "CROSS_SHEET_REF";
                 value := "=" ++ formula;
                 sheet := Some sheetName;
                 severity := Some critical;
                 reason := Some (JS.lit "Referência a sheet inexistente: "
                   ++ JS.dq ++ referencedSheet ++ JS.dq);
                 proposed := Some ("=" ++ JS.replace formula (JS.substring formula b e')
                   (firstSheetName workbook ++ "!")) |} ])
          (matchAll sheetRefPattern formula)
      else [])
      (seq (c (s range)) (c (e range) + 1 - c (s range))))
    (seq (r (s range)) (r (e range) + 1 - r (s range))).

(* ================================================================== *)
(** * The fix proposer *)
(* ================================================================== *)

Module Proposal.
Record t := { formula : string; reason : string }.
End Proposal.

(** [/\(([^)]+)\)/] *)
Definition ARGUMENT_LIST : re :=
  Seq (char "(") (Seq (Grp 1 (Plus (noneOf (Ascii.eqb ")")))) (char ")")).

Definition commonFixes : list (string * string) :=
  [ ("SOMA", "SUM"); ("SE", "IF"); ("CONT.SE", "COUNTIF"); ("SOMASE", "SUMIF") ].

(** The alias read as pattern text: a dot stands for any character. *)
Fixpoint aliasBody (wrong : string) : re :=
  match wrong with
  | "" => Eps
  | String x w => Seq (if Ascii.eqb x "." then dot else charI x) (aliasBody w)
  end.

(** [new RegExp(`\\b${wrong}\\b`, 'gi')] *)
Definition aliasPattern (wrong : string) : re :=
  Seq WordB (Seq (aliasBody wrong) WordB).

(** The loop over [Object.entries(commonFixes)]: the first alias found in the
    formula is rewritten wherever it occurs, and the loop returns.  Each
    expression is new, so its first [test] starts at index 0. *)
Fixpoint fixName (fixes : list (string * string)) (formula : string) : option Proposal.t :=
  match fixes with
  | [] => None
  | (wrong, correct) :: others =>
      if matches (aliasPattern wrong) formula then
        Some {|
          Proposal.formula :=
            "=" ++ replaceAll (aliasPattern wrong) formula (fun _ _ _ => correct);
          Proposal.reason :=
            JS.lit "Nome de função corrigido de " ++ wrong ++ " para " ++ correct ++ "." |}
      else fixName others formula
  end.

(** The rebuilt lookup of the first branch, when the formula has a
    parenthesised argument list of three or more arguments. *)
Definition rebuildLookup (formula : string) (range : Range) : option Proposal.t :=
  let lastCol := encode_col (c (e range)) in
  let lastRow := r (e range) + 1 in
  let suggestedRange := "A1:" ++ lastCol ++ JS.ofNat lastRow in
  match searchFrom ARGUMENT_LIST formula 0 with
  | Some (_, _, cs) =>
      let args := map JS.trim (JS.split "," (group formula cs 1)) in
      if (3 <=? length args)%nat then
        let proposed :=
          "VLOOKUP(" ++ nth 0 args "" ++ ", " ++ suggestedRange ++ ", "
            ++ nth 2 args "" ++ ", FALSE)" in
        Some {|
          Proposal.formula := "=" ++ proposed;
          Proposal.reason := JS.lit
            "Substituído o intervalo quebrado (#REF!) por um range dinâmico baseado nos dados disponíveis." |}
      else None
  | None => None
  end.

Definition proposeFixForError (error : ErrorDetail) (formula : string)
    (worksheet : WorkSheet) (range : Range) (workbook : WorkBook)
    : M (option Proposal.t) :=
  if negb (JS.truthy formula) then ret None
  else
    let upperFormula := JS.toUpperCase formula in
    isBrokenLookup <-
      (if String.eqb (type error) "REF" then
         onV <- testVLOOKUP upperFormula ;;
         if onV then ret true else testHLOOKUP upperFormula
       else ret false) ;;
    match (if isBrokenLookup then rebuildLookup formula range else None) with
    | Some p => ret (Some p)
    | None =>
        if String.eqb (type error) "VALUE" then
          ret (Some {|
            Proposal.formula := "=IFERROR(" ++ formula ++ ", 0)";
            Proposal.reason := JS.lit
              "Encapsulado com IFERROR para tratar o erro #VALUE! e retornar 0 em caso de falha." |})
        else
          match (if String.eqb (type error) "NAME"
                 then fixName commonFixes formula else None) with
          | Some p => ret (Some p)
          | None =>
              if String.eqb (type error) "DIV" then
                ret (Some {|
                  Proposal.formula :=
                    "=IFERROR(" ++ formula ++ ", " ++ JS.dq ++ "N/A" ++ JS.dq ++ ")";
                  Proposal.reason := JS.lit
                    "Encapsulado com IFERROR para evitar divisão por zero." |})
              else ret None
          end
    end.

(* ================================================================== *)
(** * The analysis pass *)
(* ================================================================== *)

(** The kind of a cell the codec tagged as an error, sniffed from its value. *)
Definition nativeKind (cellValue : string) : string :=
  let valueUpper := JS.toUpperCase cellValue in
  if JS.includes valueUpper "REF" then "REF"
  else if JS.includes valueUpper "DIV" then "DIV"
  else if JS.includes valueUpper "NAME" || JS.includes valueUpper "NOME" then "NAME"
  else if JS.includes valueUpper "NULL" || JS.includes valueUpper "NULO" then "NULL"
  else if JS.includes valueUpper "N/A" || JS.includes valueUpper "N/D" then "NA"
  else if JS.includes valueUpper "NUM" || JS.includes valueUpper (JS.lit "NÚM") then "NUM"
  else "VALUE".

Definition severityOf (errorType : string) : Severity :=
  if String.eqb errorType "REF" || String.eqb errorType "DIV" then critical else warning.

(** The error object both error branches build, with the proposal the fix
    proposer has for it (the source spells this block out twice). *)
Definition reportError (errorType cellValue cellFormula sheetName : string) (R C : nat)
    (worksheet : WorkSheet) (range : Range) (workbook : WorkBook) : M ErrorDetail :=
  let error := {|
    row := R + 1;
    col := encode_col C;
    type := errorType;
    value := if JS.truthy cellFormula then "=" ++ cellFormula else cellValue;
    sheet := Some sheetName;
    severity := Some (severityOf errorType);
    proposed := None;
    reason := None |} in
  proposal <- proposeFixForError error cellFormula worksheet range workbook ;;
  match proposal with
  | Some p =>
      ret {|
        row := row error;
        col := col error;
        type := type error;
        value := value error;
        sheet := sheet error;
        severity := severity error;
        proposed := Some (Proposal.formula p);
        reason := Some (Proposal.reason p) |}
  | None => ret error
  end.

(** [columnValues]: per column, per normalised text, the rows holding it. *)
Definition ColumnValues : Type := list (nat * list (string * list nat)).

Definition collect (columnValues : ColumnValues) (R C : nat)
    (cellValue cellFormula : string) : ColumnValues :=
  if JS.truthy cellValue && negb (JS.truthy cellFormula) && JS.truthy (JS.trim cellValue)
  then
    let normalizedValue := JS.trim (JS.toLowerCase cellValue) in
    upsert Nat.eqb C
      (fun colMap => upsert String.eqb normalizedValue (fun rows => app rows [R]) [] colMap)
      [] columnValues
  else columnValues.

Definition optional {A : Type} (o : option A) : list A :=
  match o with Some a => [a] | None => [] end.

(** One round of the two nested loops over the sheet's range: what it
    pushes onto [errors], and [columnValues] after it. *)
Definition visitCell (workbook : WorkBook) (worksheet : WorkSheet) (sheetName : string)
    (range : Range) (at_ : nat * nat) (columnValues : ColumnValues)
    : M (list ErrorDetail * ColumnValues) :=
  let (R, C) := at_ in
  let cellAddress := encode_cell {| r := R; c := C |} in
  match cellAt worksheet cellAddress with
  | None => ret ([], columnValues)
  | Some cell =>
      let cellValue := valueText cell in
      let cellFormula := formulaText cell in
      let columnValues' := collect columnValues R C cellValue cellFormula in
      match t cell with
      | TError =>
          error <- reportError (nativeKind cellValue) cellValue cellFormula sheetName R C
                     worksheet range workbook ;;
          ret ([error], columnValues')
      | _ =>
          found <- firstSignature cellValue cellFormula ;;
          signatureError <-
            match found with
            | Some errorType =>
                error <- reportError errorType cellValue cellFormula sheetName R C
                           worksheet range workbook ;;
                ret [error]
            | None => ret []
            end ;;
          formulaIssue <-
            (if JS.truthy cellFormula
             then detectFormulaIssues cellFormula cellAddress sheetName R C
             else ret None) ;;
          let typeError :=
            if JS.truthy cellValue && negb (JS.truthy cellFormula)
            then validateDataType cell R C sheetName worksheet range
            else None in
          let emptyGapError := detectEmptyGaps worksheet R C range sheetName in
          ret (app signatureError
                 (app (optional formulaIssue)
                    (app (optional typeError) (optional emptyGapError))),
               columnValues')
      end
  end.

(** A loop that pushes findings and carries a local variable along. *)
Fixpoint forEach {A S : Type} (xs : list A) (local : S)
    (body : A -> S -> M (list ErrorDetail * S)) : M (list ErrorDetail * S) :=
  match xs with
  | [] => ret ([], local)
  | x :: xs' =>
      res <- body x local ;;
      more <- forEach xs' (snd res) body ;;
      ret (app (fst res) (fst more), snd more)
  end.

(** The positions of a range, row by row. *)
Definition positions (range : Range) : list (nat * nat) :=
  flat_map (fun R =>
    map (fun C => (R, C)) (seq (c (s range)) (c (e range) + 1 - c (s range))))
    (seq (r (s range)) (r (e range) + 1 - r (s range))).

(** Step 5: one finding per row of every text that a column holds twice. *)
Definition duplicates (columnValues : ColumnValues) (sheetName : string)
    : list ErrorDetail :=
  flat_map (fun column : nat * list (string * list nat) =>
    let (colIndex, valueMap) := column in
    flat_map (fun entry : string * list nat =>
      let (text, rows) := entry in
      if (1 <? length rows)%nat && (2 <? String.length text)%nat then
        map (fun rowIndex =>
          {| row := rowIndex + 1;
             col := encode_col colIndex;
             type := "DUPLICATE";
             value := text;
             sheet := Some sheetName;
             severity := Some info;
             reason := Some (JS.lit "Valor duplicado encontrado em "
               ++ JS.ofNat (length rows) ++ JS.lit " células desta coluna.");
             proposed := None |}) rows
      else []) valueMap) columnValues.

(** The body of [sheetsToAnalyze.forEach] for a sheet that exists. *)
Definition analyzeSheet (workbook : WorkBook) (sheetName : string)
    (worksheet : WorkSheet) : M (list ErrorDetail) :=
  let range := rangeOf worksheet in
  let mergedCells := default [] (merges worksheet) in
  pass <- forEach (positions range) ([] : ColumnValues)
            (visitCell workbook worksheet sheetName range) ;;
  let (cellErrors, columnValues) := pass in
  ret (app cellErrors
         (app (duplicates columnValues sheetName)
            (app (flat_map (fun merge =>
                    optional (validateMergedCell merge sheetName worksheet)) mergedCells)
               (app (validateCrossSheetReferences worksheet sheetName workbook range)
                  (detectFormatInconsistencies worksheet sheetName range))))).

(** [analyzeExcelFile] on the decoded workbook: the findings in the order
    they were pushed. *)
Definition analyzeExcelFile (workbook : WorkBook) (selectedSheets : option (list string))
    : M (list ErrorDetail) :=
  let sheetsToAnalyze :=
    match selectedSheets with
    | Some (name :: names) => name :: names
    | _ => SheetNames workbook
    end in
  res <- forEach sheetsToAnalyze tt (fun sheetName _ =>
           match Sheets workbook !! sheetName with
           | None => ret ([], tt)
           | Some worksheet =>
               found <- analyzeSheet workbook sheetName worksheet ;;
               ret (found, tt)
           end) ;;
  ret (fst res).

(* ================================================================== *)
(** * The patch applier *)
(* ================================================================== *)

(** [proposed.startsWith('=') ? proposed.substring(1) : proposed] *)
Definition stripEquals (text : string) : string :=
  if JS.startsWith text "=" then JS.substringFrom text 1 else text.

(** [error.sheet || workbook.SheetNames[0]], as a property key. *)
Definition targetSheet (workbook : WorkBook) (error : ErrorDetail) : string :=
  JS.orElse (sheet error) (firstSheetName workbook).

(** [`${error.col}${error.row}`] *)
Definition targetAddress (error : ErrorDetail) : string :=
  col error ++ JS.ofNat (row error).

(** The cell a fix leaves behind: an existing cell keeps its type, gets the
    formula and loses its value; a new cell is a number cell with only the
    formula. *)
Definition patchedCell (old : option CellObject) (formula : string) : CellObject :=
  match old with
  | Some cell => {| t := t cell; v := None; f := Some formula |}
  | None => {| t := TNumber; v := None; f := Some formula |}
  end.

(** The body of [selectedFixes.forEach] for one finding.  A finding without
    a proposal, or with an empty one, is passed over; so is one whose sheet
    the workbook does not have (the source logs a warning there). *)
Definition applyFix (workbook : WorkBook) (error : ErrorDetail) : WorkBook :=
  match proposed error with
  | Some text =>
      if JS.truthy text then
        let sheetName := targetSheet workbook error in
        match Sheets workbook !! sheetName with
        | None => workbook
        | Some worksheet =>
            let cellAddress := targetAddress error in
            let cell := cells worksheet !! cellAddress in
            {| SheetNames := SheetNames workbook;
               Sheets :=
                 <[ sheetName :=
                      {| ref := ref worksheet;
                         merges := merges worksheet;
                         cells :=
                           <[ cellAddress := patchedCell cell (stripEquals text) ]>
                             (cells worksheet) |} ]>
                   (Sheets workbook) |}
        end
      else workbook
  | None => workbook
  end.

(** [applyFixes] on the decoded workbook, the accepted indices in the order
    the set yields them: the workbook handed to the encoder, or nothing when
    an index has no finding (reading [proposed] of [undefined] throws and the
    promise is rejected). *)
Fixpoint applyFixes (workbook : WorkBook) (selectedFixes : list nat)
    (errors : list ErrorDetail) : option WorkBook :=
  match selectedFixes with
  | [] => Some workbook
  | index :: others =>
      match errors !! index with
      | Some error => applyFixes (applyFix workbook error) others errors
      | None => None
      end
  end.

(** [workbook.Sheets[name][address]], nothing when the sheet is missing. *)
Definition cellOf (workbook : WorkBook) (name address : string) : option CellObject :=
  match Sheets workbook !! name with
  | Some worksheet => cells worksheet !! address
  | None => None
  end.

(** A finding [applyFixes] acts on: [if (error.proposed)]. *)
Definition fixable (error : ErrorDetail) : bool :=
  match proposed error with
  | Some text => JS.truthy text
  | None => false
  end.

(* ================================================================== *)
(** * Vocabulary of the statements *)
(* ================================================================== *)

(** No fix of the list aims at the cell. *)
Definition untouched (workbook : WorkBook) (errors : list ErrorDetail) (fixes : list nat) (name address : string) : Prop :=
  ∀ index error,
    index ∈ fixes → errors !! index = Some error → fixable error = true →
    ¬ (targetSheet workbook error = name ∧ targetAddress error = address).


(** What every run of a computation returns, whatever the realm it starts in. *)
Definition yields {A : Type} (m : M A) (Q : A -> Prop) : Prop :=
  forall g, Q (fst (m g)).

(** The kinds of the per-cell heuristics. *)
Definition heuristic (kind : string) : bool :=
  bool_decide (kind ∈ ["COMPLEX_FORMULA"; "NESTED_IFS"; "VLOOKUP_NO_LOCK";
                       "TYPE_MISMATCH"; "EMPTY_GAP"]).

(** Where a finding of [analyzeExcelFile] comes from: the sheet, and either
    the cell whose round of the loop pushed it (with the branch taken) or
    the sheet-wide step that did. *)
Inductive Origin (workbook : WorkBook) : ErrorDetail -> Prop :=
  | from_native_tag sheetName worksheet R C cell g :
      Sheets workbook !! sheetName = Some worksheet ->
      cellAt worksheet (encode_cell {| r := R; c := C |}) = Some cell ->
      t cell = TError ->
      Origin workbook
        (fst (reportError (nativeKind (valueText cell)) (valueText cell) (formulaText cell)
                sheetName R C worksheet (rangeOf worksheet) workbook g))
  | from_signature sheetName worksheet R C cell errorType g :
      Sheets workbook !! sheetName = Some worksheet ->
      cellAt worksheet (encode_cell {| r := R; c := C |}) = Some cell ->
      t cell <> TError ->
      Origin workbook
        (fst (reportError errorType (valueText cell) (formulaText cell)
                sheetName R C worksheet (rangeOf worksheet) workbook g))
  | from_formula sheetName worksheet R C cell g error :
      Sheets workbook !! sheetName = Some worksheet ->
      cellAt worksheet (encode_cell {| r := R; c := C |}) = Some cell ->
      t cell <> TError ->
      fst (detectFormulaIssues (formulaText cell) (encode_cell {| r := R; c := C |})
             sheetName R C g) = Some error ->
      Origin workbook error
  | from_data_type sheetName worksheet R C cell error :
      Sheets workbook !! sheetName = Some worksheet ->
      cellAt worksheet (encode_cell {| r := R; c := C |}) = Some cell ->
      t cell <> TError ->
      validateDataType cell R C sheetName worksheet (rangeOf worksheet) = Some error ->
      Origin workbook error
  | from_empty_gap sheetName worksheet R C cell error :
      Sheets workbook !! sheetName = Some worksheet ->
      cellAt worksheet (encode_cell {| r := R; c := C |}) = Some cell ->
      t cell <> TError ->
      detectEmptyGaps worksheet R C (rangeOf worksheet) sheetName = Some error ->
      Origin workbook error
  | from_duplicates sheetName worksheet columnValues error :
      Sheets workbook !! sheetName = Some worksheet ->
      error ∈ duplicates columnValues sheetName ->
      Origin workbook error
  | from_merge sheetName worksheet merge error :
      Sheets workbook !! sheetName = Some worksheet ->
      validateMergedCell merge sheetName worksheet = Some error ->
      Origin workbook error
  | from_cross_sheet sheetName worksheet error :
      Sheets workbook !! sheetName = Some worksheet ->
      error ∈ validateCrossSheetReferences worksheet sheetName workbook (rangeOf worksheet) ->
      Origin workbook error
  | from_format sheetName worksheet error :
      Sheets workbook !! sheetName = Some worksheet ->
      error ∈ detectFormatInconsistencies worksheet sheetName (rangeOf worksheet) ->
      Origin workbook error.

(** A finding with a non-empty proposal has a non-empty reason. *)
Definition justified (error : ErrorDetail) : Prop :=
  forall text, proposed error = Some text -> text <> "" ->
  exists why, reason error = Some why /\ why <> "".

(** A finding that points at position (R, C) of the sheet. *)
Definition located (sheetName : string) (R C : nat) (error : ErrorDetail) : Prop :=
  row error = R + 1 /\ col error = encode_col C /\ sheet error = Some sheetName.

(* ================================================================== *)
(** * Sample workbooks *)
(* ================================================================== *)

Module Sample.

Definition textCell (text : string) : CellObject :=
  {| t := TString; v := Some (VString text); f := None |}.

Definition numberCell (z : Z) : CellObject :=
  {| t := TNumber; v := Some (VNumber z); f := None |}.

Definition formulaCell (kind : ExcelDataType) (x : CellValue) (formula : string)
    : CellObject :=
  {| t := kind; v := Some x; f := Some formula |}.

(** The range from A1 to the given 0-based row and column. *)
Definition upTo (lastRow lastCol : nat) : Range :=
  {| s := {| r := 0; c := 0 |}; e := {| r := lastRow; c := lastCol |} |}.

Definition sheetOf (range : Range) (content : gmap string CellObject) : WorkSheet :=
  {| ref := Some range; merges := None; cells := content |}.

(** A workbook with the single sheet "S". *)
Definition single (worksheet : WorkSheet) : WorkBook :=
  {| SheetNames := ["S"]; Sheets := {[ "S" := worksheet ]} |}.

(** A1 holds the text #REF!. *)
Definition oneSignature : WorkBook :=
  single (sheetOf (upTo 0 0) {[ "A1" := textCell "#REF!" ]}).

(** A1 and A2 both hold the text #REF!. *)
Definition twoSignatures : WorkBook :=
  single (sheetOf (upTo 1 0) {[ "A1" := textCell "#REF!"; "A2" := textCell "#REF!" ]}).

(** A1 and A3 hold numbers, A2 has no cell. *)
Definition gapSheet : WorkSheet :=
  sheetOf (upTo 2 0) {[ "A1" := numberCell 1; "A3" := numberCell 2 ]}.
Definition gap : WorkBook := single gapSheet.

(** A1 is a healthy lookup, A2 a lookup whose range is broken. *)
Definition brokenLookup : string := "VLOOKUP(B2,#REF!,2)".
Definition twoLookups : WorkBook :=
  single (sheetOf (upTo 1 0)
    {[ "A1" := formulaCell TNumber (VNumber 5) "VLOOKUP(B1,C1:D5,2)";
       "A2" := formulaCell TString (VString "#REF!") brokenLookup ]}).

(** The broken lookup of [twoLookups] alone, in the same place. *)
Definition oneLookup : WorkBook :=
  single (sheetOf (upTo 1 0)
    {[ "A2" := formulaCell TString (VString "#REF!") brokenLookup ]}).

(** A1 is a lookup whose displayed value is the text #N/A. *)
Definition lookupShowingNA : WorkBook :=
  single (sheetOf (upTo 0 0)
    {[ "A1" := formulaCell TString (VString "#N/A") "VLOOKUP(B1,C1:D5,2)" ]}).

(** A1 carries the codec's error tag. *)
Definition taggedCell : CellObject := formulaCell TError (VString "#DIV/0!") "A2/A3".
Definition taggedSheet : WorkSheet := sheetOf (upTo 0 0) {[ "A1" := taggedCell ]}.
Definition tagged : WorkBook := single taggedSheet.
Definition taggedFinding : ErrorDetail :=
  {| row := 1; col := "A"; type := "DIV"; value := "=A2/A3";
     proposed := Some ("=IFERROR(A2/A3, " ++ JS.dq ++ "N/A" ++ JS.dq ++ ")");
     reason := Some (JS.lit "Encapsulado com IFERROR para evitar divisão por zero.");
     sheet := Some "S"; severity := Some critical |}.

(** Forty conditionals in 521 characters, and six in 67. *)
Definition fortyIfs : string :=
  String.concat "" (repeat "IF(A1>0,1,0)+" 40) ++ "0".
Definition sixIfs : string :=
  "IF(A1>0,1,IF(A1>1,2,IF(A1>2,3,IF(A1>3,4,IF(A1>4,5,IF(A1>5,6,7))))))".

(** A sheet with a number in B2, and two findings to apply: one on B2, one
    on a sheet the workbook does not have. *)
Definition ledger : WorkBook :=
  single (sheetOf (upTo 1 1) {[ "B2" := numberCell 3 ]}).
Definition onB2 : ErrorDetail :=
  {| row := 2; col := "B"; type := "VALUE"; value := "=A1/A2";
     proposed := Some "=IFERROR(A1/A2, 0)";
     reason := Some "wrapped"; sheet := Some "S"; severity := Some warning |}.
Definition onLostSheet : ErrorDetail :=
  {| row := 1; col := "A"; type := "VALUE"; value := "=A1/A2";
     proposed := Some "=IFERROR(A1/A2, 0)";
     reason := Some "wrapped"; sheet := Some "Gone"; severity := Some warning |}.

End Sample.

(* ================================================================== *)
(** * The download handler and the patch applier, seen from a cell *)
(* ================================================================== *)

(** [handleDownload] of the page: the indices of the findings that have a
    proposal, [-1] standing for the others until the filter drops it. *)
Definition fixableIndices (errors : list ErrorDetail) : list Z :=
  List.filter (fun index => negb (index =? -1)%Z)
    (imap (fun index error => if fixable error then Z.of_nat index else (-1)%Z) errors).

(** [handleDownload] on the decoded workbook: [applyFixes] with the set of
    all fixable indices, which holds them in ascending order. *)
Definition handleDownload (workbook : WorkBook) (errors : list ErrorDetail)
    : option WorkBook :=
  applyFixes workbook (map Z.to_nat (fixableIndices errors)) errors.

(** The proposals that the accepted findings aim at one cell, in the order
    [applyFixes] handles them. *)
Definition writers (workbook : WorkBook) (errors : list ErrorDetail) (fixes : list nat)
    (name address : string) : list string :=
  flat_map (fun index =>
    match errors !! index with
    | Some error =>
        match proposed error with
        | Some text =>
            if JS.truthy text
               && bool_decide (targetSheet workbook error = name
                               ∧ targetAddress error = address)
            then [text] else []
        | None => []
        end
    | None => []
    end) fixes.

(** What a sheet carries besides its cells. *)
Definition sheetFrame (workbook : WorkBook) (name : string)
    : option (option Range * option (list Range)) :=
  (fun worksheet => (ref worksheet, merges worksheet)) <$> Sheets workbook !! name.

(* ================================================================== *)
(** * The realm up to [lastIndex], and a finer account of findings *)
(* ================================================================== *)

(** An expression with its [lastIndex] back at 0. *)
Definition rewound (rx : RegExp.t) : RegExp.t :=
  {| source := source rx; global := global rx; lastIndex := 0 |}.

(** The realm with every [lastIndex] back at 0: what is left of it is the
    pattern table itself, names, pattern texts and flags. *)
Definition rewind (g : Realm) : Realm :=
  {| patterns := map (fun p => (fst p, rewound (snd p))) (patterns g);
     vlookup := rewound (vlookup g);
     hlookup := rewound (hlookup g) |}.

(** A realm the loaded module can be in: its table, at any [lastIndex]. *)
Definition loaded (g : Realm) : Prop := rewind g = fresh.

(** A computation that changes nothing of the realm but [lastIndex] fields. *)
Definition keeps {A : Type} (m : M A) : Prop :=
  forall g, rewind (snd (m g)) = rewind g.

(** What a computation returns from every realm with the table of [base]. *)
Definition sound {A : Type} (base : Realm) (m : M A) (Q : A -> Prop) : Prop :=
  forall g, rewind g = rewind base -> Q (fst (m g)).

(** Where a finding of [analyzeExcelFile] comes from, with the guards the
    source puts before each producer: the position lies in the sheet's
    range and holds a cell object; the formula detector runs on non-empty
    formulas, the type check on valued cells without formula; a signature
    finding has the kind of a table entry. *)
Inductive Provenance (base : Realm) (workbook : WorkBook) : ErrorDetail -> Prop :=
  | by_native_tag sheetName worksheet R C cell g :
      Sheets workbook !! sheetName = Some worksheet ->
      (R, C) ∈ positions (rangeOf worksheet) ->
      cellAt worksheet (encode_cell {| r := R; c := C |}) = Some cell ->
      t cell = TError ->
      rewind g = rewind base ->
      Provenance base workbook
        (fst (reportError (nativeKind (valueText cell)) (valueText cell) (formulaText cell)
                sheetName R C worksheet (rangeOf worksheet) workbook g))
  | by_signature sheetName worksheet R C cell errorType g :
      Sheets workbook !! sheetName = Some worksheet ->
      (R, C) ∈ positions (rangeOf worksheet) ->
      cellAt worksheet (encode_cell {| r := R; c := C |}) = Some cell ->
      t cell <> TError ->
      errorType ∈ map fst (patterns base) ->
      rewind g = rewind base ->
      Provenance base workbook
        (fst (reportError errorType (valueText cell) (formulaText cell)
                sheetName R C worksheet (rangeOf worksheet) workbook g))
  | by_formula sheetName worksheet R C cell g error :
      Sheets workbook !! sheetName = Some worksheet ->
      (R, C) ∈ positions (rangeOf worksheet) ->
      cellAt worksheet (encode_cell {| r := R; c := C |}) = Some cell ->
      t cell <> TError ->
      JS.truthy (formulaText cell) = true ->
      rewind g = rewind base ->
      fst (detectFormulaIssues (formulaText cell) (encode_cell {| r := R; c := C |})
             sheetName R C g) = Some error ->
      Provenance base workbook error
  | by_data_type sheetName worksheet R C cell error :
      Sheets workbook !! sheetName = Some worksheet ->
      (R, C) ∈ positions (rangeOf worksheet) ->
      cellAt worksheet (encode_cell {| r := R; c := C |}) = Some cell ->
      t cell <> TError ->
      JS.truthy (valueText cell) = true ->
      JS.truthy (formulaText cell) = false ->
      validateDataType cell R C sheetName worksheet (rangeOf worksheet) = Some error ->
      Provenance base workbook error
  | by_empty_gap sheetName worksheet R C cell error :
      Sheets workbook !! sheetName = Some worksheet ->
      (R, C) ∈ positions (rangeOf worksheet) ->
      cellAt worksheet (encode_cell {| r := R; c := C |}) = Some cell ->
      t cell <> TError ->
      detectEmptyGaps worksheet R C (rangeOf worksheet) sheetName = Some error ->
      Provenance base workbook error
  | by_duplicates sheetName worksheet columnValues error :
      Sheets workbook !! sheetName = Some worksheet ->
      error ∈ duplicates columnValues sheetName ->
      Provenance base workbook error
  | by_merge sheetName worksheet merge error :
      Sheets workbook !! sheetName = Some worksheet ->
      merge ∈ default [] (merges worksheet) ->
      validateMergedCell merge sheetName worksheet = Some error ->
      Provenance base workbook error
  | by_cross_sheet sheetName worksheet error :
      Sheets workbook !! sheetName = Some worksheet ->
      error ∈ validateCrossSheetReferences worksheet sheetName workbook (rangeOf worksheet) ->
      Provenance base workbook error
  | by_format sheetName worksheet error :
      Sheets workbook !! sheetName = Some worksheet ->
      error ∈ detectFormatInconsistencies worksheet sheetName (rangeOf worksheet) ->
      Provenance base workbook error.

(** The kinds of findings and the severity the source gives each: the
    error kinds of the pattern table first, then the other detectors'. *)
Definition errorKinds : list (string * Severity) :=
  [ ("REF", critical); ("VALUE", warning); ("NAME", warning); ("DIV", critical);
    ("NULL", warning); ("NA", warning); ("NUM", warning); ("GETTING_DATA", warning) ].

Definition detectorKinds : list (string * Severity) :=
  [ ("COMPLEX_FORMULA", info); ("NESTED_IFS", warning); ("VLOOKUP_NO_LOCK", warning);
    ("TYPE_MISMATCH", warning); ("EMPTY_GAP", info); ("DUPLICATE", info);
    ("MERGED_FORMULA", warning); ("CROSS_SHEET_REF", critical);
    ("FORMAT_MISMATCH", info) ].

(** A finding of one of the other detectors: its sheet, a row from 1 on,
    and kind and severity as the table has them. *)
Definition detectorFinding (sheetName : string) (error : ErrorDetail) : Prop :=
  sheet error = Some sheetName /\ (1 <= row error)%nat
  /\ exists sev, severity error = Some sev /\ (type error, sev) ∈ detectorKinds.

(** A proposal is "=" and a body. *)
Definition proposalShape (error : ErrorDetail) : Prop :=
  forall text, proposed error = Some text -> exists body, text = "=" ++ body.

(* ================================================================== *)
(** * Sheet statistics ([excelUtils.ts]) *)
(* ================================================================== *)

Module Statistics.
Record t := { sheetName : string; rowCount : Z; colCount : Z; formulaCount : nat }.
End Statistics.

(** The two nested loops of [getSheetStatistics]: one more for every
    position of the range whose cell has a formula. *)
Definition countFormulas (worksheet : WorkSheet) (range : Range) : nat :=
  fold_left (fun formulaCount position =>
               if hasFormula (cellAt worksheet
                                (encode_cell {| r := fst position; c := snd position |}))
               then formulaCount + 1 else formulaCount)
    (positions range) 0.

(** The entry of one sheet. *)
Definition sheetStatistics (name : string) (worksheet : WorkSheet) : Statistics.t :=
  let range := rangeOf worksheet in
  {| Statistics.sheetName := name;
     Statistics.rowCount := Z.of_nat (r (e range)) - Z.of_nat (r (s range)) + 1;
     Statistics.colCount := Z.of_nat (c (e range)) - Z.of_nat (c (s range)) + 1;
     Statistics.formulaCount := countFormulas worksheet range |}.

(** [getSheetStatistics] on the decoded workbook: one entry per sheet name,
    or nothing when a listed sheet is missing (reading ['!ref'] of
    [undefined] throws and the promise is rejected). *)
Definition getSheetStatistics (workbook : WorkBook) : option (list Statistics.t) :=
  mapM (fun name => sheetStatistics name <$> Sheets workbook !! name)
    (SheetNames workbook).

(** [sheetsToAnalyze]: the selection when it is given and not empty, every
    sheet of the workbook otherwise. *)
Definition sheetsToAnalyze (workbook : WorkBook) (selectedSheets : option (list string))
    : list string :=
  match selectedSheets with
  | Some (name :: names) => name :: names
  | _ => SheetNames workbook
  end.

(** A sheet name the workbook has. *)
Definition present (workbook : WorkBook) (name : string) : bool :=
  bool_decide (is_Some (Sheets workbook !! name)).

(* ================================================================== *)
(** * Patterns at rest *)
(* ================================================================== *)

(** A table whose expressions are global and all at index 0. *)
Definition rested (ps : list (string * RegExp.t)) : Prop :=
  Forall (fun p => global (snd p) = true /\ lastIndex (snd p) = 0) ps.

(** The entry a scan is meant to find: the first one whose pattern occurs
    in the value or in the formula. *)
Definition firstOccurring (ps : list (string * RegExp.t)) (cellValue cellFormula : string)
    : option string :=
  fst <$> List.find (fun p => matches (source (snd p)) cellValue
                              || matches (source (snd p)) cellFormula) ps.

(** A text with every letter in its canonical (upper) case, as the [i] flag
    compares characters. *)
Fixpoint canonical (text : string) : string :=
  match text with
  | "" => ""
  | String x rest => String (JS.upper_unit x) (canonical rest)
  end.

(** The cursor after a literal, when the literal is what comes next. *)
Fixpoint skipText (ignoreCase : bool) (literal : string) (c : cursor) : option cursor :=
  match literal with
  | "" => Some c
  | String a literal' =>
      match rest c with
      | x :: after =>
          if (if ignoreCase
              then Ascii.eqb (JS.upper_unit x) (JS.upper_unit a)
              else Ascii.eqb a x)
          then skipText ignoreCase literal' {| pos := S (pos c); prev := Some x; rest := after |}
          else None
      | [] => None
      end
  end.

(** A text made of decimal digits and minus signs only. *)
Fixpoint numeral (text : string) : bool :=
  match text with
  | "" => true
  | String x rest => (JS.between 48 57 (JS.code x) || Ascii.eqb x "-") && numeral rest
  end.

(** A text without quote marks and without "!": what the group of the
    reference pattern can hold. *)
Definition plain (text : string) : Prop :=
  Forall (fun x => x ∉ list_ascii_of_string ("'" ++ JS.dq ++ "!"))
    (list_ascii_of_string text).

(* ================================================================== *)
(** * The console of the patch applier, and nesting *)
(* ================================================================== *)

(** [`Sheet "${sheetName}" não encontrada. Pulando correção.`] *)
Definition missingSheetWarning (sheetName : string) : string :=
  "Sheet " ++ JS.dq ++ sheetName ++ JS.dq ++ JS.lit " não encontrada. Pulando correção.".

(** What one round of [selectedFixes.forEach] passes to [console.warn]:
    the warning sits inside [if (error.proposed)]. *)
Definition warned (workbook : WorkBook) (error : ErrorDetail) : list string :=
  match proposed error with
  | Some text =>
      if JS.truthy text then
        match Sheets workbook !! targetSheet workbook error with
        | None => [missingSheetWarning (targetSheet workbook error)]
        | Some _ => []
        end
      else []
  | None => []
  end.

(** [applyFixes] with the console beside the workbook. *)
Fixpoint applyFixesLogged (workbook : WorkBook) (selectedFixes : list nat)
    (errors : list ErrorDetail) (console : list string)
    : option (WorkBook * list string) :=
  match selectedFixes with
  | [] => Some (workbook, console)
  | index :: others =>
      match errors !! index with
      | Some error =>
          applyFixesLogged (applyFix workbook error) others errors
            (console ++ warned workbook error)
      | None => None
      end
  end.

(** The warnings of the accepted findings, in the order they are handled. *)
Definition warnings (workbook : WorkBook) (errors : list ErrorDetail) (fixes : list nat)
    : list string :=
  flat_map (fun index => from_option (warned workbook) [] (errors !! index)) fixes.

(** Modelled from the spec: "nested conditional function calls".  The
    deepest nesting of IF calls in a text: of the parentheses open at one
    place, how many an IF opened, at most. *)
Fixpoint ifNesting (text before : list ascii) (opened : list bool) (deepest : nat) : nat :=
  match text with
  | [] => deepest
  | x :: rest =>
      if Ascii.eqb x "(" then
        let byIf :=
          match before with
          | y :: i :: b => Ascii.eqb y "F" && Ascii.eqb i "I" && negb (isWordAt (head b))
          | _ => false
          end in
        ifNesting rest (x :: before) (byIf :: opened)
          (Nat.max deepest (length (List.filter (fun o => o) (byIf :: opened))))
      else if Ascii.eqb x ")" then ifNesting rest (x :: before) (tail opened) deepest
      else ifNesting rest (x :: before) opened deepest
  end.

Definition conditionalDepth (formula : string) : nat :=
  ifNesting (list_ascii_of_string (JS.toUpperCase formula)) [] [] 0.

(* ================================================================== *)
(** * More sample data *)
(* ================================================================== *)

Module Case.

(** Two more findings for the sample ledger: a second one on B2, and one
    without a sheet name on C5, outside the sheet's range. *)
Definition sumOnB2 : ErrorDetail :=
  {| row := 2; col := "B"; type := "NAME"; value := "=SOMA(A1:A2)";
     proposed := Some "=SUM(A1:A2)";
     reason := Some "renamed"; sheet := Some "S"; severity := Some warning |}.
Definition onC5 : ErrorDetail :=
  {| row := 5; col := "C"; type := "DIV"; value := "=A1/A2";
     proposed := Some "IFERROR(A1/A2, 0)";
     reason := Some "wrapped"; sheet := None; severity := Some critical |}.
Definition findings : list ErrorDetail :=
  [Sample.onB2; sumOnB2; onC5; Sample.onLostSheet].

(** The ledger after the four findings, in order. *)
Definition patched : WorkBook :=
  applyFix (applyFix (applyFix Sample.ledger Sample.onB2) sumOnB2) onC5.

(** The realm after one analysis that found a signature. *)
Definition worn : Realm := snd (analyzeExcelFile Sample.oneSignature None fresh).

(** The finding of that analysis. *)
Definition refFinding : ErrorDetail :=
  {| row := 1; col := "A"; type := "REF"; value := "#REF!";
     proposed := None; reason := None; sheet := Some "S"; severity := Some critical |}.

(** A sheet with a range and no cell object. *)
Definition blank : WorkBook := Sample.single (Sample.sheetOf (Sample.upTo 3 3) ∅).

(** The number 0 between two numbers. *)
Definition zeroBetween : WorkSheet :=
  Sample.sheetOf (Sample.upTo 2 0)
    {[ "A1" := Sample.numberCell 1; "A2" := Sample.numberCell 0;
       "A3" := Sample.numberCell 2 ]}.

(** A cell with the error tag, the error code 23 as value and a formula. *)
Definition codedCell : CellObject :=
  {| t := TError; v := Some (VNumber 23); f := Some "Data!A1" |}.
Definition codedSheet : WorkSheet := Sample.sheetOf (Sample.upTo 0 0) {[ "A1" := codedCell ]}.

(** Six numbers and a text in column A. *)
Definition sixNumbers : WorkSheet :=
  Sample.sheetOf (Sample.upTo 6 0)
    {[ "A1" := Sample.numberCell 10; "A2" := Sample.numberCell 20;
       "A3" := Sample.numberCell 30; "A4" := Sample.numberCell 40;
       "A5" := Sample.numberCell 50; "A6" := Sample.numberCell 60;
       "A7" := Sample.textCell "n/a" ]}.
Definition textFinding : ErrorDetail :=
  {| row := 7; col := "A"; type := "TYPE_MISMATCH"; value := "n/a";
     proposed := None;
     reason := Some (JS.lit
       "Texto detectado em coluna numérica. Isso pode causar erros em cálculos.");
     sheet := Some "S"; severity := Some warning |}.

(** A sum over a cell of the sheet Data, which exists. *)
Definition summingCell : CellObject :=
  Sample.formulaCell TNumber (VNumber 3) "SUM(Data!A1)".
Definition summingSheet : WorkSheet := Sample.sheetOf (Sample.upTo 0 0) {[ "A1" := summingCell ]}.
Definition summing : WorkBook :=
  {| SheetNames := ["S"; "Data"];
     Sheets := {[ "S" := summingSheet;
                  "Data" := Sample.sheetOf (Sample.upTo 0 0) {[ "A1" := Sample.numberCell 3 ]} ]} |}.

(** Scenario A of the specification: B2 looks up in a sheet the workbook
    does not have. *)
Definition scenarioA : WorkBook :=
  Sample.single (Sample.sheetOf (Sample.upTo 1 1)
    {[ "B2" := Sample.formulaCell TNumber (VNumber 7) "VLOOKUP(A1,Sheet9!A:B,2)" ]}).

(** A finding without a proposal on a sheet the ledger does not have. *)
Definition silentOnLostSheet : ErrorDetail :=
  {| row := 1; col := "A"; type := "DUPLICATE"; value := "lisbon";
     proposed := None; reason := Some "twice"; sheet := Some "Gone";
     severity := Some info |}.

(** Sixty conditionals, each inside the one before: 661 characters. *)
Definition deepIfs : string :=
  String.concat "" (repeat "IF(A1>0,1," 60) ++ "0" ++ String.concat "" (repeat ")" 60).

(** A1 holds the forty conditionals side by side, A2 six nested ones. *)
Definition formulas : WorkSheet :=
  Sample.sheetOf (Sample.upTo 1 0)
    {[ "A1" := Sample.formulaCell TNumber (VNumber 1) Sample.fortyIfs;
       "A2" := Sample.formulaCell TNumber (VNumber 6) Sample.sixIfs ]}.

(** A1 holds the sixty nested conditionals; and the same with the error tag. *)
Definition deep : WorkBook :=
  Sample.single (Sample.sheetOf (Sample.upTo 0 0)
    {[ "A1" := Sample.formulaCell TNumber (VNumber 1) deepIfs ]}).
Definition deepTagged : WorkBook :=
  Sample.single (Sample.sheetOf (Sample.upTo 0 0)
    {[ "A1" := Sample.formulaCell TError (VString "#DIV/0!") deepIfs ]}).

End Case.

(* ================================================================== *)
(** * The patch applier: what a fix writes and what it leaves alone *)
(* ================================================================== *)

Section PatchApplier.

Implicit Types (workbook : WorkBook) (error : ErrorDetail) (errors : list ErrorDetail).

Lemma applyFix_SheetNames workbook error :
  SheetNames (applyFix workbook error) = SheetNames workbook.
Proof.
  unfold applyFix.
  destruct (proposed error) as [text|]; [|done].
  destruct (JS.truthy text); [|done].
  by destruct (Sheets workbook !! targetSheet workbook error).
Qed.

Lemma targetSheet_applyFix workbook error error' :
  targetSheet (applyFix workbook error') error = targetSheet workbook error.
Proof.
  unfold targetSheet, firstSheetName. by rewrite applyFix_SheetNames.
Qed.

(** One fix, seen from any cell: the target gets the patched cell, every
    other cell of every sheet is as before. *)
Lemma cellOf_applyFix workbook error name address :
  cellOf (applyFix workbook error) name address =
    if bool_decide (fixable error = true
                    ∧ is_Some (Sheets workbook !! targetSheet workbook error)
                    ∧ targetSheet workbook error = name
                    ∧ targetAddress error = address)
    then Some (patchedCell (cellOf workbook name address)
                  (stripEquals (default "" (proposed error))))
    else cellOf workbook name address.
Proof.
  unfold applyFix, fixable, cellOf. cbv zeta.
  case_bool_decide as H.
  - destruct H as (Hf & [worksheet Hs] & <- & <-).
    destruct (proposed error) as [text|]; [|done].
    rewrite Hf, Hs. simpl. rewrite lookup_insert_eq. simpl. by rewrite lookup_insert_eq.
  - destruct (proposed error) as [text|]; [|done].
    destruct (JS.truthy text) eqn:Ht; [|done].
    destruct (Sheets workbook !! targetSheet workbook error) as [worksheet|] eqn:Hs; [|done].
    simpl. destruct (decide (targetSheet workbook error = name)) as [<-|Hn].
    + rewrite lookup_insert_eq, Hs. simpl. rewrite lookup_insert_ne; [done|].
      intros Ha. apply H. eauto.
    + by rewrite lookup_insert_ne.
Qed.

Lemma sheet_present_applyFix workbook error name :
  is_Some (Sheets (applyFix workbook error) !! name) ↔ is_Some (Sheets workbook !! name).
Proof.
  unfold applyFix.
  destruct (proposed error) as [text|]; [|done].
  destruct (JS.truthy text); [|done].
  destruct (Sheets workbook !! targetSheet workbook error) as [worksheet|] eqn:Hs; [|done].
  simpl. destruct (decide (targetSheet workbook error = name)) as [<-|Hn].
  - rewrite lookup_insert_eq, Hs. split; eauto.
  - by rewrite lookup_insert_ne.
Qed.

Lemma applyFixes_app workbook errors (xs ys : list nat) :
  applyFixes workbook (xs ++ ys) errors =
    match applyFixes workbook xs errors with
    | Some middle => applyFixes middle ys errors
    | None => None
    end.
Proof.
  revert workbook. induction xs as [|x xs IH]; intros workbook; simpl; [done|].
  destruct (errors !! x); [apply IH | done].
Qed.

Lemma applyFixes_SheetNames workbook errors (fixes : list nat) patched :
  applyFixes workbook fixes errors = Some patched →
  SheetNames patched = SheetNames workbook.
Proof.
  revert workbook. induction fixes as [|x xs IH]; intros workbook; simpl.
  - by intros [= <-].
  - destruct (errors !! x) as [error|]; [|done].
    intros H. rewrite (IH _ H). apply applyFix_SheetNames.
Qed.

Lemma targetSheet_applyFixes workbook errors (fixes : list nat) patched error :
  applyFixes workbook fixes errors = Some patched →
  targetSheet patched error = targetSheet workbook error.
Proof.
  intros H. unfold targetSheet, firstSheetName.
  by rewrite (applyFixes_SheetNames _ _ _ _ H).
Qed.

Lemma sheet_present_applyFixes workbook errors (fixes : list nat) patched name :
  applyFixes workbook fixes errors = Some patched →
  is_Some (Sheets patched !! name) ↔ is_Some (Sheets workbook !! name).
Proof.
  revert workbook. induction fixes as [|x xs IH]; intros workbook; simpl.
  - by intros [= <-].
  - destruct (errors !! x) as [error|]; [|done].
    intros H. rewrite (IH _ H). apply sheet_present_applyFix.
Qed.

(** The patch call succeeds when every accepted index has a finding. *)
Lemma applyFixes_succeeds workbook errors (fixes : list nat) :
  (∀ index, index ∈ fixes → is_Some (errors !! index)) →
  is_Some (applyFixes workbook fixes errors).
Proof.
  revert workbook. induction fixes as [|x xs IH]; intros workbook Hall; simpl; [eauto|].
  destruct (Hall x) as [error ->]; [left|].
  apply IH. intros index Hin. apply Hall. by right.
Qed.

Lemma applyFixes_frame workbook errors (fixes : list nat) patched name address :
  applyFixes workbook fixes errors = Some patched →
  untouched workbook errors fixes name address →
  cellOf patched name address = cellOf workbook name address.
Proof.
  revert workbook. induction fixes as [|x xs IH]; intros workbook; simpl.
  - by intros [= <-].
  - destruct (errors !! x) as [error|] eqn:Hx; [|done].
    intros H Hun. rewrite (IH _ H).
    + rewrite cellOf_applyFix, bool_decide_eq_false_2; [done|].
      intros (Hf & _ & Hn & Ha). eapply (Hun x error); [left | done | done | done].
    + intros index error' Hin He Hf. rewrite targetSheet_applyFix.
      apply (Hun index error'); [by right | done | done].
Qed.

Lemma patchedCell_fields (old : option CellObject) (formula : string) :
  f (patchedCell old formula) = Some formula ∧ v (patchedCell old formula) = None.
Proof. by destruct old. Qed.

(** C10.  A patch call keeps the list of sheets and every cell that no
    accepted finding with a proposal aims at, on every sheet; a cell that
    differs after the call is the target of such a finding. *)
Theorem applyFixes_frame_effect workbook errors (selectedFixes : list nat)
    (patched : WorkBook) :
  applyFixes workbook selectedFixes errors = Some patched →
  SheetNames patched = SheetNames workbook
  ∧ (∀ name address,
       untouched workbook errors selectedFixes name address →
       cellOf patched name address = cellOf workbook name address)
  ∧ (∀ name address,
       cellOf patched name address ≠ cellOf workbook name address →
       ∃ index error,
         index ∈ selectedFixes ∧ errors !! index = Some error ∧ fixable error = true
         ∧ targetSheet workbook error = name ∧ targetAddress error = address).
Proof.
  intros Hrun. split; [by eapply applyFixes_SheetNames|].
  split; [intros name address; by apply applyFixes_frame|].
  intros name address. revert workbook Hrun.
  induction selectedFixes as [|x xs IH]; intros workbook; simpl.
  - intros [= <-] Hne. by destruct Hne.
  - destruct (errors !! x) as [error|] eqn:Hx; [|done].
    intros Hrun Hne.
    pose proof (cellOf_applyFix workbook error name address) as Hstep.
    case_bool_decide as Hd.
    + exists x, error. destruct Hd as (Hf & _ & Hn & Ha). split; [left|done].
    + destruct (IH _ Hrun) as (index & error' & Hin & Hi & Hf & Hn & Ha).
      { by rewrite Hstep. }
      exists index, error'. rewrite targetSheet_applyFix in Hn.
      split; [by right|done].
Qed.

End PatchApplier.

(** Both findings accepted on the sample ledger. *)
Lemma ledger_other_cells_kept :
  SheetNames (applyFix Sample.ledger Sample.onB2) = SheetNames Sample.ledger
  ∧ (∀ name address,
       untouched Sample.ledger [Sample.onB2; Sample.onLostSheet] [0; 1] name address →
       cellOf (applyFix Sample.ledger Sample.onB2) name address
         = cellOf Sample.ledger name address)
  ∧ (∀ name address,
       cellOf (applyFix Sample.ledger Sample.onB2) name address
         ≠ cellOf Sample.ledger name address →
       ∃ index error,
         index ∈ [0; 1] ∧ [Sample.onB2; Sample.onLostSheet] !! index = Some error
         ∧ fixable error = true
         ∧ targetSheet Sample.ledger error = name ∧ targetAddress error = address).
Proof.
  apply (applyFixes_frame_effect Sample.ledger [Sample.onB2; Sample.onLostSheet] [0; 1]
           (applyFix Sample.ledger Sample.onB2)).
  vm_compute. reflexivity.
Defined.

(* ================================================================== *)
(** * The analysis pass: where findings come from *)
(* ================================================================== *)

Section Yields.

Context {A B : Type}.

Lemma yields_ret (a : A) (Q : A → Prop) : Q a → yields (ret a) Q.
Proof. intros H g. exact H. Qed.

Lemma yields_bind (m : M A) (k : A → M B) (Q' : A → Prop) (Q : B → Prop) :
  yields m Q' → (∀ a, Q' a → yields (k a) Q) → yields (bind m k) Q.
Proof.
  intros Hm Hk g. unfold bind.
  pose proof (Hm g) as Ha. destruct (m g) as [a g']. by apply Hk.
Qed.

Lemma yields_any (m : M A) : yields m (fun _ => True).
Proof. by intros g. Qed.

End Yields.

Lemma forEach_yields {A S : Type} (P : ErrorDetail → Prop) (xs : list A)
    (body : A → S → M (list ErrorDetail * S)) :
  (∀ x local, yields (body x local) (fun res => Forall P (fst res))) →
  ∀ local, yields (forEach xs local body) (fun res => Forall P (fst res)).
Proof.
  intros Hbody. induction xs as [|x xs IH]; intros local; simpl.
  - by apply yields_ret.
  - eapply yields_bind; [apply Hbody|]. intros res Hres.
    eapply yields_bind; [apply IH|]. intros more Hmore.
    apply yields_ret. simpl. by apply Forall_app.
Qed.

Lemma Forall_optional {A : Type} (P : A → Prop) (o : option A) :
  (∀ a, o = Some a → P a) → Forall P (optional o).
Proof. destruct o; simpl; [|constructor]. intros H. constructor; [by apply H | constructor]. Qed.

Section Origins.

Variable workbook : WorkBook.
Variables (sheetName : string) (worksheet : WorkSheet).
Hypothesis Hsheet : Sheets workbook !! sheetName = Some worksheet.

Lemma visitCell_origin (position : nat * nat) (columnValues : ColumnValues) :
  yields (visitCell workbook worksheet sheetName (rangeOf worksheet) position columnValues)
    (fun res => Forall (Origin workbook) (fst res)).
Proof.
  destruct position as [R C]. unfold visitCell.
  destruct (cellAt worksheet (encode_cell {| r := R; c := C |})) as [cell|] eqn:Hcell.
  2:{ apply yields_ret. constructor. }
  assert (Hother : t cell ≠ TError →
    yields
      (found <- firstSignature (valueText cell) (formulaText cell) ;;
       signatureError <-
         match found with
         | Some errorType =>
             error <- reportError errorType (valueText cell) (formulaText cell)
                        sheetName R C worksheet (rangeOf worksheet) workbook ;;
             ret [error]
         | None => ret []
         end ;;
       formulaIssue <-
         (if JS.truthy (formulaText cell)
          then detectFormulaIssues (formulaText cell) (encode_cell {| r := R; c := C |})
                 sheetName R C
          else ret None) ;;
       ret (app signatureError
              (app (optional formulaIssue)
                 (app (optional
                         (if JS.truthy (valueText cell) && negb (JS.truthy (formulaText cell))
                          then validateDataType cell R C sheetName worksheet (rangeOf worksheet)
                          else None))
                    (optional (detectEmptyGaps worksheet R C (rangeOf worksheet) sheetName)))),
            collect columnValues R C (valueText cell) (formulaText cell)))
      (fun res => Forall (Origin workbook) (fst res))).
  { intros Ht.
    eapply yields_bind; [apply yields_any|]. intros found _.
    eapply (yields_bind _ _ (Forall (Origin workbook))).
    { destruct found as [errorType|]; [|apply yields_ret; constructor].
      eapply (yields_bind _ _ (Origin workbook)).
      - intros g. by eapply from_signature.
      - intros error He. apply yields_ret. by repeat constructor. }
    intros signatureError Hsig.
    eapply (yields_bind _ _ (fun o => ∀ error, o = Some error → Origin workbook error)).
    { destruct (JS.truthy (formulaText cell)); [|by apply yields_ret].
      intros g error He. by eapply from_formula. }
    intros formulaIssue Hformula. apply yields_ret. simpl.
    apply Forall_app. split; [done|].
    apply Forall_app. split; [by apply Forall_optional|].
    apply Forall_app. split; apply Forall_optional.
    - intros error He.
      destruct (JS.truthy (valueText cell) && negb (JS.truthy (formulaText cell))); [|done].
      by eapply from_data_type.
    - intros error He. by eapply from_empty_gap. }
  destruct (t cell) eqn:Ht; try (apply Hother; discriminate).
  eapply (yields_bind _ _ (Origin workbook)).
  - intros g. by eapply from_native_tag.
  - intros error He. apply yields_ret. by repeat constructor.
Qed.

Lemma analyzeSheet_origin :
  yields (analyzeSheet workbook sheetName worksheet) (Forall (Origin workbook)).
Proof.
  unfold analyzeSheet.
  eapply yields_bind; [apply (forEach_yields (Origin workbook)); apply visitCell_origin|].
  intros [cellErrors columnValues] Hcells. apply yields_ret. simpl in Hcells.
  apply Forall_app. split; [done|].
  apply Forall_app. split.
  { apply Forall_forall. intros error Hin. by eapply from_duplicates. }
  apply Forall_app. split.
  { apply Forall_forall. intros error Hin.
    apply list_elem_of_In, in_flat_map in Hin. destruct Hin as (merge & _ & Hin).
    destruct (validateMergedCell merge sheetName worksheet) as [error'|] eqn:Hm;
      simpl in Hin; [|done].
    destruct Hin as [<-|[]]. by eapply from_merge. }
  apply Forall_app. split; apply Forall_forall; intros error Hin.
  - by eapply from_cross_sheet.
  - by eapply from_format.
Qed.

End Origins.

Lemma analyzeExcelFile_origin (workbook : WorkBook) (selectedSheets : option (list string)) :
  yields (analyzeExcelFile workbook selectedSheets) (Forall (Origin workbook)).
Proof.
  unfold analyzeExcelFile.
  eapply (yields_bind _ _ (fun res => Forall (Origin workbook) (fst res))).
  2:{ intros res Hres. by apply yields_ret. }
  apply forEach_yields. intros sheetName [].
  destruct (Sheets workbook !! sheetName) as [worksheet|] eqn:Hs.
  - eapply yields_bind; [by apply analyzeSheet_origin|].
    intros found Hfound. by apply yields_ret.
  - apply yields_ret. constructor.
Qed.

(* ================================================================== *)
(** * What each producer puts into a finding *)
(* ================================================================== *)

Lemma append_nonempty_l (a b : string) : a ≠ "" → a ++ b ≠ "".
Proof. by destruct a. Qed.

Lemma append_nonempty_r (a b : string) : b ≠ "" → a ++ b ≠ "".
Proof. destruct a; [done|]. discriminate. Qed.

Lemma lit_nonempty (text : string) : text ≠ "" → JS.lit text ≠ "".
Proof.
  destruct text as [|x text]; [done|]. intros _. simpl.
  destruct text; [discriminate|].
  destruct (JS.code x =? 194)%nat; [discriminate|].
  destruct (JS.code x =? 195)%nat; discriminate.
Qed.

Ltac nonempty :=
  repeat first
    [ apply append_nonempty_l; solve [nonempty]
    | apply append_nonempty_r; solve [nonempty]
    | apply lit_nonempty; discriminate
    | discriminate ].

Lemma fixName_reason (fixes : list (string * string)) (formula : string) (p : Proposal.t) :
  fixName fixes formula = Some p → Proposal.reason p ≠ "".
Proof.
  induction fixes as [|[wrong correct] others IH]; simpl; [done|].
  destruct (matches (aliasPattern wrong) formula); [|exact IH].
  intros [= <-]. simpl. nonempty.
Qed.

Lemma rebuildLookup_reason (formula : string) (range : Range) (p : Proposal.t) :
  rebuildLookup formula range = Some p → Proposal.reason p ≠ "".
Proof.
  unfold rebuildLookup.
  destruct (searchFrom ARGUMENT_LIST formula 0) as [[[b e'] cs]|]; [|done].
  destruct (3 <=? _)%nat; [|done].
  intros [= <-]. simpl. nonempty.
Qed.

Lemma proposeFixForError_reason error formula worksheet range workbook :
  yields (proposeFixForError error formula worksheet range workbook)
    (fun o => ∀ p, o = Some p → Proposal.reason p ≠ "").
Proof.
  unfold proposeFixForError.
  destruct (negb (JS.truthy formula)); [by apply yields_ret|].
  eapply yields_bind; [apply yields_any|]. intros isBrokenLookup _.
  destruct (if isBrokenLookup then rebuildLookup formula range else None) as [p|] eqn:Hp.
  { apply yields_ret. intros ? [= <-].
    destruct isBrokenLookup; [by eapply rebuildLookup_reason | done]. }
  destruct (String.eqb (type error) "VALUE").
  { apply yields_ret. intros ? [= <-]. simpl. nonempty. }
  destruct (if String.eqb (type error) "NAME" then fixName commonFixes formula else None)
    as [p|] eqn:Hn.
  { apply yields_ret. intros ? [= <-].
    destruct (String.eqb (type error) "NAME"); [by eapply fixName_reason | done]. }
  destruct (String.eqb (type error) "DIV"); apply yields_ret; [|done].
  intros ? [= <-]. simpl. nonempty.
Qed.

Lemma reportError_facts errorType cellValue cellFormula sheetName R C worksheet range
    workbook :
  yields (reportError errorType cellValue cellFormula sheetName R C worksheet range workbook)
    (fun error => type error = errorType ∧ located sheetName R C error ∧ justified error
                  ∧ severity error = Some (severityOf errorType)).
Proof.
  unfold reportError.
  eapply yields_bind; [apply proposeFixForError_reason|].
  intros [p|] Hp; apply yields_ret; simpl.
  - repeat split. intros text _ _. eexists. split; [done|]. by apply Hp.
  - repeat split. intros text [=].
Qed.

Lemma detectFormulaIssues_facts formula cellAddress sheetName R C g error :
  fst (detectFormulaIssues formula cellAddress sheetName R C g) = Some error →
  located sheetName R C error ∧ justified error.
Proof.
  unfold detectFormulaIssues.
  destruct (500 <? String.length formula)%nat.
  { intros [= <-]. repeat split. intros text [=]. }
  destruct (5 <? _)%nat.
  { intros [= <-]. repeat split. intros text [=]. }
  unfold bind. destruct (testVLOOKUP (JS.toUpperCase formula) g) as [isLookup g'].
  destruct (isLookup && negb (JS.includes formula "$")); [|done].
  intros [= <-]. repeat split. intros text _ _. eexists. split; [done|]. nonempty.
Qed.

Lemma validateDataType_facts cell R C sheetName worksheet range error :
  validateDataType cell R C sheetName worksheet range = Some error →
  located sheetName R C error ∧ proposed error = None.
Proof.
  unfold validateDataType.
  destruct (fold_left _ _ _) as [numericCount textCount].
  destruct (_ && _); [|done]. destruct (_ && _); [|done].
  by intros [= <-].
Qed.

Lemma detectEmptyGaps_facts worksheet R C range sheetName error :
  detectEmptyGaps worksheet R C range sheetName = Some error →
  located sheetName R C error ∧ proposed error = None ∧ severity error = Some info
  ∧ type error = "EMPTY_GAP".
Proof.
  unfold detectEmptyGaps.
  destruct (hasValue _); [done|]. destruct (_ && _); [|done].
  by intros [= <-].
Qed.

Lemma duplicates_facts columnValues sheetName error :
  error ∈ duplicates columnValues sheetName →
  type error = "DUPLICATE" ∧ proposed error = None.
Proof.
  unfold duplicates. intros Hin.
  apply list_elem_of_In, in_flat_map in Hin. destruct Hin as ([colIndex valueMap] & _ & Hin).
  apply in_flat_map in Hin. destruct Hin as ([text rows] & _ & Hin).
  destruct (_ && _); [|done].
  apply in_map_iff in Hin. by destruct Hin as (rowIndex & <- & _).
Qed.

Lemma validateMergedCell_facts merge sheetName worksheet error :
  validateMergedCell merge sheetName worksheet = Some error →
  type error = "MERGED_FORMULA" ∧ proposed error = None.
Proof.
  unfold validateMergedCell. destruct (hasFormula _); [|done]. by intros [= <-].
Qed.

Lemma validateCrossSheetReferences_facts worksheet sheetName workbook range error :
  error ∈ validateCrossSheetReferences worksheet sheetName workbook range →
  type error = "CROSS_SHEET_REF" ∧ justified error.
Proof.
  unfold validateCrossSheetReferences. intros Hin.
  apply list_elem_of_In, in_flat_map in Hin. destruct Hin as (R & _ & Hin).
  apply in_flat_map in Hin. destruct Hin as (C & _ & Hin).
  destruct (hasFormula _); [|done].
  apply in_flat_map in Hin. destruct Hin as ([[b e'] cs] & _ & Hin).
  case_bool_decide; [done|]. destruct Hin as [<-|[]].
  split; [done|]. intros text _ _. eexists. split; [done|]. simpl. nonempty.
Qed.

Lemma detectFormatInconsistencies_facts worksheet sheetName range error :
  error ∈ detectFormatInconsistencies worksheet sheetName range →
  type error = "FORMAT_MISMATCH" ∧ proposed error = None.
Proof.
  unfold detectFormatInconsistencies. intros Hin.
  apply list_elem_of_In, in_flat_map in Hin. destruct Hin as (C & _ & Hin).
  destruct (1 <? _)%nat; [|done].
  apply in_flat_map in Hin. destruct Hin as ([format rows] & _ & Hin).
  destruct (_ && _); [|done].
  apply in_map_iff in Hin. by destruct Hin as (R & <- & _).
Qed.

Lemma nativeKind_not_heuristic (cellValue : string) :
  heuristic (nativeKind cellValue) = false.
Proof.
  unfold nativeKind.
  repeat match goal with |- context [if ?b then _ else _] => destruct b end; reflexivity.
Qed.

Lemma unproposed_justified (error : ErrorDetail) : proposed error = None → justified error.
Proof. intros H text. by rewrite H. Qed.

(* ================================================================== *)
(** * The analysis pass: the claims *)
(* ================================================================== *)

Lemma origin_justified (workbook : WorkBook) (error : ErrorDetail) :
  Origin workbook error → justified error.
Proof.
  intros [ name ws R C cell g Hs Hc Ht
         | name ws R C cell errorType g Hs Hc Ht
         | name ws R C cell g err Hs Hc Ht He
         | name ws R C cell err Hs Hc Ht He
         | name ws R C cell err Hs Hc Ht He
         | name ws columnValues err Hs Hin
         | name ws merge err Hs He
         | name ws err Hs Hin
         | name ws err Hs Hin ].
  - apply reportError_facts.
  - apply reportError_facts.
  - by apply detectFormulaIssues_facts in He as [_ ?].
  - apply unproposed_justified. by apply validateDataType_facts in He as [_ ?].
  - apply unproposed_justified. by apply detectEmptyGaps_facts in He as (_ & ? & _).
  - apply unproposed_justified. by apply duplicates_facts in Hin as [_ ?].
  - apply unproposed_justified. by apply validateMergedCell_facts in He as [_ ?].
  - by apply validateCrossSheetReferences_facts in Hin as [_ ?].
  - apply unproposed_justified. by apply detectFormatInconsistencies_facts in Hin as [_ ?].
Qed.

(** C6.  Every finding of [analyzeExcelFile] that carries a non-empty
    proposal carries a non-empty reason, whatever the workbook, the sheet
    selection and the state the patterns were left in. *)
Theorem analyzeExcelFile_proposals_have_reasons (workbook : WorkBook)
    (selectedSheets : option (list string)) (g : Realm) :
  Forall justified (fst (analyzeExcelFile workbook selectedSheets g)).
Proof.
  eapply Forall_impl; [apply analyzeExcelFile_origin|].
  intros error. apply origin_justified.
Qed.

Lemma located_address (sheetName : string) (R C : nat) (error : ErrorDetail) :
  located sheetName R C error → targetAddress error = encode_cell {| r := R; c := C |}.
Proof. intros (Hr & Hc & _). unfold targetAddress, encode_cell. by rewrite Hr, Hc. Qed.

(** C4, as amended.  A cell that carries the codec's error tag gets no
    finding of a heuristic kind (formula complexity, nested conditionals,
    unlocked lookup, type mismatch, empty gap): the branch for the tag
    leaves the round of the loop before those checks. *)
Theorem native_error_cell_has_no_heuristic_finding (workbook : WorkBook)
    (selectedSheets : option (list string)) (g : Realm)
    (name address : string) (worksheet : WorkSheet) (cell : CellObject)
    (error : ErrorDetail) :
  Sheets workbook !! name = Some worksheet →
  cells worksheet !! address = Some cell →
  t cell = TError →
  error ∈ fst (analyzeExcelFile workbook selectedSheets g) →
  sheet error = Some name →
  targetAddress error = address →
  heuristic (type error) = false.
Proof.
  intros Hsheet Hcell Htag Hin Hname Haddress.
  pose proof (analyzeExcelFile_origin workbook selectedSheets g) as Hall.
  rewrite Forall_forall in Hall. specialize (Hall error Hin). clear Hin.
  assert (Hclash : ∀ sheetName ws R C cell',
            Sheets workbook !! sheetName = Some ws →
            cellAt ws (encode_cell {| r := R; c := C |}) = Some cell' →
            t cell' ≠ TError → located sheetName R C error → False).
  { intros sheetName ws R C cell' Hs Hc Ht Hloc.
    pose proof (located_address _ _ _ _ Hloc) as Ha.
    destruct Hloc as (_ & _ & Hsn). rewrite Hsn in Hname. injection Hname as ->.
    rewrite Hsheet in Hs. injection Hs as <-.
    unfold cellAt in Hc. rewrite <- Ha, Haddress, Hcell in Hc. injection Hc as <-.
    by apply Ht. }
  destruct Hall as
         [ sheetName ws R C cell' g' Hs Hc Ht
         | sheetName ws R C cell' errorType g' Hs Hc Ht
         | sheetName ws R C cell' g' err Hs Hc Ht He
         | sheetName ws R C cell' err Hs Hc Ht He
         | sheetName ws R C cell' err Hs Hc Ht He
         | sheetName ws columnValues err Hs Hin
         | sheetName ws merge err Hs He
         | sheetName ws err Hs Hin
         | sheetName ws err Hs Hin ].
  - destruct (reportError_facts (nativeKind (valueText cell')) (valueText cell')
                (formulaText cell') sheetName R C ws (rangeOf ws) workbook g') as (-> & _).
    apply nativeKind_not_heuristic.
  - exfalso. apply (Hclash sheetName ws R C cell' Hs Hc Ht).
    apply (reportError_facts errorType (valueText cell') (formulaText cell')
             sheetName R C ws (rangeOf ws) workbook g').
  - exfalso. apply (Hclash sheetName ws R C cell' Hs Hc Ht).
    by apply detectFormulaIssues_facts in He as [? _].
  - exfalso. apply (Hclash sheetName ws R C cell' Hs Hc Ht).
    by apply validateDataType_facts in He as [? _].
  - exfalso. apply (Hclash sheetName ws R C cell' Hs Hc Ht).
    by apply detectEmptyGaps_facts in He as [? _].
  - apply duplicates_facts in Hin as [-> _]. reflexivity.
  - apply validateMergedCell_facts in He as [-> _]. reflexivity.
  - apply validateCrossSheetReferences_facts in Hin as [-> _]. reflexivity.
  - apply detectFormatInconsistencies_facts in Hin as [-> _]. reflexivity.
Qed.

(** C4, as stated, fails on the textual path: the lookup in A1 displays the
    text #N/A, the NA signature matches, and the same round of the loop goes
    on to report the lookup as unlocked. *)
Lemma signature_match_keeps_heuristics :
  let found := fst (analyzeExcelFile Sample.lookupShowingNA None fresh) in
  map (fun error => (sheet error, targetAddress error, type error)) (firstn 2 found)
    = [ (Some "S", "A1", "NA"); (Some "S", "A1", "VLOOKUP_NO_LOCK") ]
  ∧ t <$> cellOf Sample.lookupShowingNA "S" "A1" = Some TString
  ∧ heuristic "VLOOKUP_NO_LOCK" = true.
Proof. vm_compute. repeat split. Qed.

(** The finding on the tagged cell of the sample is of kind DIV. *)
Lemma tagged_cell_only_error :
  heuristic (type Sample.taggedFinding) = false.
Proof.
  apply (native_error_cell_has_no_heuristic_finding Sample.tagged None fresh
           "S" "A1" Sample.taggedSheet Sample.taggedCell Sample.taggedFinding).
  - reflexivity.
  - reflexivity.
  - reflexivity.
  - apply list_elem_of_In. vm_compute. left. reflexivity.
  - reflexivity.
  - reflexivity.
Defined.

(* ================================================================== *)
(** * The state the patterns keep *)
(* ================================================================== *)

(** C1, on the code.  A1 holds the text #REF!.  The first analysis reports
    it and leaves the REF pattern at index 5; the second analysis of the
    same workbook starts its search there and reports nothing. *)
Lemma second_analysis_differs :
  let first := analyzeExcelFile Sample.oneSignature None fresh in
  let second := analyzeExcelFile Sample.oneSignature None (snd first) in
  map (fun error => (targetAddress error, type error)) (fst first) = [("A1", "REF")]
  ∧ fst second = []
  ∧ fst first ≠ fst second.
Proof.
  vm_compute. repeat split. discriminate.
Qed.

(** C2, on the code.  A1 and A2 hold the text #REF!; neither carries the
    error tag.  A1 is reported as REF; A2, tested with the pattern A1 left at
    index 5, gets no error finding (both cells are reported as duplicates). *)
Lemma second_signature_is_missed :
  cellOf Sample.twoSignatures "S" "A2" = Some (Sample.textCell "#REF!")
  ∧ fst (test (signatures ["#REF!"; "#REF?"]) "#REF!") = true
  ∧ map (fun error => (targetAddress error, type error))
        (fst (analyzeExcelFile Sample.twoSignatures None fresh))
    = [("A1", "REF"); ("A1", "DUPLICATE"); ("A2", "DUPLICATE")].
Proof. vm_compute. repeat split. Qed.

(** C5, on the code.  A1 and A3 hold numbers and A2 has no cell.  The
    detector itself reports the gap at A2, but the loop leaves its round for
    a position without a cell before calling it, so the analysis is empty. *)
Lemma absent_cell_gap_is_missed :
  cellOf Sample.gap "S" "A2" = None
  ∧ (type <$> detectEmptyGaps Sample.gapSheet 1 0 (rangeOf Sample.gapSheet) "S")
      = Some "EMPTY_GAP"
  ∧ fst (analyzeExcelFile Sample.gap None fresh) = [].
Proof. vm_compute. repeat split. Qed.

(** C7, on the code.  The broken lookup in A2 has three arguments.  Alone
    in the sheet it gets the rebuilt lookup; after the healthy lookup in A1
    has been tested, the lookup pattern sits at index 7 and the proposer
    misses the name, so the REF finding has no proposal. *)
Lemma broken_lookup_without_proposal :
  (Proposal.formula <$> rebuildLookup Sample.brokenLookup (Sample.upTo 1 0))
    = Some "=VLOOKUP(B2, A1:A2, 2, FALSE)"
  ∧ map (fun error => (targetAddress error, type error, proposed error))
        (firstn 1 (fst (analyzeExcelFile Sample.oneLookup None fresh)))
    = [("A2", "REF", Some "=VLOOKUP(B2, A1:A2, 2, FALSE)")]
  ∧ map (fun error => (targetAddress error, type error, proposed error))
        (firstn 2 (fst (analyzeExcelFile Sample.twoLookups None fresh)))
    = [("A1", "VLOOKUP_NO_LOCK", Some "=VLOOKUP($B$1,$C$1:$D$5,2)");
       ("A2", "REF", None)].
Proof. vm_compute. repeat split. Qed.

(** With fewer than three arguments in its first parenthesis group (or no
    such group) a REF finding gets no proposal, in any state. *)
Lemma proposeFixForError_few_arguments error formula worksheet range workbook g :
  type error = "REF" →
  (∀ b e' cs, searchFrom ARGUMENT_LIST formula 0 = Some (b, e', cs) →
              (length (JS.split "," (group formula cs 1)) < 3)%nat) →
  fst (proposeFixForError error formula worksheet range workbook g) = None.
Proof.
  intros Htype Hfew. unfold proposeFixForError.
  destruct (negb (JS.truthy formula)); [done|].
  assert (Hnone : rebuildLookup formula range = None).
  { unfold rebuildLookup.
    destruct (searchFrom ARGUMENT_LIST formula 0) as [[[b e'] cs]|]; [|done].
    specialize (Hfew b e' cs eq_refl). rewrite length_map.
    apply Nat.leb_gt in Hfew. by rewrite Hfew. }
  unfold bind. rewrite Htype. simpl.
  destruct (testVLOOKUP (JS.toUpperCase formula) g) as [onV g1].
  destruct onV; simpl.
  - by rewrite Hnone.
  - destruct (testHLOOKUP (JS.toUpperCase formula) g1) as [onH g2].
    destruct onH; [by rewrite Hnone | done].
Qed.

(** With the lookup patterns at index 0, a REF finding on a formula that
    names a lookup gets the rebuilt lookup whenever there is one. *)
Lemma proposeFixForError_fresh_lookup error formula worksheet range workbook g p :
  type error = "REF" →
  vlookup g = VLOOKUP_REGEX →
  hlookup g = HLOOKUP_REGEX →
  fst (test VLOOKUP_REGEX (JS.toUpperCase formula))
    || fst (test HLOOKUP_REGEX (JS.toUpperCase formula)) = true →
  rebuildLookup formula range = Some p →
  fst (proposeFixForError error formula worksheet range workbook g) = Some p.
Proof.
  intros Htype Hv Hh Hnamed Hp. unfold proposeFixForError.
  destruct (JS.truthy formula) eqn:Hf; simpl.
  2:{ destruct formula; [|done]. vm_compute in Hnamed. done. }
  rewrite Htype. change (String.eqb "REF" "REF") with true. cbv iota.
  unfold bind, testVLOOKUP, testHLOOKUP. rewrite Hv.
  destruct (test VLOOKUP_REGEX (JS.toUpperCase formula)) as [onV rx] eqn:HV.
  destruct onV; cbn [vlookup hlookup patterns fst snd ret].
  - by rewrite Hp.
  - rewrite Hh. destruct (test HLOOKUP_REGEX (JS.toUpperCase formula)) as [onH rx'].
    cbn [fst orb] in Hnamed. subst onH. by rewrite Hp.
Qed.

(* ================================================================== *)
(** * More on the patch applier *)
(* ================================================================== *)

Section PatchApplierMore.

Implicit Types (workbook : WorkBook) (error : ErrorDetail) (errors : list ErrorDetail).

Lemma patchedCell_again (old : option CellObject) (first second : string) :
  patchedCell (Some (patchedCell old first)) second = patchedCell old second.
Proof. by destruct old. Qed.

Lemma sheetFrame_applyFix workbook error name :
  sheetFrame (applyFix workbook error) name = sheetFrame workbook name.
Proof.
  unfold sheetFrame, applyFix.
  destruct (proposed error) as [text|]; [|done].
  destruct (JS.truthy text); [|done].
  destruct (Sheets workbook !! targetSheet workbook error) as [worksheet|] eqn:Hs; [|done].
  simpl. destruct (decide (targetSheet workbook error = name)) as [<-|Hn].
  - by rewrite lookup_insert_eq, Hs.
  - by rewrite lookup_insert_ne.
Qed.

(** Two workbooks with the same sheet names, the same ranges and merges and
    the same cells are the same workbook. *)
Lemma workbook_ext (first second : WorkBook) :
  SheetNames first = SheetNames second →
  (∀ name, sheetFrame first name = sheetFrame second name) →
  (∀ name address, cellOf first name address = cellOf second name address) →
  first = second.
Proof.
  destruct first as [names1 sheets1], second as [names2 sheets2]. simpl.
  intros -> Hframe Hcells. f_equal. apply map_eq. intros name.
  specialize (Hframe name). unfold sheetFrame in Hframe. simpl in Hframe.
  pose proof (Hcells name) as Hc. unfold cellOf in Hc. simpl in Hc.
  destruct (sheets1 !! name) as [[ref1 merges1 cells1]|],
           (sheets2 !! name) as [[ref2 merges2 cells2]|]; simpl in *; try done.
  injection Hframe as -> ->. f_equal. f_equal. by apply map_eq.
Qed.

Lemma writers_applyFix workbook error errors (fixes : list nat) (name address : string) :
  writers (applyFix workbook error) errors fixes name address
    = writers workbook errors fixes name address.
Proof.
  unfold writers. apply flat_map_ext. intros index.
  destruct (errors !! index) as [error'|]; [|done].
  by rewrite targetSheet_applyFix.
Qed.

Lemma writers_cons workbook errors (index : nat) (fixes : list nat) (name address : string) :
  writers workbook errors (index :: fixes) name address
    = (writers workbook errors [index] name address
       ++ writers workbook errors fixes name address)%list.
Proof. unfold writers. simpl. by rewrite app_nil_r. Qed.

Lemma cellOf_applyFix_writers workbook errors (index : nat) error (name address : string) :
  errors !! index = Some error →
  is_Some (Sheets workbook !! name) →
  cellOf (applyFix workbook error) name address
    = fold_left (fun cell text => Some (patchedCell cell (stripEquals text)))
        (writers workbook errors [index] name address) (cellOf workbook name address).
Proof.
  intros Hx Hsheet. rewrite cellOf_applyFix.
  unfold writers, fixable. cbn [flat_map]. rewrite Hx, app_nil_r.
  destruct (proposed error) as [text|]; [destruct (JS.truthy text)|];
    repeat case_bool_decide; simpl; try done;
    repeat match goal with
           | H : _ ∧ _ |- _ => destruct H
           | H : ¬ _ |- _ => exfalso; apply H; clear H; repeat split
           end; try done; congruence.
Qed.

(** The cell of an existing sheet after a patch call: the proposals aimed
    at it, applied in order. *)
Lemma cellOf_applyFixes_fold workbook errors (fixes : list nat)
    (patched : WorkBook) (name address : string) :
  applyFixes workbook fixes errors = Some patched →
  is_Some (Sheets workbook !! name) →
  cellOf patched name address
    = fold_left (fun cell text => Some (patchedCell cell (stripEquals text)))
        (writers workbook errors fixes name address) (cellOf workbook name address).
Proof.
  revert workbook.
  induction fixes as [|x xs IH]; intros workbook.
  - simpl. by intros [= <-].
  - intros Hrun Hsheet. simpl in Hrun.
    destruct (errors !! x) as [error|] eqn:Hx; [|done].
    rewrite (IH _ Hrun); [|by apply sheet_present_applyFix].
    rewrite writers_applyFix, writers_cons, fold_left_app.
    by rewrite (cellOf_applyFix_writers workbook errors x error name address Hx Hsheet).
Qed.

(** Of proposals applied in order, only the last one shows. *)
Lemma fold_patchedCell_last (texts : list string) (start : option CellObject) :
  fold_left (fun cell text => Some (patchedCell cell (stripEquals text))) texts start
    = match last texts with
      | Some text => Some (patchedCell start (stripEquals text))
      | None => start
      end.
Proof.
  revert start. induction texts as [|text texts IH] using rev_ind; intros start; [done|].
  rewrite fold_left_app, last_snoc. simpl.
  rewrite IH. destruct (last texts) as [before|]; [|done].
  by rewrite patchedCell_again.
Qed.

(** X1.  The cell-level account of a patch call: a cell of an existing
    sheet ends as the last proposal aimed at it makes it (formula without
    the leading [=], no cached value, the type tag the cell had before the
    call, or the number tag if the call created it), and as it was when no
    accepted proposal aims at it. *)
Theorem applyFixes_last_writer_wins workbook errors (fixes : list nat)
    (patched : WorkBook) (name address : string) :
  applyFixes workbook fixes errors = Some patched →
  is_Some (Sheets workbook !! name) →
  cellOf patched name address =
    match last (writers workbook errors fixes name address) with
    | Some text =>
        Some (patchedCell (cellOf workbook name address) (stripEquals text))
    | None => cellOf workbook name address
    end.
Proof.
  intros Hrun Hsheet.
  rewrite (cellOf_applyFixes_fold _ _ _ _ name address Hrun Hsheet).
  apply fold_patchedCell_last.
Qed.

(** On the sample ledger, B2 gets two proposals and shows the second. *)
Lemma ledger_second_proposal_shows :
  cellOf Case.patched "S" "B2"
    = Some {| t := TNumber; v := None; f := Some "SUM(A1:A2)" |}.
Proof.
  rewrite (applyFixes_last_writer_wins Sample.ledger Case.findings [0; 1; 2; 3]
             Case.patched "S" "B2").
  - vm_compute. reflexivity.
  - vm_compute. reflexivity.
  - eexists. vm_compute. reflexivity.
Defined.

Lemma writers_applyFixes workbook errors (done_ fixes : list nat) patched
    (name address : string) :
  applyFixes workbook done_ errors = Some patched →
  writers patched errors fixes name address = writers workbook errors fixes name address.
Proof.
  intros Hrun. unfold writers. apply flat_map_ext. intros index.
  destruct (errors !! index) as [error'|]; [|done].
  by rewrite (targetSheet_applyFixes _ _ _ _ _ Hrun).
Qed.

Lemma sheetFrame_applyFixes workbook errors (fixes : list nat) patched (name : string) :
  applyFixes workbook fixes errors = Some patched →
  sheetFrame patched name = sheetFrame workbook name.
Proof.
  revert workbook. induction fixes as [|x xs IH]; intros workbook; simpl.
  - by intros [= <-].
  - destruct (errors !! x) as [error|]; [|done].
    intros Hrun. rewrite (IH _ Hrun). apply sheetFrame_applyFix.
Qed.

Lemma cellOf_missing_sheet workbook (name address : string) :
  Sheets workbook !! name = None → cellOf workbook name address = None.
Proof. intros H. unfold cellOf. by rewrite H. Qed.

Lemma sheet_missing_applyFixes workbook errors (fixes : list nat) patched (name : string) :
  applyFixes workbook fixes errors = Some patched →
  Sheets workbook !! name = None → Sheets patched !! name = None.
Proof.
  intros Hrun Hnone. apply eq_None_not_Some.
  rewrite (sheet_present_applyFixes _ _ _ _ name Hrun), Hnone. by intros [? ?].
Qed.

Lemma applyFixes_bounds workbook errors (fixes : list nat) :
  is_Some (applyFixes workbook fixes errors) →
  ∀ index, index ∈ fixes → (index < length errors)%nat.
Proof.
  revert workbook. induction fixes as [|x xs IH]; intros workbook Hrun index Hin.
  - by apply elem_of_nil in Hin.
  - simpl in Hrun. destruct (errors !! x) as [error|] eqn:Hx.
    + apply elem_of_cons in Hin as [->|Hin].
      * by eapply lookup_lt_Some.
      * by eapply IH.
    + by destruct Hrun.
Qed.

Lemma applyFixes_within workbook errors (fixes : list nat) :
  (∀ index, index ∈ fixes → (index < length errors)%nat) →
  is_Some (applyFixes workbook fixes errors).
Proof.
  intros Hall. apply applyFixes_succeeds. intros index Hin.
  apply lookup_lt_is_Some. by apply Hall.
Qed.

(** X2.  A patch call fails exactly when some accepted index has no finding
    (reading [proposed] of [undefined] throws); nothing in the findings
    themselves, and nothing in the workbook, can make it fail. *)
Theorem applyFixes_succeeds_iff workbook errors (fixes : list nat) :
  is_Some (applyFixes workbook fixes errors)
  ↔ ∀ index, index ∈ fixes → (index < length errors)%nat.
Proof. split; [apply applyFixes_bounds | apply applyFixes_within]. Qed.

(** X3.  A patch call leaves the frame of the workbook alone: the list of
    sheet names, which sheets exist, and every sheet's range and merges.
    The range is not widened even when a fix creates a cell outside it. *)
Theorem applyFixes_keeps_frame workbook errors (fixes : list nat) (patched : WorkBook) :
  applyFixes workbook fixes errors = Some patched →
  SheetNames patched = SheetNames workbook
  ∧ ∀ name,
      (is_Some (Sheets patched !! name) ↔ is_Some (Sheets workbook !! name))
      ∧ (ref <$> Sheets patched !! name) = (ref <$> Sheets workbook !! name)
      ∧ (merges <$> Sheets patched !! name) = (merges <$> Sheets workbook !! name).
Proof.
  intros Hrun. split; [by eapply applyFixes_SheetNames|]. intros name.
  split; [by eapply sheet_present_applyFixes|].
  pose proof (sheetFrame_applyFixes _ _ _ _ name Hrun) as Hframe.
  unfold sheetFrame in Hframe.
  destruct (Sheets patched !! name), (Sheets workbook !! name); simpl in *; try done.
  by injection Hframe as -> ->.
Qed.

(** The sample ledger keeps its range A1:B2 after a fix created C5. *)
Lemma ledger_frame_kept :
  SheetNames Case.patched = SheetNames Sample.ledger
  ∧ ∀ name,
      (is_Some (Sheets Case.patched !! name) ↔ is_Some (Sheets Sample.ledger !! name))
      ∧ (ref <$> Sheets Case.patched !! name) = (ref <$> Sheets Sample.ledger !! name)
      ∧ (merges <$> Sheets Case.patched !! name) = (merges <$> Sheets Sample.ledger !! name).
Proof.
  apply (applyFixes_keeps_frame Sample.ledger Case.findings [0; 1; 2; 3] Case.patched).
  vm_compute. reflexivity.
Defined.

(** X4.  A patch call never removes a cell and never changes a type tag: a
    cell that was there is still there with its tag (a cell tagged as an
    error stays tagged as an error after its formula is replaced), and a
    cell the call created carries the number tag, a formula and no value. *)
Theorem applyFixes_keeps_cells_and_tags workbook errors (fixes : list nat)
    (patched : WorkBook) (name address : string) :
  applyFixes workbook fixes errors = Some patched →
  (∀ cell, cellOf workbook name address = Some cell →
           ∃ cell', cellOf patched name address = Some cell' ∧ t cell' = t cell)
  ∧ (cellOf workbook name address = None →
     ∀ cell', cellOf patched name address = Some cell' →
              t cell' = TNumber ∧ v cell' = None ∧ is_Some (f cell')).
Proof.
  intros Hrun.
  destruct (Sheets workbook !! name) as [worksheet|] eqn:Hs.
  - pose proof (cellOf_applyFixes_fold _ _ _ _ name address Hrun) as Hcell.
    rewrite Hs, fold_patchedCell_last in Hcell. specialize (Hcell (ltac:(eauto))).
    destruct (last (writers workbook errors fixes name address)) as [text|].
    + split.
      * intros cell Hc. rewrite Hc in Hcell. eexists. split; [exact Hcell | done].
      * intros Hc cell'. rewrite Hcell, Hc. intros [= <-]. simpl. eauto.
    + split.
      * intros cell Hc. exists cell. by rewrite Hcell.
      * intros Hc cell'. by rewrite Hcell, Hc.
  - rewrite (cellOf_missing_sheet workbook name address Hs).
    rewrite (cellOf_missing_sheet patched name address
               (sheet_missing_applyFixes _ _ _ _ name Hrun Hs)).
    split; [done | by intros _ cell'].
Qed.

(** C5 of the sample ledger, which the call created. *)
Lemma ledger_created_cell :
  (∀ cell, cellOf Sample.ledger "S" "C5" = Some cell →
           ∃ cell', cellOf Case.patched "S" "C5" = Some cell' ∧ t cell' = t cell)
  ∧ (cellOf Sample.ledger "S" "C5" = None →
     ∀ cell', cellOf Case.patched "S" "C5" = Some cell' →
              t cell' = TNumber ∧ v cell' = None ∧ is_Some (f cell')).
Proof.
  apply (applyFixes_keeps_cells_and_tags Sample.ledger Case.findings [0; 1; 2; 3]
           Case.patched "S" "C5").
  vm_compute. reflexivity.
Defined.

(** X5.  Applying the same accepted findings to the patched workbook once
    more changes nothing. *)
Theorem applyFixes_idempotent workbook errors (fixes : list nat) (patched : WorkBook) :
  applyFixes workbook fixes errors = Some patched →
  applyFixes patched fixes errors = Some patched.
Proof.
  intros Hrun.
  destruct (applyFixes patched fixes errors) as [again|] eqn:Hagain.
  2:{ assert (Hok : is_Some (applyFixes patched fixes errors)).
      { apply applyFixes_within. apply (applyFixes_bounds workbook). eauto. }
      rewrite Hagain in Hok. by destruct Hok. }
  f_equal. apply workbook_ext.
  - by eapply applyFixes_SheetNames.
  - intros name. by eapply sheetFrame_applyFixes.
  - intros name address.
    destruct (Sheets workbook !! name) as [worksheet|] eqn:Hs.
    + assert (Hs' : is_Some (Sheets patched !! name)).
      { apply (sheet_present_applyFixes _ _ _ _ name Hrun). eauto. }
      rewrite (cellOf_applyFixes_fold _ _ _ _ name address Hagain Hs').
      rewrite (writers_applyFixes _ _ _ _ _ name address Hrun).
      rewrite (cellOf_applyFixes_fold _ _ _ _ name address Hrun); [|eauto].
      rewrite !fold_patchedCell_last.
      destruct (last (writers workbook errors fixes name address)) as [text|]; [|done].
      by rewrite patchedCell_again.
    + pose proof (sheet_missing_applyFixes _ _ _ _ name Hrun Hs) as Hp.
      rewrite (cellOf_missing_sheet patched name address Hp).
      apply cellOf_missing_sheet. by eapply sheet_missing_applyFixes.
Qed.

Lemma ledger_patched_again :
  applyFixes Case.patched [0; 1; 2; 3] Case.findings = Some Case.patched.
Proof.
  apply (applyFixes_idempotent Sample.ledger Case.findings [0; 1; 2; 3] Case.patched).
  vm_compute. reflexivity.
Defined.

(** X6.  When no two accepted proposals aim at the same cell, the order in
    which the set yields the accepted indices does not matter: every
    rearrangement of them gives the same workbook. *)
Theorem applyFixes_order_independent workbook errors (fixes fixes' : list nat) :
  Permutation fixes fixes' →
  (∀ name address, (length (writers workbook errors fixes name address) ≤ 1)%nat) →
  applyFixes workbook fixes' errors = applyFixes workbook fixes errors.
Proof.
  intros Hperm Hone.
  assert (Hwriters : ∀ name address,
            writers workbook errors fixes' name address
            = writers workbook errors fixes name address).
  { intros name address.
    assert (Hp : Permutation (writers workbook errors fixes name address)
                             (writers workbook errors fixes' name address)).
    { unfold writers. by apply Permutation_flat_map. }
    specialize (Hone name address).
    destruct (writers workbook errors fixes name address) as [|text [|? ?]]; simpl in Hone.
    - by apply Permutation_nil in Hp.
    - by apply Permutation_singleton_l in Hp.
    - lia. }
  destruct (applyFixes workbook fixes errors) as [patched|] eqn:Hrun.
  - destruct (applyFixes workbook fixes' errors) as [patched'|] eqn:Hrun'.
    2:{ assert (Hok : is_Some (applyFixes workbook fixes' errors)).
        { apply applyFixes_within. intros index Hin.
          apply (applyFixes_bounds workbook errors fixes); [eauto|].
          by rewrite Hperm. }
        rewrite Hrun' in Hok. by destruct Hok. }
    f_equal. apply workbook_ext.
    + rewrite (applyFixes_SheetNames _ _ _ _ Hrun).
      by eapply applyFixes_SheetNames.
    + intros name. rewrite (sheetFrame_applyFixes _ _ _ _ name Hrun).
      by eapply sheetFrame_applyFixes.
    + intros name address.
      destruct (Sheets workbook !! name) as [worksheet|] eqn:Hs.
      * rewrite (cellOf_applyFixes_fold _ _ _ _ name address Hrun'); [|eauto].
        rewrite (cellOf_applyFixes_fold _ _ _ _ name address Hrun); [|eauto].
        by rewrite Hwriters.
      * rewrite (cellOf_missing_sheet patched' name address
                   (sheet_missing_applyFixes _ _ _ _ name Hrun' Hs)).
        by rewrite (cellOf_missing_sheet patched name address
                      (sheet_missing_applyFixes _ _ _ _ name Hrun Hs)).
  - destruct (applyFixes workbook fixes' errors) as [patched'|] eqn:Hrun'; [|done].
    assert (Hok : is_Some (applyFixes workbook fixes errors)).
    { apply applyFixes_within. intros index Hin.
      apply (applyFixes_bounds workbook errors fixes'); [eauto|].
      by rewrite <- Hperm. }
    rewrite Hrun in Hok. by destruct Hok.
Qed.

(** The findings on B2 and on C5 of the sample ledger, in either order. *)
Lemma ledger_either_order :
  applyFixes Sample.ledger [2; 0] Case.findings
    = applyFixes Sample.ledger [0; 2] Case.findings.
Proof.
  apply (applyFixes_order_independent Sample.ledger Case.findings [0; 2] [2; 0]).
  - apply perm_swap.
  - intros name address. unfold writers. cbn [flat_map].
    change (Case.findings !! 0) with (Some Sample.onB2).
    change (Case.findings !! 2) with (Some Case.onC5).
    cbn [proposed Sample.onB2 Case.onC5].
    change (targetAddress Sample.onB2) with "B2".
    change (targetAddress Case.onC5) with "C5".
    destruct (decide (address = "B2")) as [->|Hb].
    + rewrite (bool_decide_eq_false_2 (_ ∧ "C5" = "B2")); [|by intros [_ ?]].
      repeat case_bool_decide; simpl; lia.
    + rewrite (bool_decide_eq_false_2 (_ ∧ "B2" = address)); [|by intros [_ ?]].
      repeat case_bool_decide; simpl; lia.
Defined.

End PatchApplierMore.

(* ================================================================== *)
(** * The realm under analysis *)
(* ================================================================== *)

Section Keeps.

Context {A B : Type}.

Lemma keeps_ret (a : A) : keeps (ret a).
Proof. by intros g. Qed.

Lemma keeps_bind (m : M A) (k : A → M B) :
  keeps m → (∀ a, keeps (k a)) → keeps (bind m k).
Proof.
  intros Hm Hk g. unfold bind.
  pose proof (Hm g) as H1. destruct (m g) as [a g'].
  simpl in H1. rewrite <- H1. apply Hk.
Qed.

Lemma sound_ret (base : Realm) (a : A) (Q : A → Prop) : Q a → sound base (ret a) Q.
Proof. intros H g _. exact H. Qed.

Lemma sound_bind (base : Realm) (m : M A) (k : A → M B) (Q' : A → Prop) (Q : B → Prop) :
  sound base m Q' → keeps m → (∀ a, Q' a → sound base (k a) Q) →
  sound base (bind m k) Q.
Proof.
  intros Hm Hkeeps Hk g Hg. unfold bind.
  pose proof (Hm g Hg) as Ha. pose proof (Hkeeps g) as Hg'.
  destruct (m g) as [a g']. simpl in *. apply (Hk a Ha). by rewrite Hg'.
Qed.

Lemma sound_any (base : Realm) (m : M A) : sound base m (fun _ => True).
Proof. by intros g _. Qed.

End Keeps.

Lemma test_rewound (rx : RegExp.t) (subject : string) :
  rewound (snd (test rx subject)) = rewound rx.
Proof.
  unfold test, exec.
  destruct (searchFrom _ _ _) as [[[b e'] cs]|]; simpl;
    destruct (global rx) eqn:Hg; unfold rewound; simpl; by rewrite ?Hg.
Qed.

Lemma testVLOOKUP_keeps (subject : string) : keeps (testVLOOKUP subject).
Proof.
  intros g. unfold testVLOOKUP.
  pose proof (test_rewound (vlookup g) subject) as H.
  destruct (test (vlookup g) subject) as [b rx]. simpl in *.
  unfold rewind. simpl. by rewrite H.
Qed.

Lemma testHLOOKUP_keeps (subject : string) : keeps (testHLOOKUP subject).
Proof.
  intros g. unfold testHLOOKUP.
  pose proof (test_rewound (hlookup g) subject) as H.
  destruct (test (hlookup g) subject) as [b rx]. simpl in *.
  unfold rewind. simpl. by rewrite H.
Qed.

Lemma scanPatterns_rewound (ps : list (string * RegExp.t)) (cellValue cellFormula : string) :
  map (fun p => (fst p, rewound (snd p))) (snd (scanPatterns ps cellValue cellFormula))
    = map (fun p => (fst p, rewound (snd p))) ps.
Proof.
  induction ps as [|[errorType pattern] ps IH]; simpl; [done|].
  pose proof (test_rewound pattern cellValue) as H1.
  destruct (test pattern cellValue) as [onValue p1]. simpl in H1.
  assert (H2 : ∀ hit p2, (if onValue then (true, p1) else test p1 cellFormula) = (hit, p2) →
                         rewound p2 = rewound pattern).
  { intros hit p2. destruct onValue.
    - by intros [= _ <-].
    - intros Ht. pose proof (test_rewound p1 cellFormula) as H. rewrite Ht in H.
      simpl in H. by rewrite H. }
  destruct (if onValue then (true, p1) else test p1 cellFormula) as [hit p2].
  specialize (H2 hit p2 eq_refl).
  destruct hit; simpl.
  - by rewrite H2.
  - destruct (scanPatterns ps cellValue cellFormula) as [found ps'']. simpl in *.
    by rewrite H2, IH.
Qed.

Lemma firstSignature_keeps (cellValue cellFormula : string) :
  keeps (firstSignature cellValue cellFormula).
Proof.
  intros g. unfold firstSignature.
  pose proof (scanPatterns_rewound (patterns g) cellValue cellFormula) as H.
  destruct (scanPatterns (patterns g) cellValue cellFormula) as [found ps]. simpl in *.
  unfold rewind. simpl. by rewrite H.
Qed.

Lemma scanPatterns_kind (ps : list (string * RegExp.t)) (cellValue cellFormula : string)
    (errorType : string) :
  fst (scanPatterns ps cellValue cellFormula) = Some errorType →
  errorType ∈ map fst ps.
Proof.
  induction ps as [|[name pattern] ps IH]; simpl; [done|].
  destruct (test pattern cellValue) as [onValue p1].
  destruct (if onValue then (true, p1) else test p1 cellFormula) as [hit p2].
  destruct hit; simpl.
  - intros [= <-]. left.
  - destruct (scanPatterns ps cellValue cellFormula) as [found ps'']. simpl in *.
    intros H. right. by apply IH.
Qed.

Lemma rewind_names (g base : Realm) :
  rewind g = rewind base → map fst (patterns g) = map fst (patterns base).
Proof.
  intros H. apply (f_equal (fun x => map fst (patterns x))) in H.
  simpl in H. by rewrite !map_map in H.
Qed.

Lemma proposeFixForError_keeps error formula worksheet range workbook :
  keeps (proposeFixForError error formula worksheet range workbook).
Proof.
  unfold proposeFixForError.
  destruct (negb (JS.truthy formula)); [apply keeps_ret|].
  apply keeps_bind.
  - destruct (String.eqb (type error) "REF"); [|apply keeps_ret].
    apply keeps_bind; [apply testVLOOKUP_keeps|].
    intros []; [apply keeps_ret | apply testHLOOKUP_keeps].
  - intros isBrokenLookup.
    destruct (if isBrokenLookup then _ else _); [apply keeps_ret|].
    destruct (String.eqb (type error) "VALUE"); [apply keeps_ret|].
    destruct (if String.eqb (type error) "NAME" then _ else _); [apply keeps_ret|].
    destruct (String.eqb (type error) "DIV"); apply keeps_ret.
Qed.

Lemma reportError_keeps errorType cellValue cellFormula sheetName R C worksheet range
    workbook :
  keeps (reportError errorType cellValue cellFormula sheetName R C worksheet range workbook).
Proof.
  unfold reportError. apply keeps_bind; [apply proposeFixForError_keeps|].
  intros [p|]; apply keeps_ret.
Qed.

Lemma detectFormulaIssues_keeps formula cellAddress sheetName R C :
  keeps (detectFormulaIssues formula cellAddress sheetName R C).
Proof.
  unfold detectFormulaIssues.
  destruct (500 <? _)%nat; [apply keeps_ret|].
  destruct (5 <? _)%nat; [apply keeps_ret|].
  apply keeps_bind; [apply testVLOOKUP_keeps|].
  intros isLookup. destruct (isLookup && _); apply keeps_ret.
Qed.

Lemma visitCell_keeps workbook worksheet sheetName range position columnValues :
  keeps (visitCell workbook worksheet sheetName range position columnValues).
Proof.
  destruct position as [R C]. unfold visitCell.
  destruct (cellAt worksheet _) as [cell|]; [|apply keeps_ret].
  assert (Hother : keeps
      (found <- firstSignature (valueText cell) (formulaText cell) ;;
       signatureError <-
         match found with
         | Some errorType =>
             error <- reportError errorType (valueText cell) (formulaText cell)
                        sheetName R C worksheet range workbook ;;
             ret [error]
         | None => ret []
         end ;;
       formulaIssue <-
         (if JS.truthy (formulaText cell)
          then detectFormulaIssues (formulaText cell) (encode_cell {| r := R; c := C |})
                 sheetName R C
          else ret None) ;;
       ret (app signatureError
              (app (optional formulaIssue)
                 (app (optional
                         (if JS.truthy (valueText cell) && negb (JS.truthy (formulaText cell))
                          then validateDataType cell R C sheetName worksheet range
                          else None))
                    (optional (detectEmptyGaps worksheet R C range sheetName)))),
            collect columnValues R C (valueText cell) (formulaText cell)))).
  { apply keeps_bind; [apply firstSignature_keeps|]. intros found.
    apply keeps_bind.
    { destruct found; [|apply keeps_ret].
      apply keeps_bind; [apply reportError_keeps | intros; apply keeps_ret]. }
    intros signatureError. apply keeps_bind; [|intros; apply keeps_ret].
    destruct (JS.truthy (formulaText cell));
      [apply detectFormulaIssues_keeps | apply keeps_ret]. }
  destruct (t cell); try exact Hother.
  apply keeps_bind; [apply reportError_keeps | intros; apply keeps_ret].
Qed.

Lemma forEach_keeps {X S : Type} (xs : list X) (body : X → S → M (list ErrorDetail * S)) :
  (∀ x local, keeps (body x local)) → ∀ local, keeps (forEach xs local body).
Proof.
  intros Hbody. induction xs as [|x xs IH]; intros local; simpl; [apply keeps_ret|].
  apply keeps_bind; [apply Hbody|]. intros res.
  apply keeps_bind; [apply IH|]. intros more. apply keeps_ret.
Qed.

Lemma analyzeSheet_keeps workbook sheetName worksheet :
  keeps (analyzeSheet workbook sheetName worksheet).
Proof.
  unfold analyzeSheet. apply keeps_bind.
  - apply forEach_keeps. intros. apply visitCell_keeps.
  - intros [cellErrors columnValues]. apply keeps_ret.
Qed.

(** X7.  An analysis changes nothing of the module's pattern objects but
    their [lastIndex] fields: the names of the error kinds, their order,
    the pattern texts and the flags are after the call what they were
    before, so a loaded module stays a loaded module. *)
Theorem analyzeExcelFile_keeps_patterns (workbook : WorkBook)
    (selectedSheets : option (list string)) (g : Realm) :
  rewind (snd (analyzeExcelFile workbook selectedSheets g)) = rewind g.
Proof.
  revert g. change (keeps (analyzeExcelFile workbook selectedSheets)).
  unfold analyzeExcelFile. apply keeps_bind; [|intros; apply keeps_ret].
  apply forEach_keeps. intros sheetName [].
  destruct (Sheets workbook !! sheetName) as [worksheet|]; [|apply keeps_ret].
  apply keeps_bind; [apply analyzeSheet_keeps | intros; apply keeps_ret].
Qed.

(* ================================================================== *)
(** * Where findings come from, with the guards *)
(* ================================================================== *)

Lemma forEach_sound {X S : Type} (base : Realm) (P : ErrorDetail → Prop) (xs : list X)
    (body : X → S → M (list ErrorDetail * S)) :
  (∀ x local, x ∈ xs → sound base (body x local) (fun res => Forall P (fst res))) →
  (∀ x local, keeps (body x local)) →
  ∀ local, sound base (forEach xs local body) (fun res => Forall P (fst res)).
Proof.
  intros Hbody Hkeeps. induction xs as [|x xs IH]; intros local; simpl.
  - by apply sound_ret.
  - eapply sound_bind; [apply Hbody; left | apply Hkeeps |]. intros res Hres.
    eapply sound_bind.
    + apply IH. intros y local' Hin. apply Hbody. by right.
    + by apply forEach_keeps.
    + intros more Hmore. apply sound_ret. simpl. by apply Forall_app.
Qed.

Lemma firstSignature_kind (base : Realm) (cellValue cellFormula : string) :
  sound base (firstSignature cellValue cellFormula)
    (fun found => ∀ errorType, found = Some errorType →
                               errorType ∈ map fst (patterns base)).
Proof.
  intros g Hg errorType. unfold firstSignature.
  pose proof (scanPatterns_kind (patterns g) cellValue cellFormula errorType) as H.
  destruct (scanPatterns (patterns g) cellValue cellFormula) as [found ps]. simpl in *.
  intros Hf. rewrite <- (rewind_names g base Hg). by apply H.
Qed.

Section Provenances.

Variables (base : Realm) (workbook : WorkBook).
Variables (sheetName : string) (worksheet : WorkSheet).
Hypothesis Hsheet : Sheets workbook !! sheetName = Some worksheet.

Lemma visitCell_provenance (position : nat * nat) (columnValues : ColumnValues) :
  position ∈ positions (rangeOf worksheet) →
  sound base
    (visitCell workbook worksheet sheetName (rangeOf worksheet) position columnValues)
    (fun res => Forall (Provenance base workbook) (fst res)).
Proof.
  destruct position as [R C]. intros Hpos. unfold visitCell.
  destruct (cellAt worksheet (encode_cell {| r := R; c := C |})) as [cell|] eqn:Hcell.
  2:{ apply sound_ret. constructor. }
  assert (Hother : t cell ≠ TError →
    sound base
      (found <- firstSignature (valueText cell) (formulaText cell) ;;
       signatureError <-
         match found with
         | Some errorType =>
             error <- reportError errorType (valueText cell) (formulaText cell)
                        sheetName R C worksheet (rangeOf worksheet) workbook ;;
             ret [error]
         | None => ret []
         end ;;
       formulaIssue <-
         (if JS.truthy (formulaText cell)
          then detectFormulaIssues (formulaText cell) (encode_cell {| r := R; c := C |})
                 sheetName R C
          else ret None) ;;
       ret (app signatureError
              (app (optional formulaIssue)
                 (app (optional
                         (if JS.truthy (valueText cell) && negb (JS.truthy (formulaText cell))
                          then validateDataType cell R C sheetName worksheet (rangeOf worksheet)
                          else None))
                    (optional (detectEmptyGaps worksheet R C (rangeOf worksheet) sheetName)))),
            collect columnValues R C (valueText cell) (formulaText cell)))
      (fun res => Forall (Provenance base workbook) (fst res))).
  { intros Ht.
    eapply sound_bind; [apply firstSignature_kind | apply firstSignature_keeps |].
    intros found Hfound.
    eapply (sound_bind _ _ _ (Forall (Provenance base workbook))).
    { destruct found as [errorType|]; [|apply sound_ret; constructor].
      eapply (sound_bind _ _ _ (Provenance base workbook)).
      - intros g Hg. eapply by_signature; eauto.
      - apply reportError_keeps.
      - intros error He. apply sound_ret. by repeat constructor. }
    { destruct found; [|apply keeps_ret].
      apply keeps_bind; [apply reportError_keeps | intros; apply keeps_ret]. }
    intros signatureError Hsig.
    eapply (sound_bind _ _ _
              (fun o => ∀ error, o = Some error → Provenance base workbook error)).
    { destruct (JS.truthy (formulaText cell)) eqn:Hf; [|by apply sound_ret].
      intros g Hg error He. by eapply by_formula. }
    { destruct (JS.truthy (formulaText cell));
        [apply detectFormulaIssues_keeps | apply keeps_ret]. }
    intros formulaIssue Hformula. apply sound_ret. simpl.
    apply Forall_app. split; [done|].
    apply Forall_app. split; [by apply Forall_optional|].
    apply Forall_app. split; apply Forall_optional.
    - intros error He.
      destruct (JS.truthy (valueText cell)) eqn:Hv; [|done].
      destruct (JS.truthy (formulaText cell)) eqn:Hf; [done|]. simpl in He.
      by eapply by_data_type.
    - intros error He. by eapply by_empty_gap. }
  destruct (t cell) eqn:Ht; try (apply Hother; discriminate).
  eapply (sound_bind _ _ _ (Provenance base workbook)).
  - intros g Hg. by eapply by_native_tag.
  - apply reportError_keeps.
  - intros error He. apply sound_ret. by repeat constructor.
Qed.

Lemma analyzeSheet_provenance :
  sound base (analyzeSheet workbook sheetName worksheet) (Forall (Provenance base workbook)).
Proof.
  unfold analyzeSheet.
  eapply sound_bind.
  - apply (forEach_sound base (Provenance base workbook)).
    + intros position local Hin. by apply visitCell_provenance.
    + intros. apply visitCell_keeps.
  - apply forEach_keeps. intros. apply visitCell_keeps.
  - intros [cellErrors columnValues] Hcells. apply sound_ret. simpl in Hcells.
    apply Forall_app. split; [done|].
    apply Forall_app. split.
    { apply Forall_forall. intros error Hin. by eapply by_duplicates. }
    apply Forall_app. split.
    { apply Forall_forall. intros error Hin.
      apply list_elem_of_In, in_flat_map in Hin. destruct Hin as (merge & Hm & Hin).
      destruct (validateMergedCell merge sheetName worksheet) as [error'|] eqn:Hv;
        simpl in Hin; [|done].
      destruct Hin as [<-|[]]. eapply by_merge; [done | by apply list_elem_of_In | done]. }
    apply Forall_app. split; apply Forall_forall; intros error Hin.
    + by eapply by_cross_sheet.
    + by eapply by_format.
Qed.

End Provenances.

Lemma analyzeExcelFile_provenance (workbook : WorkBook)
    (selectedSheets : option (list string)) (g : Realm) :
  Forall (Provenance g workbook) (fst (analyzeExcelFile workbook selectedSheets g)).
Proof.
  cut (sound g (analyzeExcelFile workbook selectedSheets) (Forall (Provenance g workbook))).
  { intros H. by apply H. }
  unfold analyzeExcelFile.
  eapply (sound_bind _ _ _ (fun res => Forall (Provenance g workbook) (fst res))).
  - apply forEach_sound.
    + intros sheetName [] _.
      destruct (Sheets workbook !! sheetName) as [worksheet|] eqn:Hs.
      * eapply sound_bind;
          [by apply analyzeSheet_provenance | apply analyzeSheet_keeps |].
        intros found Hfound. by apply sound_ret.
      * apply sound_ret. constructor.
    + intros sheetName [].
      destruct (Sheets workbook !! sheetName) as [worksheet|]; [|apply keeps_ret].
      apply keeps_bind; [apply analyzeSheet_keeps | intros; apply keeps_ret].
  - apply forEach_keeps. intros sheetName [].
    destruct (Sheets workbook !! sheetName) as [worksheet|]; [|apply keeps_ret].
    apply keeps_bind; [apply analyzeSheet_keeps | intros; apply keeps_ret].
  - intros res Hres. by apply sound_ret.
Qed.

(* ================================================================== *)
(** * Kinds, severities and proposals *)
(* ================================================================== *)

Ltac listed := repeat constructor.

Lemma detectFormulaIssues_kind formula cellAddress sheetName R C g error :
  fst (detectFormulaIssues formula cellAddress sheetName R C g) = Some error →
  detectorFinding sheetName error ∧ proposalShape error.
Proof.
  unfold detectFormulaIssues, detectorFinding, proposalShape.
  destruct (500 <? String.length formula)%nat.
  { intros [= <-]. simpl. repeat split; [lia | eexists; split; [done | listed] | done]. }
  destruct (5 <? _)%nat.
  { intros [= <-]. simpl. repeat split; [lia | eexists; split; [done | listed] | done]. }
  unfold bind. destruct (testVLOOKUP (JS.toUpperCase formula) g) as [isLookup g'].
  destruct (isLookup && negb (JS.includes formula "$")); [|done].
  intros [= <-]. simpl. repeat split; [lia | eexists; split; [done | listed] |].
  intros text [= <-]. by eexists.
Qed.

Lemma validateDataType_kind cell R C sheetName worksheet range error :
  validateDataType cell R C sheetName worksheet range = Some error →
  detectorFinding sheetName error.
Proof.
  unfold validateDataType, detectorFinding.
  destruct (fold_left _ _ _) as [numericCount textCount].
  destruct (_ && _); [|done]. destruct (_ && _); [|done].
  intros [= <-]. simpl. repeat split; [lia | eexists; split; [done | listed]].
Qed.

Lemma detectEmptyGaps_kind worksheet R C range sheetName error :
  detectEmptyGaps worksheet R C range sheetName = Some error →
  detectorFinding sheetName error.
Proof.
  unfold detectEmptyGaps, detectorFinding.
  destruct (hasValue _); [done|]. destruct (_ && _); [|done].
  intros [= <-]. simpl. repeat split; [lia | eexists; split; [done | listed]].
Qed.

Lemma duplicates_kind columnValues sheetName error :
  error ∈ duplicates columnValues sheetName → detectorFinding sheetName error.
Proof.
  unfold duplicates, detectorFinding. intros Hin.
  apply list_elem_of_In, in_flat_map in Hin. destruct Hin as ([colIndex valueMap] & _ & Hin).
  apply in_flat_map in Hin. destruct Hin as ([text rows] & _ & Hin).
  destruct (_ && _); [|done].
  apply in_map_iff in Hin. destruct Hin as (rowIndex & <- & _). simpl.
  repeat split; [lia | eexists; split; [done | listed]].
Qed.

Lemma validateMergedCell_kind merge sheetName worksheet error :
  validateMergedCell merge sheetName worksheet = Some error →
  detectorFinding sheetName error.
Proof.
  unfold validateMergedCell, detectorFinding. destruct (hasFormula _); [|done].
  intros [= <-]. simpl. repeat split; [lia | eexists; split; [done | listed]].
Qed.

Lemma position_in_range (range : Range) (R C : nat) :
  R ∈ seq (r (s range)) (r (e range) + 1 - r (s range)) →
  C ∈ seq (c (s range)) (c (e range) + 1 - c (s range)) →
  (R, C) ∈ positions range.
Proof.
  intros HR HC. unfold positions. apply list_elem_of_In, in_flat_map.
  exists R. split; [by apply list_elem_of_In|].
  apply in_map. by apply list_elem_of_In.
Qed.

Lemma validateCrossSheetReferences_kind worksheet sheetName workbook range error :
  error ∈ validateCrossSheetReferences worksheet sheetName workbook range →
  detectorFinding sheetName error ∧ proposalShape error
  ∧ ∃ R C, located sheetName R C error ∧ (R, C) ∈ positions range
           ∧ hasFormula (cellAt worksheet (encode_cell {| r := R; c := C |})) = true.
Proof.
  unfold validateCrossSheetReferences, detectorFinding, proposalShape. intros Hin.
  apply list_elem_of_In, in_flat_map in Hin. destruct Hin as (R & HR & Hin).
  apply in_flat_map in Hin. destruct Hin as (C & HC & Hin).
  destruct (hasFormula _) eqn:Hf; [|done].
  apply in_flat_map in Hin. destruct Hin as ([[b e'] cs] & _ & Hin).
  case_bool_decide; [done|]. destruct Hin as [<-|[]]. simpl.
  split; [repeat split; [lia | eexists; split; [done | listed]]|].
  split; [intros text [= <-]; by eexists|].
  exists R, C. split; [done|]. split; [|done].
  apply position_in_range; by apply list_elem_of_In.
Qed.

Lemma detectFormatInconsistencies_kind worksheet sheetName range error :
  error ∈ detectFormatInconsistencies worksheet sheetName range →
  detectorFinding sheetName error.
Proof.
  unfold detectFormatInconsistencies, detectorFinding. intros Hin.
  apply list_elem_of_In, in_flat_map in Hin. destruct Hin as (C & _ & Hin).
  destruct (1 <? _)%nat; [|done].
  apply in_flat_map in Hin. destruct Hin as ([format rows] & _ & Hin).
  destruct (_ && _); [|done].
  apply in_map_iff in Hin. destruct Hin as (R & <- & _). simpl.
  repeat split; [lia | eexists; split; [done | listed]].
Qed.

Lemma fixName_shape (fixes : list (string * string)) (formula : string) (p : Proposal.t) :
  fixName fixes formula = Some p → ∃ body, Proposal.formula p = "=" ++ body.
Proof.
  induction fixes as [|[wrong correct] others IH]; simpl; [done|].
  destruct (matches (aliasPattern wrong) formula); [|exact IH].
  intros [= <-]. by eexists.
Qed.

Lemma rebuildLookup_shape (formula : string) (range : Range) (p : Proposal.t) :
  rebuildLookup formula range = Some p → ∃ body, Proposal.formula p = "=" ++ body.
Proof.
  unfold rebuildLookup.
  destruct (searchFrom ARGUMENT_LIST formula 0) as [[[b e'] cs]|]; [|done].
  destruct (3 <=? _)%nat; [|done].
  intros [= <-]. by eexists.
Qed.

(** A proposal from the fix proposer needs a non-empty formula to start
    from, and is "=" and a body. *)
Lemma proposeFixForError_shape error formula worksheet range workbook :
  yields (proposeFixForError error formula worksheet range workbook)
    (fun o => ∀ p, o = Some p →
                   JS.truthy formula = true ∧ ∃ body, Proposal.formula p = "=" ++ body).
Proof.
  unfold proposeFixForError.
  destruct (JS.truthy formula); cbn [negb]; [|by apply yields_ret].
  eapply yields_bind; [apply yields_any|]. intros isBrokenLookup _.
  destruct (if isBrokenLookup then rebuildLookup formula range else None) as [p|] eqn:Hp.
  { apply yields_ret. intros ? [= <-]. split; [done|].
    destruct isBrokenLookup; [by eapply rebuildLookup_shape | done]. }
  destruct (String.eqb (type error) "VALUE").
  { apply yields_ret. intros ? [= <-]. split; [done | by eexists]. }
  destruct (if String.eqb (type error) "NAME" then fixName commonFixes formula else None)
    as [p|] eqn:Hn.
  { apply yields_ret. intros ? [= <-]. split; [done|].
    destruct (String.eqb (type error) "NAME"); [by eapply fixName_shape | done]. }
  destruct (String.eqb (type error) "DIV"); apply yields_ret; [|done].
  intros ? [= <-]. split; [done | by eexists].
Qed.

Lemma reportError_shape errorType cellValue cellFormula sheetName R C worksheet range
    workbook :
  yields (reportError errorType cellValue cellFormula sheetName R C worksheet range workbook)
    (fun error => proposalShape error
                  ∧ (proposed error ≠ None → JS.truthy cellFormula = true)).
Proof.
  unfold reportError.
  eapply yields_bind; [apply proposeFixForError_shape|].
  intros [p|] Hp; apply yields_ret; unfold proposalShape; simpl.
  - destruct (Hp p eq_refl) as [Hf [body Hb]]. split; [|done].
    intros text [= <-]. by exists body.
  - split; [done | by intros H].
Qed.

Lemma rewind_fresh : rewind fresh = fresh.
Proof. reflexivity. Qed.

Lemma detectorKinds_not_error (kind : string) (sev : Severity) :
  (kind, sev) ∈ detectorKinds → kind ≠ "REF" ∧ kind ≠ "DIV".
Proof.
  intros H. apply list_elem_of_In in H. simpl in H.
  repeat (destruct H as [[= <- <-]|H]; [split; discriminate|]). done.
Qed.

Lemma severityOf_critical (errorType : string) :
  errorType = "REF" ∨ errorType = "DIV" → severityOf errorType = critical.
Proof. by intros [-> | ->]. Qed.

Lemma provenance_wellformed (base : Realm) (workbook : WorkBook) (error : ErrorDetail) :
  Provenance base workbook error →
  (∃ name, sheet error = Some name ∧ is_Some (Sheets workbook !! name))
  ∧ (1 ≤ row error)%nat
  ∧ is_Some (severity error)
  ∧ (type error = "REF" ∨ type error = "DIV" → severity error = Some critical)
  ∧ proposalShape error.
Proof.
  revert error.
  assert (Hreport : ∀ name ws errorType cellValue cellFormula R C g',
            Sheets workbook !! name = Some ws →
            let error := fst (reportError errorType cellValue cellFormula name R C ws
                                (rangeOf ws) workbook g') in
            (∃ name, sheet error = Some name ∧ is_Some (Sheets workbook !! name))
            ∧ (1 ≤ row error)%nat ∧ is_Some (severity error)
            ∧ (type error = "REF" ∨ type error = "DIV" → severity error = Some critical)
            ∧ proposalShape error).
  { intros name ws errorType cellValue cellFormula R C g' Hs error.
    destruct (reportError_facts errorType cellValue cellFormula name R C ws (rangeOf ws)
                workbook g') as (Hty & (Hrow & _ & Hname) & _ & Hsev).
    fold error in Hty, Hrow, Hname, Hsev.
    split; [exists name; eauto|]. split; [lia|]. split; [eauto|].
    split; [|apply reportError_shape].
    intros Hkind. rewrite Hsev, Hty in *. f_equal. by apply severityOf_critical. }
  assert (Hdetector : ∀ name ws error,
            Sheets workbook !! name = Some ws → detectorFinding name error →
            proposalShape error →
            (∃ name, sheet error = Some name ∧ is_Some (Sheets workbook !! name))
            ∧ (1 ≤ row error)%nat ∧ is_Some (severity error)
            ∧ (type error = "REF" ∨ type error = "DIV" → severity error = Some critical)
            ∧ proposalShape error).
  { intros name ws error Hs (Hname & Hrow & sev & Hsev & Hkind) Hshape.
    split; [exists name; eauto|]. split; [done|]. split; [eauto|]. split; [|done].
    destruct (detectorKinds_not_error _ _ Hkind) as [H1 H2]. by intros [?|?]. }
  assert (Hplain : ∀ error, proposed error = None → proposalShape error).
  { intros error H text. by rewrite H. }
  intros error
    [ name ws R C cell g' Hs Hpos Hc Ht Hg
    | name ws R C cell errorType g' Hs Hpos Hc Ht Hkind Hg
    | name ws R C cell g' err Hs Hpos Hc Ht Hf Hg He
    | name ws R C cell err Hs Hpos Hc Ht Hv Hf He
    | name ws R C cell err Hs Hpos Hc Ht He
    | name ws columnValues err Hs Hin
    | name ws merge err Hs Hm He
    | name ws err Hs Hin
    | name ws err Hs Hin ].
  - by apply Hreport.
  - by apply Hreport.
  - apply detectFormulaIssues_kind in He as [? ?]. by eapply Hdetector.
  - eapply Hdetector; [done | by eapply validateDataType_kind |].
    apply Hplain. by apply validateDataType_facts in He as [_ ?].
  - eapply Hdetector; [done | by eapply detectEmptyGaps_kind |].
    apply Hplain. by apply detectEmptyGaps_facts in He as (_ & ? & _).
  - eapply Hdetector; [done | by eapply duplicates_kind |].
    apply Hplain. by apply duplicates_facts in Hin as [_ ?].
  - eapply Hdetector; [done | by eapply validateMergedCell_kind |].
    apply Hplain. by apply validateMergedCell_facts in He as [_ ?].
  - apply validateCrossSheetReferences_kind in Hin as (? & ? & _). by eapply Hdetector.
  - eapply Hdetector; [done | by eapply detectFormatInconsistencies_kind |].
    apply Hplain. by apply detectFormatInconsistencies_facts in Hin as [_ ?].
Qed.

(** X8.  Every finding of an analysis names a sheet that the workbook has,
    a row from 1 on and a severity; findings of kind REF or DIV are
    critical; a proposal, when there is one, is "=" and a body.  This holds
    in every state of the patterns. *)
Theorem analyzeExcelFile_findings_wellformed (workbook : WorkBook)
    (selectedSheets : option (list string)) (g : Realm) :
  Forall (fun error =>
            (∃ name, sheet error = Some name ∧ is_Some (Sheets workbook !! name))
            ∧ (1 ≤ row error)%nat
            ∧ is_Some (severity error)
            ∧ (type error = "REF" ∨ type error = "DIV" → severity error = Some critical)
            ∧ proposalShape error)
    (fst (analyzeExcelFile workbook selectedSheets g)).
Proof.
  eapply Forall_impl; [apply analyzeExcelFile_provenance|].
  apply provenance_wellformed.
Qed.

Lemma nativeKind_listed (cellValue : string) :
  (nativeKind cellValue, severityOf (nativeKind cellValue)) ∈ errorKinds.
Proof.
  unfold nativeKind.
  repeat match goal with |- context [if ?b then _ else _] => destruct b end; listed.
Qed.

(** X9.  In a loaded module, whatever its patterns' [lastIndex] fields hold,
    every finding has one of the seventeen kinds (the eight error kinds of
    the pattern table and the nine of the other detectors) with the
    severity that kind always has. *)
Theorem analyzeExcelFile_kinds (workbook : WorkBook)
    (selectedSheets : option (list string)) (g : Realm) :
  loaded g →
  Forall (fun error =>
            ∃ sev, severity error = Some sev
                   ∧ (type error, sev) ∈ (errorKinds ++ detectorKinds)%list)
    (fst (analyzeExcelFile workbook selectedSheets g)).
Proof.
  intros Hloaded.
  eapply Forall_impl; [apply analyzeExcelFile_provenance|].
  assert (Hdetector : ∀ name error, detectorFinding name error →
            ∃ sev, severity error = Some sev
                   ∧ (type error, sev) ∈ (errorKinds ++ detectorKinds)%list).
  { intros name error (_ & _ & sev & Hsev & Hkind).
    exists sev. split; [done|]. apply elem_of_app. by right. }
  intros error
    [ name ws R C cell g' Hs Hpos Hc Ht Hg
    | name ws R C cell errorType g' Hs Hpos Hc Ht Hkind Hg
    | name ws R C cell g' err Hs Hpos Hc Ht Hf Hg He
    | name ws R C cell err Hs Hpos Hc Ht Hv Hf He
    | name ws R C cell err Hs Hpos Hc Ht He
    | name ws columnValues err Hs Hin
    | name ws merge err Hs Hm He
    | name ws err Hs Hin
    | name ws err Hs Hin ].
  - destruct (reportError_facts (nativeKind (valueText cell)) (valueText cell)
                (formulaText cell) name R C ws (rangeOf ws) workbook g')
      as (Hty & _ & _ & Hsev).
    eexists. split; [exact Hsev|]. rewrite Hty. apply elem_of_app. left.
    apply nativeKind_listed.
  - destruct (reportError_facts errorType (valueText cell) (formulaText cell)
                name R C ws (rangeOf ws) workbook g') as (Hty & _ & _ & Hsev).
    eexists. split; [exact Hsev|]. rewrite Hty. apply elem_of_app. left.
    rewrite (rewind_names g fresh) in Hkind; [|by rewrite rewind_fresh].
    apply list_elem_of_In in Hkind. simpl in Hkind.
    repeat (destruct Hkind as [<-|Hkind]; [listed|]). done.
  - apply detectFormulaIssues_kind in He as [? _]. by eapply Hdetector.
  - eapply Hdetector. by eapply validateDataType_kind.
  - eapply Hdetector. by eapply detectEmptyGaps_kind.
  - eapply Hdetector. by eapply duplicates_kind.
  - eapply Hdetector. by eapply validateMergedCell_kind.
  - apply validateCrossSheetReferences_kind in Hin as (? & _). by eapply Hdetector.
  - eapply Hdetector. by eapply detectFormatInconsistencies_kind.
Qed.

(** A second analysis in the same module, on the two lookups. *)
Lemma worn_realm_kinds :
  Forall (fun error =>
            ∃ sev, severity error = Some sev
                   ∧ (type error, sev) ∈ (errorKinds ++ detectorKinds)%list)
    (fst (analyzeExcelFile Sample.twoLookups None Case.worn)).
Proof.
  apply (analyzeExcelFile_kinds Sample.twoLookups None Case.worn).
  reflexivity.
Defined.

(* ================================================================== *)
(** * From the analysis to the download *)
(* ================================================================== *)

Lemma applyFix_unfixable (workbook : WorkBook) (error : ErrorDetail) :
  fixable error = false → applyFix workbook error = workbook.
Proof.
  unfold fixable, applyFix. destruct (proposed error) as [text|]; [|done].
  by intros ->.
Qed.

Lemma fixableIndices_from (errors before rest : list ErrorDetail) (workbook : WorkBook) :
  errors = (before ++ rest)%list →
  applyFixes workbook
    (map Z.to_nat
       (List.filter (fun index => negb (index =? -1)%Z)
          (imap (fun index error =>
                   if fixable error then Z.of_nat (length before + index) else (-1)%Z)
                rest)))
    errors
  = applyFixes workbook (seq (length before) (length rest)) errors.
Proof.
  revert before workbook. induction rest as [|error rest IH]; intros before workbook Herrors;
    [done|].
  assert (Hlookup : errors !! length before = Some error).
  { rewrite Herrors. by rewrite list_lookup_middle. }
  assert (Hrest : ∀ workbook',
    applyFixes workbook'
      (map Z.to_nat
         (List.filter (fun index => negb (index =? -1)%Z)
            (imap ((fun index error' =>
                      if fixable error' then Z.of_nat (length before + index) else (-1)%Z)
                   ∘ S) rest))) errors
    = applyFixes workbook' (seq (S (length before)) (length rest)) errors).
  { intros workbook'.
    specialize (IH (before ++ [error])%list workbook').
    rewrite length_app in IH. simpl in IH.
    replace (length before + 1)%nat with (S (length before)) in IH by lia.
    rewrite <- IH; [|by rewrite <- app_assoc].
    f_equal. f_equal. f_equal. apply imap_ext. intros i x _. simpl.
    by replace (length before + S i)%nat with (S (length before + i)) by lia. }
  rewrite imap_cons. cbn [List.filter length seq].
  rewrite Nat.add_0_r.
  destruct (fixable error) eqn:Hfix.
  - replace (negb (Z.of_nat (length before) =? -1)%Z) with true
      by (symmetry; apply negb_true_iff, Z.eqb_neq; lia).
    cbn [map applyFixes]. rewrite Nat2Z.id, Hlookup. apply Hrest.
  - cbn [Z.eqb negb applyFixes]. rewrite Hlookup.
    rewrite (applyFix_unfixable _ _ Hfix). apply Hrest.
Qed.

Lemma handleDownload_every_index (workbook : WorkBook) (errors : list ErrorDetail) :
  handleDownload workbook errors = applyFixes workbook (seq 0 (length errors)) errors.
Proof.
  unfold handleDownload, fixableIndices.
  apply (fixableIndices_from errors [] errors workbook eq_refl).
Qed.

Lemma handleDownload_runs (workbook : WorkBook) (errors : list ErrorDetail) :
  is_Some (handleDownload workbook errors).
Proof.
  rewrite handleDownload_every_index.
  apply applyFixes_within. intros index Hin.
  apply elem_of_seq in Hin. lia.
Qed.

(** X10.  The download handler never fails, whatever the findings are, and
    gives what accepting every finding would give: leaving out the
    findings without a proposal beforehand changes nothing. *)
Theorem handleDownload_accepts_all (workbook : WorkBook) (errors : list ErrorDetail) :
  handleDownload workbook errors = applyFixes workbook (seq 0 (length errors)) errors
  ∧ is_Some (handleDownload workbook errors).
Proof. split; [apply handleDownload_every_index | apply handleDownload_runs]. Qed.

Lemma substring_whole (text : string) : String.substring 0 (String.length text) text = text.
Proof. induction text as [|x text IH]; simpl; [done | by rewrite IH]. Qed.

Lemma substring_after_first (x : ascii) (text : string) (n : nat) :
  String.substring 1 n (String x text) = String.substring 0 n text.
Proof. by destruct n. Qed.

Lemma stripEquals_body (body : string) : stripEquals ("=" ++ body) = body.
Proof.
  unfold stripEquals, JS.startsWith, JS.substringFrom.
  change ("=" ++ body) with (String "=" body).
  change (String.prefix "=" (String "=" body)) with (String.prefix "" body).
  replace (String.prefix "" body) with true by (by destruct body).
  rewrite substring_after_first.
  replace (String.length (String "=" body) - 1)%nat with (String.length body)
    by (simpl; lia).
  apply substring_whole.
Qed.

Lemma stripEquals_plain (text : string) :
  JS.startsWith text "=" = false → stripEquals text = text.
Proof. unfold stripEquals. by intros ->. Qed.

Lemma truthy_nonempty (text : string) : JS.truthy text = true ↔ text ≠ "".
Proof. unfold JS.truthy. destruct text; simpl; split; try done. Qed.

Lemma hasFormula_cell (o : option CellObject) :
  hasFormula o = true → ∃ cell, o = Some cell ∧ JS.truthy (formulaText cell) = true.
Proof. destruct o as [cell|]; simpl; [eauto | done]. Qed.

Lemma provenance_proposal (base : Realm) (workbook : WorkBook) (error : ErrorDetail)
    (text : string) :
  Provenance base workbook error →
  proposed error = Some text →
  ∃ name worksheet cell R C,
    sheet error = Some name ∧ Sheets workbook !! name = Some worksheet
    ∧ (R, C) ∈ positions (rangeOf worksheet) ∧ located name R C error
    ∧ cells worksheet !! targetAddress error = Some cell
    ∧ JS.truthy (formulaText cell) = true.
Proof.
  intros Hall Hprop.
  assert (Hat : ∀ name ws R C cell,
            Sheets workbook !! name = Some ws → (R, C) ∈ positions (rangeOf ws) →
            cellAt ws (encode_cell {| r := R; c := C |}) = Some cell →
            located name R C error → JS.truthy (formulaText cell) = true →
            ∃ name worksheet cell R C,
              sheet error = Some name ∧ Sheets workbook !! name = Some worksheet
              ∧ (R, C) ∈ positions (rangeOf worksheet) ∧ located name R C error
              ∧ cells worksheet !! targetAddress error = Some cell
              ∧ JS.truthy (formulaText cell) = true).
  { intros name ws R C cell Hs Hpos Hc Hloc Hf.
    exists name, ws, cell, R, C. rewrite (located_address _ _ _ _ Hloc).
    destruct Hloc as (? & ? & ?). repeat split; done. }
  destruct Hall as
    [ name ws R C cell g' Hs Hpos Hc Ht Hg
    | name ws R C cell errorType g' Hs Hpos Hc Ht Hkind Hg
    | name ws R C cell g' err Hs Hpos Hc Ht Hf Hg He
    | name ws R C cell err Hs Hpos Hc Ht Hv Hf He
    | name ws R C cell err Hs Hpos Hc Ht He
    | name ws columnValues err Hs Hin
    | name ws merge err Hs Hm He
    | name ws err Hs Hin
    | name ws err Hs Hin ].
  - apply (Hat name ws R C cell Hs Hpos Hc); [apply reportError_facts|].
    apply (reportError_shape (nativeKind (valueText cell)) (valueText cell)
             (formulaText cell) name R C ws (rangeOf ws) workbook g').
    by rewrite Hprop.
  - apply (Hat name ws R C cell Hs Hpos Hc); [apply reportError_facts|].
    apply (reportError_shape errorType (valueText cell) (formulaText cell)
             name R C ws (rangeOf ws) workbook g').
    by rewrite Hprop.
  - apply (Hat name ws R C cell Hs Hpos Hc); [|done].
    by apply detectFormulaIssues_facts in He as [? _].
  - apply validateDataType_facts in He as [_ He]. congruence.
  - apply detectEmptyGaps_facts in He as (_ & He & _). congruence.
  - apply duplicates_facts in Hin as [_ He]. congruence.
  - apply validateMergedCell_facts in He as [_ He]. congruence.
  - apply validateCrossSheetReferences_kind in Hin as (_ & _ & R & C & Hloc & Hpos & Hf).
    apply hasFormula_cell in Hf as (cell & Hc & Hf).
    by apply (Hat name ws R C cell Hs Hpos Hc).
  - apply detectFormatInconsistencies_facts in Hin as [_ He]. congruence.
Qed.

Lemma analyzeExcelFile_provenance_of (workbook : WorkBook)
    (selectedSheets : option (list string)) (g : Realm) (error : ErrorDetail) :
  error ∈ fst (analyzeExcelFile workbook selectedSheets g) → Provenance g workbook error.
Proof.
  intros Hin.
  pose proof (analyzeExcelFile_provenance workbook selectedSheets g) as Hall.
  rewrite Forall_forall in Hall. by apply Hall.
Qed.

(** X11.  A proposal of the analysis is always for a cell object that
    exists in its sheet and has a non-empty formula: findings on plain
    values never carry a proposal. *)
Theorem proposals_are_for_formula_cells (workbook : WorkBook)
    (selectedSheets : option (list string)) (g : Realm) (error : ErrorDetail)
    (text : string) :
  error ∈ fst (analyzeExcelFile workbook selectedSheets g) →
  proposed error = Some text →
  ∃ name worksheet cell R C,
    sheet error = Some name ∧ Sheets workbook !! name = Some worksheet
    ∧ (R, C) ∈ positions (rangeOf worksheet) ∧ located name R C error
    ∧ cells worksheet !! targetAddress error = Some cell
    ∧ JS.truthy (formulaText cell) = true.
Proof.
  intros Hin Hprop.
  eapply provenance_proposal; [by eapply analyzeExcelFile_provenance_of | done].
Qed.

(** The proposal for the tagged sample cell. *)
Lemma tagged_proposal_has_formula_cell :
  ∃ name worksheet cell R C,
    sheet Sample.taggedFinding = Some name
    ∧ Sheets Sample.tagged !! name = Some worksheet
    ∧ (R, C) ∈ positions (rangeOf worksheet) ∧ located name R C Sample.taggedFinding
    ∧ cells worksheet !! targetAddress Sample.taggedFinding = Some cell
    ∧ JS.truthy (formulaText cell) = true.
Proof.
  apply (proposals_are_for_formula_cells Sample.tagged None fresh Sample.taggedFinding
           ("=IFERROR(A2/A3, " ++ JS.dq ++ "N/A" ++ JS.dq ++ ")")).
  - apply list_elem_of_In. vm_compute. left. reflexivity.
  - reflexivity.
Defined.

Lemma writers_elem (workbook : WorkBook) (errors : list ErrorDetail) (fixes : list nat)
    (name address text : string) :
  text ∈ writers workbook errors fixes name address →
  ∃ index error,
    index ∈ fixes ∧ errors !! index = Some error ∧ proposed error = Some text
    ∧ JS.truthy text = true ∧ targetSheet workbook error = name
    ∧ targetAddress error = address.
Proof.
  unfold writers. intros Hin.
  apply list_elem_of_In, in_flat_map in Hin. destruct Hin as (index & Hi & Hin).
  destruct (errors !! index) as [error|] eqn:He; [|done].
  destruct (proposed error) as [text'|] eqn:Hp; [|done].
  destruct (JS.truthy text') eqn:Ht; [|done]. simpl in Hin.
  case_bool_decide as Hd; [|done]. destruct Hin as [<-|[]]. destruct Hd.
  exists index, error. split; [by apply list_elem_of_In | done].
Qed.

Lemma last_elem {X : Type} (l : list X) (x : X) : last l = Some x → x ∈ l.
Proof.
  intros H. apply last_Some in H as [l' ->]. apply elem_of_app. right. left.
Qed.

(** X12.  Analysis, then download, on a workbook whose sheets have
    non-empty names: the download succeeds, creates no cell and changes no
    type tag; a cell it changes had a non-empty formula, loses its cached
    value and gets as formula the body of a proposal that the analysis made
    for that very cell. *)
Theorem download_after_analysis (workbook : WorkBook)
    (selectedSheets : option (list string)) (g : Realm) :
  Sheets workbook !! "" = None →
  let found := fst (analyzeExcelFile workbook selectedSheets g) in
  ∃ patched,
    handleDownload workbook found = Some patched
    ∧ ∀ name address,
        match cellOf workbook name address with
        | None => cellOf patched name address = None
        | Some cell =>
            ∃ cell',
              cellOf patched name address = Some cell' ∧ t cell' = t cell
              ∧ (cell' = cell
                 ∨ (JS.truthy (formulaText cell) = true ∧ v cell' = None
                    ∧ ∃ error body,
                        error ∈ found ∧ sheet error = Some name
                        ∧ targetAddress error = address
                        ∧ proposed error = Some ("=" ++ body)
                        ∧ f cell' = Some body))
        end.
Proof.
  intros Hnames found.
  destruct (handleDownload_runs workbook found) as [patched Hrun].
  exists patched. split; [exact Hrun|]. intros name address.
  unfold handleDownload in Hrun.
  destruct (Sheets workbook !! name) as [worksheet|] eqn:Hs.
  2:{ rewrite (cellOf_missing_sheet workbook name address Hs).
      apply cellOf_missing_sheet. by eapply sheet_missing_applyFixes. }
  rewrite (cellOf_applyFixes_fold _ _ _ _ name address Hrun); [|eauto].
  rewrite fold_patchedCell_last.
  destruct (last (writers workbook found _ name address)) as [text|] eqn:Hlast.
  2:{ destruct (cellOf workbook name address) as [cell|]; [|done].
      exists cell. split; [done|]. split; [done | by left]. }
  apply last_elem, writers_elem in Hlast
    as (index & error & _ & Hfound & Hprop & Htruthy & Htarget & Haddress).
  assert (Hin : error ∈ found) by (by eapply list_elem_of_lookup_2).
  pose proof (analyzeExcelFile_provenance_of workbook selectedSheets g error Hin) as Hfrom.
  destruct (provenance_proposal g workbook error text Hfrom Hprop)
    as (name' & ws & cell & R & C & Hsheet & Hws & _ & _ & Hcell & Hformula).
  destruct (provenance_wellformed g workbook error Hfrom) as (_ & _ & _ & _ & Hshape).
  destruct (Hshape text Hprop) as [body ->].
  assert (Hname : name' = name).
  { unfold targetSheet in Htarget. rewrite Hsheet in Htarget. simpl in Htarget.
    destruct (JS.truthy name') eqn:Hn; [done|].
    assert (name' = "") as -> by (by destruct name').
    congruence. }
  subst name'. rewrite Hs in Hws. injection Hws as <-.
  unfold cellOf at 1 2. rewrite Hs, <- Haddress, Hcell.
  eexists. split; [done|]. split; [done|]. right.
  split; [done|]. split; [done|].
  exists error, body. rewrite stripEquals_body. by repeat split.
Qed.

(** Analysis and download of the tagged sample. *)
Lemma tagged_download :
  let found := fst (analyzeExcelFile Sample.tagged None fresh) in
  ∃ patched,
    handleDownload Sample.tagged found = Some patched
    ∧ ∀ name address,
        match cellOf Sample.tagged name address with
        | None => cellOf patched name address = None
        | Some cell =>
            ∃ cell',
              cellOf patched name address = Some cell' ∧ t cell' = t cell
              ∧ (cell' = cell
                 ∨ (JS.truthy (formulaText cell) = true ∧ v cell' = None
                    ∧ ∃ error body,
                        error ∈ found ∧ sheet error = Some name
                        ∧ targetAddress error = address
                        ∧ proposed error = Some ("=" ++ body)
                        ∧ f cell' = Some body))
        end.
Proof.
  apply (download_after_analysis Sample.tagged None fresh).
  vm_compute. reflexivity.
Defined.

(* ================================================================== *)
(** * Sheet statistics *)
(* ================================================================== *)

Lemma countFormulas_from (worksheet : WorkSheet) (ps : list (nat * nat)) (start : nat) :
  fold_left (fun formulaCount position =>
               if hasFormula (cellAt worksheet
                                (encode_cell {| r := fst position; c := snd position |}))
               then formulaCount + 1 else formulaCount) ps start
  = (start + length (List.filter (fun position =>
               hasFormula (cellAt worksheet
                             (encode_cell {| r := fst position; c := snd position |}))) ps))%nat.
Proof.
  revert start. induction ps as [|position ps IH]; intros start; simpl; [lia|].
  rewrite IH. destruct (hasFormula _); simpl; lia.
Qed.

Lemma flat_map_rows_length {X Y : Type} (rows : list X) (row : X → list Y) (width : nat) :
  (∀ x, length (row x) = width) → length (flat_map row rows) = (length rows * width)%nat.
Proof.
  intros Hrow. induction rows as [|x rows IH]; simpl; [done|].
  rewrite length_app, Hrow, IH. lia.
Qed.

Lemma positions_count (range : Range) :
  length (positions range)
  = ((r (e range) + 1 - r (s range)) * (c (e range) + 1 - c (s range)))%nat.
Proof.
  unfold positions.
  rewrite (flat_map_rows_length _ _ (c (e range) + 1 - c (s range))).
  - by rewrite length_seq.
  - intros R. by rewrite length_map, length_seq.
Qed.

(** X13.  The statistics succeed exactly when every listed sheet exists,
    and then hold one entry per sheet name, in the order of the names. *)
Theorem getSheetStatistics_entries (workbook : WorkBook) :
  (is_Some (getSheetStatistics workbook)
   ↔ ∀ name, name ∈ SheetNames workbook → is_Some (Sheets workbook !! name))
  ∧ ∀ stats, getSheetStatistics workbook = Some stats →
             map Statistics.sheetName stats = SheetNames workbook.
Proof.
  unfold getSheetStatistics. split.
  - rewrite mapM_is_Some, Forall_forall. split; intros H name Hin.
    + specialize (H name Hin). by apply fmap_is_Some in H.
    + apply fmap_is_Some. by apply H.
  - generalize (SheetNames workbook) as names.
    induction names as [|name names IH]; intros stats; simpl.
    + by intros [= <-].
    + destruct (Sheets workbook !! name) as [worksheet|]; simpl; [|done].
      destruct (mapM _ names) as [rest|] eqn:Hrest; simpl; [|done].
      intros [= <-]. simpl. f_equal. by apply IH.
Qed.

(** X14.  The formula count of a sheet is the number of positions of its
    range whose cell has a non-empty formula; it never exceeds rows times
    columns, and a range whose end lies before its start has none. *)
Theorem sheetStatistics_formula_count (name : string) (worksheet : WorkSheet) :
  let stat := sheetStatistics name worksheet in
  Statistics.formulaCount stat
    = length (List.filter (fun position =>
                hasFormula (cellAt worksheet
                              (encode_cell {| r := fst position; c := snd position |})))
                (positions (rangeOf worksheet)))
  ∧ (Z.of_nat (Statistics.formulaCount stat)
     ≤ Z.max 0 (Statistics.rowCount stat) * Z.max 0 (Statistics.colCount stat))%Z.
Proof.
  simpl. unfold countFormulas. rewrite countFormulas_from. simpl.
  split; [done|].
  pose proof (filter_length_le
                (fun position => hasFormula (cellAt worksheet
                   (encode_cell {| r := fst position; c := snd position |})))
                (positions (rangeOf worksheet))) as Hle.
  rewrite positions_count in Hle.
  set (n := length _) in *.
  assert (Hrows : Z.of_nat (r (e (rangeOf worksheet)) + 1 - r (s (rangeOf worksheet)))
                  = Z.max 0 (Z.of_nat (r (e (rangeOf worksheet)))
                             - Z.of_nat (r (s (rangeOf worksheet))) + 1)) by lia.
  assert (Hcols : Z.of_nat (c (e (rangeOf worksheet)) + 1 - c (s (rangeOf worksheet)))
                  = Z.max 0 (Z.of_nat (c (e (rangeOf worksheet)))
                             - Z.of_nat (c (s (rangeOf worksheet))) + 1)) by lia.
  rewrite <- Hrows, <- Hcols, <- Nat2Z.inj_mul. lia.
Qed.

(** X15.  When the statistics count no formula on a sheet, the analysis
    proposes nothing for that sheet, in any state of the patterns. *)
Theorem no_formula_no_proposal (workbook : WorkBook) (selectedSheets : option (list string))
    (g : Realm) (name : string) (worksheet : WorkSheet) (error : ErrorDetail) :
  Sheets workbook !! name = Some worksheet →
  Statistics.formulaCount (sheetStatistics name worksheet) = 0%nat →
  error ∈ fst (analyzeExcelFile workbook selectedSheets g) →
  sheet error = Some name →
  proposed error = None.
Proof.
  intros Hs Hcount Hin Hname.
  destruct (proposed error) as [text|] eqn:Hprop; [|done]. exfalso.
  pose proof (analyzeExcelFile_provenance_of workbook selectedSheets g error Hin) as Hfrom.
  destruct (provenance_proposal g workbook error text Hfrom Hprop)
    as (name' & ws & cell & R & C & Hsheet & Hws & Hpos & Hloc & Hcell & Hformula).
  rewrite Hname in Hsheet. injection Hsheet as <-.
  rewrite Hs in Hws. injection Hws as <-.
  simpl in Hcount. unfold countFormulas in Hcount.
  rewrite countFormulas_from in Hcount. simpl in Hcount.
  rename Hcount into Hfilter. apply length_zero_iff_nil in Hfilter.
  assert (Hmember : (R, C) ∈ List.filter (fun position =>
            hasFormula (cellAt worksheet
                          (encode_cell {| r := fst position; c := snd position |})))
            (positions (rangeOf worksheet))).
  { apply list_elem_of_In, filter_In. split; [by apply list_elem_of_In|]. simpl.
    unfold cellAt. rewrite <- (located_address _ _ _ _ Hloc), Hcell. exact Hformula. }
  rewrite Hfilter in Hmember. by apply elem_of_nil in Hmember.
Qed.

(** The signature sample has no formula, and its finding no proposal. *)
Lemma signature_without_proposal : proposed Case.refFinding = None.
Proof.
  apply (no_formula_no_proposal Sample.oneSignature None fresh "S"
           (Sample.sheetOf (Sample.upTo 0 0) {[ "A1" := Sample.textCell "#REF!" ]})
           Case.refFinding).
  - vm_compute. reflexivity.
  - vm_compute. reflexivity.
  - apply list_elem_of_In. vm_compute. left. reflexivity.
  - reflexivity.
Defined.

(* ================================================================== *)
(** * Empty sheets, unknown sheets, gaps *)
(* ================================================================== *)

Lemma flat_map_nothing {X Y : Type} (make : X → list Y) (xs : list X) :
  (∀ x, make x = []) → flat_map make xs = [].
Proof. intros H. induction xs as [|x xs IH]; simpl; [done|]. by rewrite H, IH. Qed.

Lemma fold_left_idle {X Y : Type} (step : Y → X → Y) (xs : list X) (start : Y) :
  (∀ acc x, step acc x = acc) → fold_left step xs start = start.
Proof. intros H. induction xs as [|x xs IH]; simpl; [done|]. by rewrite H. Qed.

Lemma forEach_quiet {X S : Type} (xs : list X) (body : X → S → M (list ErrorDetail * S))
    (local : S) (g : Realm) :
  (∀ x g', body x local g' = (([], local), g')) →
  forEach xs local body g = (([], local), g).
Proof.
  intros H. induction xs as [|x xs IH]; simpl; [done|].
  unfold bind. rewrite H. simpl. by rewrite IH.
Qed.

Lemma analyzeSheet_empty (workbook : WorkBook) (sheetName : string) (worksheet : WorkSheet)
    (g : Realm) :
  cells worksheet = ∅ → analyzeSheet workbook sheetName worksheet g = ([], g).
Proof.
  intros Hempty.
  assert (Hcell : ∀ address, cellAt worksheet address = None).
  { intros address. unfold cellAt. by rewrite Hempty, lookup_empty. }
  unfold analyzeSheet, bind.
  rewrite forEach_quiet.
  2:{ intros [R C] g'. unfold visitCell. by rewrite Hcell. }
  unfold ret. f_equal. simpl.
  rewrite flat_map_nothing.
  2:{ intros merge. unfold validateMergedCell. by rewrite Hcell. }
  unfold validateCrossSheetReferences. rewrite flat_map_nothing.
  2:{ intros R. apply flat_map_nothing. intros C. by rewrite Hcell. }
  unfold detectFormatInconsistencies. rewrite flat_map_nothing; [done|].
  intros C. rewrite fold_left_idle; [done|]. intros acc R. by rewrite Hcell.
Qed.

(** X16.  A workbook whose sheets hold no cell object gives no finding, and
    the analysis leaves the patterns exactly as it found them. *)
Theorem analyzeExcelFile_empty (workbook : WorkBook) (selectedSheets : option (list string))
    (g : Realm) :
  (∀ name worksheet, Sheets workbook !! name = Some worksheet → cells worksheet = ∅) →
  analyzeExcelFile workbook selectedSheets g = ([], g).
Proof.
  intros Hempty. unfold analyzeExcelFile, bind.
  rewrite forEach_quiet; [done|].
  intros sheetName g'.
  destruct (Sheets workbook !! sheetName) as [worksheet|] eqn:Hs; [|done].
  unfold bind. by rewrite (analyzeSheet_empty _ _ _ _ (Hempty _ _ Hs)).
Qed.

Lemma blank_workbook_is_quiet :
  analyzeExcelFile Case.blank None Case.worn = ([], Case.worn).
Proof.
  apply (analyzeExcelFile_empty Case.blank None Case.worn).
  intros name worksheet Hsheet.
  change (Sheets Case.blank)
    with ({[ "S" := Sample.sheetOf (Sample.upTo 3 3) ∅ ]} : gmap string WorkSheet) in Hsheet.
  apply lookup_singleton_Some in Hsheet as [_ <-]. reflexivity.
Defined.

Lemma forEach_sheets_skip (workbook : WorkBook) (names : list string) (g : Realm) :
  forEach names tt (fun sheetName _ =>
     match Sheets workbook !! sheetName with
     | None => ret ([], tt)
     | Some worksheet =>
         found <- analyzeSheet workbook sheetName worksheet ;; ret (found, tt)
     end) g
  = forEach (List.filter (present workbook) names) tt (fun sheetName _ =>
     match Sheets workbook !! sheetName with
     | None => ret ([], tt)
     | Some worksheet =>
         found <- analyzeSheet workbook sheetName worksheet ;; ret (found, tt)
     end) g.
Proof.
  revert g. induction names as [|name names IH]; intros g; [done|].
  cbn [List.filter]. unfold present at 1.
  destruct (Sheets workbook !! name) as [worksheet|] eqn:Hs.
  - rewrite bool_decide_eq_true_2; [|eauto].
    cbn [forEach]. unfold bind. rewrite Hs.
    destruct (analyzeSheet workbook name worksheet g) as [found g']. simpl.
    by rewrite IH.
  - rewrite bool_decide_eq_false_2; [|by intros [? ?]].
    cbn [forEach]. unfold bind. rewrite Hs. simpl. rewrite <- IH.
    by destruct (forEach names tt _ g) as [[more []] g'].
Qed.

Lemma bind_run {X Y : Type} (m : M X) (k : X → M Y) (g : Realm) :
  bind m k g = k (fst (m g)) (snd (m g)).
Proof. unfold bind. by destruct (m g). Qed.

Lemma analyzeExcelFile_run (workbook : WorkBook) (selectedSheets : option (list string))
    (g : Realm) :
  analyzeExcelFile workbook selectedSheets g
  = let res :=
      forEach (sheetsToAnalyze workbook selectedSheets) tt (fun sheetName _ =>
        match Sheets workbook !! sheetName with
        | None => ret ([], tt)
        | Some worksheet =>
            found <- analyzeSheet workbook sheetName worksheet ;; ret (found, tt)
        end) g in
    (fst (fst res), snd res).
Proof. unfold analyzeExcelFile. by rewrite bind_run. Qed.

(** X17.  Names in a selection that the workbook does not have are passed
    over: the analysis of a non-empty selection is the analysis of the
    names it has, as long as one is left; when none is left the result is
    empty and the patterns untouched (the sheets are not all analysed, as
    they would be for an empty selection). *)
Theorem analyzeExcelFile_unknown_sheets (workbook : WorkBook) (selected : list string)
    (g : Realm) :
  selected ≠ [] →
  let kept := List.filter (present workbook) selected in
  (kept ≠ [] →
   analyzeExcelFile workbook (Some selected) g = analyzeExcelFile workbook (Some kept) g)
  ∧ (kept = [] → analyzeExcelFile workbook (Some selected) g = ([], g)).
Proof.
  intros Hselected kept.
  destruct selected as [|name names]; [done|].
  rewrite !analyzeExcelFile_run.
  change (sheetsToAnalyze workbook (Some (name :: names))) with (name :: names).
  rewrite (forEach_sheets_skip workbook (name :: names) g). fold kept.
  split.
  - intros Hkept. destruct kept as [|first others]; [done|]. done.
  - intros ->. done.
Qed.

(** A selection naming a sheet the signature sample does not have. *)
Lemma unknown_sheet_passed_over :
  let kept := List.filter (present Sample.oneSignature) ["Gone"; "S"] in
  (kept ≠ [] →
   analyzeExcelFile Sample.oneSignature (Some ["Gone"; "S"]) fresh
     = analyzeExcelFile Sample.oneSignature (Some kept) fresh)
  ∧ (kept = [] →
     analyzeExcelFile Sample.oneSignature (Some ["Gone"; "S"]) fresh = ([], fresh)).
Proof.
  apply (analyzeExcelFile_unknown_sheets Sample.oneSignature ["Gone"; "S"] fresh).
  discriminate.
Defined.

Lemma forEach_elem {X S : Type} (xs : list X) (body : X → S → M (list ErrorDetail * S))
    (x : X) (error : ErrorDetail) :
  x ∈ xs →
  (∀ local g, error ∈ fst (fst (body x local g))) →
  ∀ local g, error ∈ fst (fst (forEach xs local body g)).
Proof.
  intros Hin Hbody. induction xs as [|y ys IH]; [by apply elem_of_nil in Hin|].
  intros local g. simpl. unfold bind.
  destruct (body y local g) as [[out local'] g'] eqn:Hy. simpl.
  destruct (forEach ys local' body g') as [[more local''] g''] eqn:Hys. simpl.
  apply elem_of_app. apply elem_of_cons in Hin as [<-|Hin].
  - left. specialize (Hbody local g). by rewrite Hy in Hbody.
  - right. specialize (IH Hin local' g'). by rewrite Hys in IH.
Qed.

Lemma existsb_seq (test : nat → bool) (start len : nat) :
  existsb test (seq start len) = true
  ↔ ∃ n, (start ≤ n < start + len)%nat ∧ test n = true.
Proof.
  rewrite existsb_exists. split; intros (n & Hn & Ht); exists n; split; try done.
  - apply in_seq in Hn. lia.
  - apply in_seq. lia.
Qed.

Lemma detectEmptyGaps_iff (worksheet : WorkSheet) (R C : nat) (range : Range)
    (sheetName : string) :
  let valued := fun R' => hasValue (cellAt worksheet (encode_cell {| r := R'; c := C |})) in
  is_Some (detectEmptyGaps worksheet R C range sheetName)
  ↔ valued R = false
    ∧ (∃ above, (r (s range) ≤ above < R)%nat ∧ valued above = true)
    ∧ (∃ below, (R < below ≤ r (e range))%nat ∧ valued below = true).
Proof.
  intros valued.
  unfold detectEmptyGaps. fold (valued R).
  destruct (valued R); [split; [by intros [? ?] | by intros [? _]]|].
  destruct (existsb _ (seq (r (s range)) _)) eqn:Habove; simpl.
  - destruct (existsb _ (seq (R + 1) _)) eqn:Hbelow; simpl.
    + apply existsb_seq in Habove as (above & Ha & Hva).
      apply existsb_seq in Hbelow as (below & Hb & Hvb).
      split; [intros _ | eauto]. split; [done|].
      split; [exists above | exists below]; split; try done; lia.
    + split; [by intros [? ?]|]. intros (_ & _ & below & Hb & Hvb).
      assert (Hex : existsb (fun R' => hasValue (cellAt worksheet
                       (encode_cell {| r := R'; c := C |}))) (seq (R + 1) (r (e range) - R))
                    = true).
      { apply existsb_seq. exists below. split; [lia | done]. }
      congruence.
  - split; [by intros [? ?]|]. intros (_ & (above & Ha & Hva) & _).
    assert (Hex : existsb (fun R' => hasValue (cellAt worksheet
                     (encode_cell {| r := R'; c := C |})))
                    (seq (r (s range)) (R - r (s range))) = true).
    { apply existsb_seq. exists above. split; [lia | done]. }
    congruence.
Qed.

(** X18.  The empty-gap detector reports a position exactly when the
    position has no truthy value and the same column holds a truthy value in
    an earlier row of the range and in a later one.  In particular it never
    reports the first or the last row of the range. *)
Theorem detectEmptyGaps_exactly (worksheet : WorkSheet) (R C : nat) (range : Range)
    (sheetName : string) :
  let valued := fun R' => hasValue (cellAt worksheet (encode_cell {| r := R'; c := C |})) in
  (is_Some (detectEmptyGaps worksheet R C range sheetName)
   ↔ valued R = false
     ∧ (∃ above, (r (s range) ≤ above < R)%nat ∧ valued above = true)
     ∧ (∃ below, (R < below ≤ r (e range))%nat ∧ valued below = true))
  ∧ (is_Some (detectEmptyGaps worksheet R C range sheetName) →
     (r (s range) < R < r (e range))%nat).
Proof.
  intros valued.
  pose proof (detectEmptyGaps_iff worksheet R C range sheetName) as Hiff.
  split; [exact Hiff|].
  intros H. apply Hiff in H as (_ & (above & Ha & _) & (below & Hb & _)). lia.
Qed.

(** X19.  What the analysis does report as a gap: a cell object of an
    analysed sheet that is not tagged as an error and has no truthy value
    (no value, 0, the empty text or false), with a truthy value above it and
    one below it in its column, inside the range, gets an EMPTY_GAP finding
    of severity info at its position, in every state of the patterns. *)
Theorem valueless_cell_between_values_is_reported (workbook : WorkBook)
    (selectedSheets : option (list string)) (g : Realm)
    (name : string) (worksheet : WorkSheet) (R C above below : nat) (cell : CellObject) :
  name ∈ sheetsToAnalyze workbook selectedSheets →
  Sheets workbook !! name = Some worksheet →
  (c (s (rangeOf worksheet)) ≤ C ≤ c (e (rangeOf worksheet)))%nat →
  cellAt worksheet (encode_cell {| r := R; c := C |}) = Some cell →
  t cell ≠ TError →
  hasValue (Some cell) = false →
  (r (s (rangeOf worksheet)) ≤ above < R)%nat →
  hasValue (cellAt worksheet (encode_cell {| r := above; c := C |})) = true →
  (R < below ≤ r (e (rangeOf worksheet)))%nat →
  hasValue (cellAt worksheet (encode_cell {| r := below; c := C |})) = true →
  ∃ error,
    error ∈ fst (analyzeExcelFile workbook selectedSheets g)
    ∧ type error = "EMPTY_GAP" ∧ severity error = Some info
    ∧ located name R C error.
Proof.
  intros Hselected Hs HC Hcell Htag Hvalue Habove Hva Hbelow Hvb.
  destruct (proj2 (detectEmptyGaps_iff worksheet R C (rangeOf worksheet) name))
    as [error Hgap].
  { rewrite Hcell. split; [done|]. split; [exists above | exists below]; done. }
  exists error.
  destruct (detectEmptyGaps_facts _ _ _ _ _ _ Hgap) as (Hloc & _ & Hsev & Hty).
  split; [|done].
  assert (Hvisit : ∀ columnValues g',
            error ∈ fst (fst (visitCell workbook worksheet name (rangeOf worksheet) (R, C)
                                columnValues g'))).
  { intros columnValues g'. unfold visitCell. rewrite Hcell, Hgap.
    destruct (t cell) eqn:Ht; try done; unfold bind;
      repeat match goal with
             | |- context [let (_, _) := ?x in _] => destruct x
             end; simpl; rewrite !elem_of_app; right; right; right; left. }
  assert (Hposition : (R, C) ∈ positions (rangeOf worksheet)).
  { apply position_in_range; apply elem_of_seq; lia. }
  assert (Hsheet : ∀ g', error ∈ fst (analyzeSheet workbook name worksheet g')).
  { intros g'. unfold analyzeSheet. rewrite bind_run.
    pose proof (forEach_elem _ _ (R, C) error Hposition Hvisit [] g') as Hin.
    destruct (forEach _ _ _ g') as [[cellErrors columnValues] g'']. simpl in *.
    apply elem_of_app. by left. }
  rewrite analyzeExcelFile_run. simpl.
  apply (forEach_elem _ _ name error Hselected).
  intros [] g'. rewrite Hs, bind_run. simpl. apply Hsheet.
Qed.

(** The number 0 between two numbers is reported as a gap. *)
Lemma zero_is_reported_as_gap :
  ∃ error,
    error ∈ fst (analyzeExcelFile (Sample.single Case.zeroBetween) None fresh)
    ∧ type error = "EMPTY_GAP" ∧ severity error = Some info
    ∧ located "S" 1 0 error.
Proof.
  apply (valueless_cell_between_values_is_reported (Sample.single Case.zeroBetween) None
           fresh "S" Case.zeroBetween 1 0 0 2 (Sample.numberCell 0)).
  - apply list_elem_of_In. left. reflexivity.
  - vm_compute. reflexivity.
  - vm_compute. lia.
  - vm_compute. reflexivity.
  - discriminate.
  - reflexivity.
  - vm_compute. lia.
  - vm_compute. reflexivity.
  - vm_compute. lia.
  - vm_compute. reflexivity.
Defined.

(* ================================================================== *)
(** * The scan over the pattern table *)
(* ================================================================== *)

Lemma test_at_rest (rx : RegExp.t) (subject : string) :
  lastIndex rx = 0 → fst (test rx subject) = matches (source rx) subject.
Proof.
  intros H0. unfold matches, test, exec, compile. simpl. rewrite H0.
  replace (if global rx then 0 else 0) with 0 by (by destruct (global rx)).
  by destruct (searchFrom (source rx) subject 0) as [[[b e'] cs]|].
Qed.

Lemma test_miss_rests (rx : RegExp.t) (subject : string) :
  global rx = true → fst (test rx subject) = false →
  lastIndex (snd (test rx subject)) = 0 ∧ global (snd (test rx subject)) = true
  ∧ source (snd (test rx subject)) = source rx.
Proof.
  intros Hg. unfold test, exec. rewrite Hg.
  by destruct (searchFrom (source rx) subject (lastIndex rx)) as [[[b e'] cs]|].
Qed.

Lemma scanPatterns_rested (ps : list (string * RegExp.t)) (cellValue cellFormula : string) :
  rested ps →
  fst (scanPatterns ps cellValue cellFormula) = firstOccurring ps cellValue cellFormula.
Proof.
  unfold firstOccurring.
  induction ps as [|[errorType pattern] ps IH]; intros Hrested; [done|].
  apply Forall_cons in Hrested as [[Hg H0] Hrested]. simpl in Hg, H0. simpl.
  pose proof (test_at_rest pattern cellValue H0) as Hv.
  pose proof (test_miss_rests pattern cellValue Hg) as Hmiss.
  destruct (test pattern cellValue) as [onValue p1]. simpl in Hv, Hmiss.
  rewrite <- Hv. destruct onValue; simpl; [done|].
  destruct (Hmiss eq_refl) as (H1 & _ & Hsrc).
  pose proof (test_at_rest p1 cellFormula H1) as Hf. rewrite Hsrc in Hf.
  destruct (test p1 cellFormula) as [hit p2]. simpl in Hf. rewrite <- Hf.
  destruct hit; simpl; [done|].
  specialize (IH Hrested).
  by destruct (scanPatterns ps cellValue cellFormula) as [found ps''].
Qed.

(** X20.  With the pattern table at rest (every expression global and at
    index 0, as right after loading), the loop over the table finds the
    kind of the first entry, in table order, whose pattern occurs in the
    cell's value or in its formula, and nothing when there is none; the
    lookup expressions are not touched. *)
Theorem firstSignature_at_rest (cellValue cellFormula : string) (g : Realm) :
  rested (patterns g) →
  fst (firstSignature cellValue cellFormula g)
    = firstOccurring (patterns g) cellValue cellFormula
  ∧ vlookup (snd (firstSignature cellValue cellFormula g)) = vlookup g
  ∧ hlookup (snd (firstSignature cellValue cellFormula g)) = hlookup g.
Proof.
  intros Hrested. unfold firstSignature.
  pose proof (scanPatterns_rested (patterns g) cellValue cellFormula Hrested) as Hscan.
  by destruct (scanPatterns (patterns g) cellValue cellFormula) as [found ps].
Qed.

(** In the loaded module, a value holding #N/A inside a sentence. *)
Lemma fresh_scan_finds_NA :
  fst (firstSignature "see #n/a here" "" fresh)
    = firstOccurring (patterns fresh) "see #n/a here" ""
  ∧ vlookup (snd (firstSignature "see #n/a here" "" fresh)) = vlookup fresh
  ∧ hlookup (snd (firstSignature "see #n/a here" "" fresh)) = hlookup fresh.
Proof.
  apply (firstSignature_at_rest "see #n/a here" "" fresh).
  repeat constructor.
Defined.

Lemma scanPatterns_sources (ps : list (string * RegExp.t)) (cellValue cellFormula : string) :
  map (fun p => (fst p, source (snd p))) (snd (scanPatterns ps cellValue cellFormula))
  = map (fun p => (fst p, source (snd p))) ps.
Proof.
  pose proof (scanPatterns_rewound ps cellValue cellFormula) as H.
  apply (f_equal (map (fun p : string * RegExp.t => (fst p, source (snd p))))) in H.
  by rewrite !map_map in H.
Qed.

Lemma firstOccurring_sources (ps ps' : list (string * RegExp.t))
    (cellValue cellFormula : string) :
  map (fun p => (fst p, source (snd p))) ps' = map (fun p => (fst p, source (snd p))) ps →
  firstOccurring ps' cellValue cellFormula = firstOccurring ps cellValue cellFormula.
Proof.
  unfold firstOccurring. revert ps'.
  induction ps as [|[name rx] ps IH]; intros [|[name' rx'] ps']; simpl; try done.
  intros [= -> Hsrc Hrest]. rewrite Hsrc.
  destruct (matches (source rx) cellValue || matches (source rx) cellFormula); [done|].
  by apply IH.
Qed.

(** X21.  A scan that finds nothing leaves every global expression of the
    table at index 0, whatever state it started from; so the scan of the
    next cell is right again: it returns the first entry whose pattern
    occurs in that cell. *)
Theorem scanPatterns_miss_rests (ps : list (string * RegExp.t))
    (cellValue cellFormula cellValue' cellFormula' : string) :
  Forall (fun p => global (snd p) = true) ps →
  fst (scanPatterns ps cellValue cellFormula) = None →
  rested (snd (scanPatterns ps cellValue cellFormula))
  ∧ fst (scanPatterns (snd (scanPatterns ps cellValue cellFormula)) cellValue' cellFormula')
    = firstOccurring ps cellValue' cellFormula'.
Proof.
  intros Hglobal Hnone.
  assert (Hrested : rested (snd (scanPatterns ps cellValue cellFormula))).
  { revert Hglobal Hnone. unfold rested.
    induction ps as [|[errorType pattern] ps IH]; intros Hglobal Hnone; [constructor|].
    apply Forall_cons in Hglobal as [Hg Hglobal]. simpl in Hg. simpl in *.
    pose proof (test_miss_rests pattern cellValue Hg) as Hmiss.
    destruct (test pattern cellValue) as [onValue p1]. simpl in Hmiss.
    destruct onValue; [done|].
    destruct (Hmiss eq_refl) as (_ & Hg1 & _).
    pose proof (test_miss_rests p1 cellFormula Hg1) as Hmiss'.
    destruct (test p1 cellFormula) as [hit p2]. simpl in Hmiss'.
    destruct hit; [done|]. destruct (Hmiss' eq_refl) as (H2 & Hg2 & _).
    specialize (IH Hglobal).
    destruct (scanPatterns ps cellValue cellFormula) as [found ps'']. simpl in *.
    constructor; [done | by apply IH]. }
  split; [exact Hrested|].
  rewrite (scanPatterns_rested _ _ _ Hrested).
  apply firstOccurring_sources, scanPatterns_sources.
Qed.

(** After an analysis left the REF pattern at index 5, a cell without a
    signature puts it back, and the next #REF! is found. *)
Lemma worn_patterns_recover :
  rested (snd (scanPatterns (patterns Case.worn) "fine" ""))
  ∧ fst (scanPatterns (snd (scanPatterns (patterns Case.worn) "fine" "")) "#REF!" "")
    = firstOccurring (patterns Case.worn) "#REF!" "".
Proof.
  apply (scanPatterns_miss_rests (patterns Case.worn) "fine" "" "#REF!" "").
  - repeat constructor.
  - vm_compute. reflexivity.
Defined.

(* ================================================================== *)
(** * Literal patterns and substrings *)
(* ================================================================== *)

Lemma run_text (ignoreCase : bool) (literal : string) (c : cursor) (cs : captures)
    (k : cursor → captures → option (nat * captures)) :
  run (text ignoreCase literal) c cs k
  = match skipText ignoreCase literal c with
    | Some c' => k c' cs
    | None => None
    end.
Proof.
  revert c. induction literal as [|a literal IH]; intros c; simpl; [done|].
  destruct ignoreCase; simpl; destruct (rest c) as [|x after]; try done.
  - destruct (Ascii.eqb (JS.upper_unit x) (JS.upper_unit a)); [apply IH | done].
  - destruct (Ascii.eqb a x); [apply IH | done].
Qed.

Lemma run_anyOf (rs : list re) (c : cursor) (cs : captures)
    (k : cursor → captures → option (nat * captures)) :
  is_Some (run (anyOf rs) c cs k) ↔ ∃ r', r' ∈ rs ∧ is_Some (run r' c cs k).
Proof.
  induction rs as [|r' rs IH].
  - simpl. split.
    + destruct (rest c); by intros [? ?].
    + intros (? & H & _). by apply elem_of_nil in H.
  - destruct rs as [|r'' rs].
    + simpl. split.
      * intros H. exists r'. split; [left | done].
      * intros (x & Hx & H). apply list_elem_of_singleton in Hx. by subst.
    + change (anyOf (r' :: r'' :: rs)) with (Alt r' (anyOf (r'' :: rs))). simpl run.
      destruct (run r' c cs k) as [res|] eqn:Hr.
      * split; [|eauto]. intros _. exists r'. split; [left | by rewrite Hr].
      * rewrite IH. split.
        -- intros (x & Hx & H). exists x. split; [by right | done].
        -- intros (x & Hx & H). apply elem_of_cons in Hx as [->|Hx].
           ++ rewrite Hr in H. by destruct H.
           ++ eauto.
Qed.

Lemma skipText_prefix (literal subject : string) (p : nat) (pv : option ascii) :
  is_Some (skipText true literal {| pos := p; prev := pv; rest := list_ascii_of_string subject |})
  ↔ String.prefix (canonical literal) (canonical subject) = true.
Proof.
  revert subject p pv. induction literal as [|a literal IH]; intros subject p pv; simpl.
  - split; [intros _; by destruct subject | intros _; by eexists].
  - destruct subject as [|x subject]; simpl.
    + split; [by intros [? ?] | done].
    + destruct (Ascii.eqb_spec (JS.upper_unit x) (JS.upper_unit a)) as [Heq|Hne].
      * rewrite Heq. destruct (ascii_dec (JS.upper_unit a) (JS.upper_unit a)); [|done].
        apply IH.
      * destruct (ascii_dec (JS.upper_unit a) (JS.upper_unit x)) as [Heq|_].
        -- by symmetry in Heq.
        -- split; [by intros [? ?] | done].
Qed.

Lemma matchAt_signatures (alts : list string) (subject : string) (p : nat)
    (pv : option ascii) :
  is_Some (matchAt (anyOf (map (fun a => text true a) alts))
             {| pos := p; prev := pv; rest := list_ascii_of_string subject |})
  ↔ existsb (fun a => String.prefix (canonical a) (canonical subject)) alts = true.
Proof.
  unfold matchAt. rewrite run_anyOf, existsb_exists. split.
  - intros (r' & Hin & Hrun). apply list_elem_of_In, in_map_iff in Hin as (a & <- & Ha).
    exists a. split; [done|]. rewrite run_text in Hrun.
    apply skipText_prefix with (p := p) (pv := pv).
    destruct (skipText true a _); [eauto | by destruct Hrun].
  - intros (a & Ha & Hprefix). exists (text true a).
    split; [apply list_elem_of_In, in_map_iff; eauto|].
    rewrite run_text. apply (skipText_prefix a subject p pv) in Hprefix as [c' ->]. eauto.
Qed.

Lemma existsb_or {X : Type} (first second : X → bool) (xs : list X) :
  existsb (fun x => first x || second x) xs = existsb first xs || existsb second xs.
Proof.
  induction xs as [|x xs IH]; simpl; [done|]. rewrite IH.
  destruct (first x), (second x), (existsb first xs), (existsb second xs); done.
Qed.

Lemma existsb_same {X : Type} (first second : X → bool) (xs : list X) :
  (∀ x, first x = second x) → existsb first xs = existsb second xs.
Proof. intros H. induction xs as [|x xs IH]; simpl; [done|]. by rewrite H, IH. Qed.

Lemma includes_empty (sub : string) : JS.includes "" sub = String.prefix sub "".
Proof. simpl. by rewrite orb_false_r. Qed.

Lemma includes_step (x : ascii) (subject sub : string) :
  JS.includes (String x subject) sub
  = String.prefix sub (String x subject) || JS.includes subject sub.
Proof. done. Qed.

Lemma search_signatures (alts : list string) (subject : string) (p : nat)
    (pv : option ascii) :
  is_Some (search (anyOf (map (fun a => text true a) alts)) p pv
             (list_ascii_of_string subject))
  ↔ existsb (fun a => JS.includes (canonical subject) (canonical a)) alts = true.
Proof.
  revert p pv. induction subject as [|x subject IH]; intros p pv.
  - pose proof (matchAt_signatures alts "" p pv) as Hhere.
    cbn [list_ascii_of_string search canonical] in *.
    rewrite (existsb_same _ (fun a => String.prefix (canonical a) ""));
      [|intros a; apply includes_empty].
    destruct (matchAt _ _) as [[e' cs]|].
    + split; [intros _ | eauto]. apply Hhere. eauto.
    + rewrite <- Hhere. split; by intros [? ?].
  - pose proof (matchAt_signatures alts (String x subject) p pv) as Hhere.
    cbn [list_ascii_of_string search canonical] in *.
    rewrite (existsb_same _ (fun a =>
               String.prefix (canonical a) (String (JS.upper_unit x) (canonical subject))
               || JS.includes (canonical subject) (canonical a)));
      [|intros a; apply includes_step].
    rewrite existsb_or.
    destruct (matchAt _ _) as [[e' cs]|].
    + split; [intros _ | eauto]. rewrite (proj1 Hhere); [done | eauto].
    + rewrite IH. split.
      * intros ->. by rewrite orb_true_r.
      * intros H. apply orb_true_iff in H as [H|H]; [|done].
        apply Hhere in H. by destruct H.
Qed.

(** X22.  An expression of the pattern library (literal signatures joined
    by [|], flags [g] and [i]), tested from index 0, is true exactly when
    the subject contains one of the signatures, letters compared without
    regard to case. *)
Theorem signatures_test_is_containment (alts : list string) (subject : string) :
  fst (test (signatures alts) subject)
  = existsb (fun a => JS.includes (canonical subject) (canonical (JS.lit a))) alts.
Proof.
  unfold signatures, test, exec, compile. cbn [global lastIndex source].
  unfold searchFrom. cbn [seek start pos prev rest].
  assert (Hmap : existsb (fun a => JS.includes (canonical subject) (canonical a))
                   (map JS.lit alts)
                 = existsb (fun a => JS.includes (canonical subject) (canonical (JS.lit a)))
                     alts).
  { induction alts as [|a alts IH]; [done|]. cbn [map existsb]. by rewrite IH. }
  pose proof (search_signatures (map JS.lit alts) subject 0 None) as H.
  rewrite map_map in H.
  rewrite Hmap in H.
  destruct (search _ 0 None (list_ascii_of_string subject)) as [[[b e'] cs]|]; simpl.
  - symmetry. apply H. eauto.
  - destruct (existsb _ alts) eqn:He; [|done].
    destruct (proj2 H eq_refl) as [? ?]. done.
Qed.

(* ================================================================== *)
(** * The fix proposer, kind by kind *)
(* ================================================================== *)

Lemma proposeFixForError_wraps_VALUE (error : ErrorDetail) (formula : string)
    (worksheet : WorkSheet) (range : Range) (workbook : WorkBook) (g : Realm) :
  JS.truthy formula = true → type error = "VALUE" →
  Proposal.formula <$> fst (proposeFixForError error formula worksheet range workbook g)
    = Some ("=IFERROR(" ++ formula ++ ", 0)").
Proof.
  intros Hf Hvalue. unfold proposeFixForError. by rewrite Hf, Hvalue.
Qed.

(** X23.  The fix proposer by kind, in every state of the patterns: nothing
    for an empty formula; the lookup patterns are touched for REF findings
    only; VALUE always gets the formula wrapped with default 0 and DIV with
    default "N/A"; NAME gets what the alias table gives; every other kind
    but REF gets nothing. *)
Theorem proposeFixForError_by_kind (error : ErrorDetail) (formula : string)
    (worksheet : WorkSheet) (range : Range) (workbook : WorkBook) (g : Realm) :
  let result := proposeFixForError error formula worksheet range workbook g in
  (formula = "" → result = (None, g))
  ∧ (type error ≠ "REF" → snd result = g)
  ∧ (formula ≠ "" → type error = "VALUE" →
     Proposal.formula <$> fst result = Some ("=IFERROR(" ++ formula ++ ", 0)"))
  ∧ (formula ≠ "" → type error = "DIV" →
     Proposal.formula <$> fst result
       = Some ("=IFERROR(" ++ formula ++ ", " ++ JS.dq ++ "N/A" ++ JS.dq ++ ")"))
  ∧ (formula ≠ "" → type error = "NAME" → fst result = fixName commonFixes formula)
  ∧ (type error ≠ "REF" → type error ≠ "VALUE" → type error ≠ "NAME" →
     type error ≠ "DIV" → fst result = None).
Proof.
  intros result. subst result. unfold proposeFixForError.
  split; [by intros ->|].
  destruct (JS.truthy formula) eqn:Hf; cbn [negb].
  2:{ apply not_true_iff_false in Hf. rewrite truthy_nonempty in Hf.
      repeat split; try done; intros; exfalso; apply Hf; done. }
  destruct (String.eqb_spec (type error) "REF") as [Href|Href].
  { rewrite Href. repeat split; try done. }
  rewrite bind_run. cbn [ret fst snd].
  destruct (String.eqb_spec (type error) "VALUE") as [Hvalue|Hvalue].
  { rewrite Hvalue. repeat split; try done. }
  destruct (String.eqb_spec (type error) "NAME") as [Hname|Hname].
  { rewrite Hname. split; [by destruct (fixName commonFixes formula)|].
    split; [done|]. split; [done|]. split; [|done].
    intros _ _. by destruct (fixName commonFixes formula). }
  destruct (String.eqb_spec (type error) "DIV") as [Hdiv|Hdiv].
  { rewrite Hdiv. repeat split; try done. }
  repeat split; try done.
Qed.

(* ================================================================== *)
(** * Tagged cells whose value is the numeric error code *)
(* ================================================================== *)

Lemma numeral_uint (d : Decimal.uint) : numeral (NilEmpty.string_of_uint d) = true.
Proof. induction d; simpl; by rewrite ?IHd. Qed.

Lemma numeral_ofZ (z : Z) : numeral (JS.ofZ z) = true.
Proof.
  unfold JS.ofZ, NilZero.string_of_int, NilZero.string_of_uint.
  destruct (Z.to_int z) as [d|d]; simpl.
  - destruct d; try done; simpl; by rewrite numeral_uint.
  - destruct d; try done; simpl; by rewrite numeral_uint.
Qed.

Lemma numeral_upper (text : string) : numeral text = true → JS.toUpperCase text = text.
Proof.
  induction text as [|x text IH]; simpl; [done|].
  intros H. apply andb_true_iff in H as [Hx Hrest]. rewrite (IH Hrest).
  assert (Hcode : JS.between 48 57 (JS.code x) = true ∨ JS.code x = 45).
  { apply orb_true_iff in Hx as [?|Hx]; [by left|]. right.
    apply Ascii.eqb_eq in Hx. by subst. }
  unfold JS.upper_unit, JS.between in *.
  destruct Hcode as [Hd| ->].
  - apply andb_true_iff in Hd as [H1 H2].
    apply Nat.leb_le in H1, H2.
    replace (JS.code x =? 223)%nat with false by (symmetry; apply Nat.eqb_neq; lia).
    replace ((97 <=? JS.code x)%nat) with false by (symmetry; apply Nat.leb_gt; lia).
    replace ((224 <=? JS.code x)%nat) with false by (symmetry; apply Nat.leb_gt; lia).
    done.
  - done.
Qed.

Lemma numeral_excludes (text keyword : string) (first : ascii) :
  numeral text = true →
  JS.between 48 57 (JS.code first) || Ascii.eqb first "-" = false →
  JS.includes text (String first keyword) = false.
Proof.
  intros Hn Hfirst. induction text as [|x text IH]; [done|].
  simpl in Hn. apply andb_true_iff in Hn as [Hx Hrest].
  rewrite includes_step, (IH Hrest), orb_false_r. simpl.
  destruct (ascii_dec first x) as [->|_]; [congruence | done].
Qed.

Lemma nativeKind_numeral (text : string) : numeral text = true → nativeKind text = "VALUE".
Proof.
  intros Hn. unfold nativeKind. rewrite (numeral_upper _ Hn).
  change (JS.lit "NÚM") with (String "N" (String "218"%char "M")).
  by rewrite !(numeral_excludes text _ _ Hn).
Qed.

(* ================================================================== *)
(** * The type check of a column *)
(* ================================================================== *)

Lemma numericCount_bound (worksheet : WorkSheet) (C : nat) (rows : list nat)
    (start : nat * nat) :
  (fst (fold_left (fun (acc : nat * nat) R' =>
          let (numericCount, textCount) := acc in
          match cellAt worksheet (encode_cell {| r := R'; c := C |}) with
          | None => acc
          | Some checkCell =>
              if JS.truthy (formulaText checkCell) then acc
              else
                let val := valueText checkCell in
                if matches NUMBER_PATTERN val then (numericCount + 1, textCount)
                else if (0 <? String.length val)%nat then (numericCount, textCount + 1)
                else acc
          end) rows start)
   ≤ fst start + length rows)%nat.
Proof.
  revert start. induction rows as [|R' rows IH]; intros [numericCount textCount]; simpl;
    [lia|].
  etransitivity; [apply IH|].
  destruct (cellAt worksheet _) as [checkCell|]; simpl; [|lia].
  destruct (JS.truthy (formulaText checkCell)); simpl; [lia|].
  destruct (matches NUMBER_PATTERN (valueText checkCell)); simpl; [lia|].
  destruct (0 <? _)%nat; simpl; lia.
Qed.

(** X25.  The type check reports a cell only in a column of at least six
    rows (it counts the formula-free numeric cells of the first 21 rows of
    the range and wants more than five), and only a cell whose text is
    non-empty and not a number; the finding carries that text and no
    proposal.  Short ranges never get a type finding. *)
Theorem validateDataType_needs_six_rows (cell : CellObject) (R C : nat)
    (sheetName : string) (worksheet : WorkSheet) (range : Range) (error : ErrorDetail) :
  validateDataType cell R C sheetName worksheet range = Some error →
  (r (s range) + 5 ≤ r (e range))%nat
  ∧ matches NUMBER_PATTERN (valueText cell) = false
  ∧ valueText cell ≠ ""
  ∧ value error = valueText cell ∧ located sheetName R C error
  ∧ proposed error = None.
Proof.
  unfold validateDataType.
  pose proof (numericCount_bound worksheet C
                (seq (r (s range)) (Nat.min (r (s range) + 20) (r (e range)) + 1 - r (s range)))
                (0, 0)) as Hbound.
  rewrite length_seq in Hbound.
  destruct (fold_left _ _ _) as [numericCount textCount]. simpl in Hbound.
  destruct (5 <? numericCount)%nat eqn:Hmany; [|done].
  destruct (3 * textCount <? numericCount)%nat; [|done]. cbn [andb].
  destruct (matches NUMBER_PATTERN (valueText cell)); [done|]. cbn [negb andb].
  destruct (0 <? String.length (valueText cell))%nat eqn:Hlen; [|done].
  intros [= <-]. apply Nat.ltb_lt in Hmany, Hlen.
  split; [lia|]. split; [done|]. split; [|done].
  intros Hnil. rewrite Hnil in Hlen. simpl in Hlen. lia.
Qed.

(** The text under six numbers. *)
Lemma text_under_six_numbers :
  (r (s (rangeOf Case.sixNumbers)) + 5 ≤ r (e (rangeOf Case.sixNumbers)))%nat
  ∧ matches NUMBER_PATTERN (valueText (Sample.textCell "n/a")) = false
  ∧ valueText (Sample.textCell "n/a") ≠ ""
  ∧ value Case.textFinding = valueText (Sample.textCell "n/a")
  ∧ located "S" 6 0 Case.textFinding
  ∧ proposed Case.textFinding = None.
Proof.
  apply (validateDataType_needs_six_rows (Sample.textCell "n/a") 6 0 "S" Case.sixNumbers
           (rangeOf Case.sixNumbers) Case.textFinding).
  vm_compute. reflexivity.
Defined.

(* ================================================================== *)
(** * References to other sheets *)
(* ================================================================== *)

Lemma rounds_class (p : ascii → bool) (k : cursor → captures → option (nat * captures))
    (cs : captures) (y : ascii) (tail : list ascii) (res : nat * captures) :
  p y = false →
  ∀ (xs : list ascii) (n i : nat) (pv : option ascii),
    (length xs ≤ n)%nat →
    Forall (fun x => p x = true) xs →
    k {| pos := i + length xs; prev := fold_left (fun _ x => Some x) xs pv;
         rest := y :: tail |} cs = Some res →
    (fix rounds (n : nat) (c : cursor) (cs : captures) : option (nat * captures) :=
       match n with
       | O => k c cs
       | S n' =>
           match run (Chr p) c cs (fun c' cs' =>
                     if (pos c <? pos c')%nat then rounds n' c' cs' else None) with
           | Some res => Some res
           | None => k c cs
           end
       end) n {| pos := i; prev := pv; rest := (xs ++ y :: tail)%list |} cs = Some res.
Proof.
  intros Hy xs. induction xs as [|x xs IH]; intros n i pv Hle Hxs Hk.
  - simpl in Hk. rewrite Nat.add_0_r in Hk. destruct n; [exact Hk|].
    cbn [app rest run]. by rewrite Hy.
  - apply Forall_cons in Hxs as [Hx Hxs]. destruct n as [|n]; [simpl in Hle; lia|].
    assert (Hrest : k {| pos := S i + length xs;
                         prev := fold_left (fun _ z => Some z) xs (Some x);
                         rest := y :: tail |} cs = Some res).
    { simpl in Hk. by replace (S i + length xs)%nat with (i + S (length xs))%nat by lia. }
    pose proof (IH n (S i) (Some x) ltac:(simpl in Hle; lia) Hxs Hrest) as Hnext.
    cbn [app rest pos run] in Hnext |- *. rewrite Hx.
    replace (i <? S i)%nat with true by (symmetry; apply Nat.ltb_lt; lia).
    by rewrite Hnext.
Qed.

Lemma run_star_class (p : ascii → bool) (k : cursor → captures → option (nat * captures))
    (cs : captures) (y : ascii) (tail : list ascii) (res : nat * captures) (xs : list ascii)
    (i : nat) (pv : option ascii) :
  p y = false →
  Forall (fun x => p x = true) xs →
  k {| pos := i + length xs; prev := fold_left (fun _ x => Some x) xs pv;
       rest := y :: tail |} cs = Some res →
  run (Star (Chr p)) {| pos := i; prev := pv; rest := (xs ++ y :: tail)%list |} cs k
    = Some res.
Proof.
  intros Hy Hxs Hk.
  refine (rounds_class p k cs y tail res Hy xs (S (length (xs ++ y :: tail)%list)) i pv
            _ Hxs Hk).
  rewrite length_app. lia.
Qed.

(** The reference pattern at the start of a plain text followed by "!". *)
Lemma matchAt_sheetRefPattern (x : ascii) (xs : list ascii) (tail : list ascii) :
  Forall (fun x => x ∉ list_ascii_of_string ("'" ++ JS.dq ++ "!")) (x :: xs) →
  matchAt sheetRefPattern {| pos := 0; prev := None; rest := (x :: xs ++ "!"%char :: tail)%list |}
    = Some (S (S (length xs)), [(1, (0, S (length xs)))]).
Proof.
  intros Hplain. apply Forall_cons in Hplain as [Hx Hxs].
  assert (Hquote : ∀ z, z ∉ list_ascii_of_string ("'" ++ JS.dq ++ "!") →
            bool_decide (z ∈ list_ascii_of_string ("'" ++ JS.dq)) = false).
  { intros z Hz. apply bool_decide_eq_false_2. intros Hin. apply Hz.
    cbn in Hin |- *.
    apply elem_of_cons in Hin as [-> | Hin]; [left|].
    apply elem_of_cons in Hin as [-> | Hin]; [right; left|].
    by apply elem_of_nil in Hin. }
  unfold matchAt, sheetRefPattern, Opt, Plus, oneOf, noneOf, char.
  remember (Star (Chr (fun c => negb (bool_decide
              (c ∈ list_ascii_of_string ("'" ++ JS.dq ++ "!")))))) as star eqn:Hstar.
  cbn [run rest pos]. rewrite (Hquote x Hx).
  rewrite (bool_decide_eq_false_2 _ Hx). cbn [negb]. subst star.
  apply run_star_class.
  - reflexivity.
  - eapply Forall_impl; [exact Hxs|]. intros z Hz. cbn beta.
    by rewrite (bool_decide_eq_false_2 _ Hz).
  - cbn [run rest pos]. simpl. reflexivity.
Qed.

Lemma list_ascii_of_string_app (first second : string) :
  list_ascii_of_string (first ++ second)
    = (list_ascii_of_string first ++ list_ascii_of_string second)%list.
Proof. induction first as [|x first IH]; simpl; [done | by rewrite IH]. Qed.

Lemma length_list_ascii (text : string) :
  length (list_ascii_of_string text) = String.length text.
Proof. induction text as [|x text IH]; simpl; [done | by rewrite IH]. Qed.

Lemma substring_head (first second : string) :
  String.substring 0 (String.length first) (first ++ second) = first.
Proof. induction first as [|x first IH]; simpl; [by destruct second | by rewrite IH]. Qed.

(** The first match of the reference pattern in a formula that starts with
    a plain text and "!": the plain text is the group. *)
Lemma matchAll_sheetRefPattern (head tail : string) :
  head ≠ "" → plain head →
  ∃ e' cs more,
    matchAll sheetRefPattern (head ++ "!" ++ tail) = (0, e', cs) :: more
    ∧ group (head ++ "!" ++ tail) cs 1 = head.
Proof.
  intros Hnonempty Hplain. destruct head as [|x xs]; [done|]. clear Hnonempty.
  unfold plain in Hplain. cbn [list_ascii_of_string] in Hplain.
  pose proof (matchAt_sheetRefPattern x (list_ascii_of_string xs)
                (list_ascii_of_string tail) Hplain) as Hmatch.
  unfold matchAll. cbn [String.length append allFrom].
  unfold searchFrom, start. cbn [seek pos prev rest].
  rewrite list_ascii_of_string_app.
  change (list_ascii_of_string ("!" ++ tail)) with ("!"%char :: list_ascii_of_string tail).
  cbn [list_ascii_of_string app search].
  rewrite Hmatch.
  eexists _, _, _. split; [reflexivity|].
  unfold group. cbn [List.find fst Nat.eqb]. unfold JS.substring.
  rewrite Nat.sub_0_r, length_list_ascii.
  apply (substring_head (String x xs) (String "!" tail)).
Qed.

(** X26.  The cross-sheet check takes as sheet name everything from the
    start of the formula up to the first "!" (quote marks apart).  So a
    formula cell of an analysed sheet whose formula is a non-empty text
    without quote marks, then "!", is reported as a critical reference to a
    missing sheet of that name, with a proposal that the download applies,
    unless a sheet is called exactly so: a formula like SUM(Data!A1) is
    reported even when the sheet Data exists. *)
Theorem reference_after_other_text_is_reported (workbook : WorkBook)
    (selectedSheets : option (list string)) (g : Realm)
    (name : string) (worksheet : WorkSheet) (R C : nat) (cell : CellObject)
    (head tail : string) :
  name ∈ sheetsToAnalyze workbook selectedSheets →
  Sheets workbook !! name = Some worksheet →
  (r (s (rangeOf worksheet)) ≤ R ≤ r (e (rangeOf worksheet)))%nat →
  (c (s (rangeOf worksheet)) ≤ C ≤ c (e (rangeOf worksheet)))%nat →
  cellAt worksheet (encode_cell {| r := R; c := C |}) = Some cell →
  f cell = Some (head ++ "!" ++ tail) →
  head ≠ "" → plain head →
  head ∉ SheetNames workbook →
  ∃ error,
    error ∈ fst (analyzeExcelFile workbook selectedSheets g)
    ∧ type error = "CROSS_SHEET_REF" ∧ severity error = Some critical
    ∧ located name R C error
    ∧ value error = "=" ++ head ++ "!" ++ tail
    ∧ reason error
      = Some (JS.lit "Referência a sheet inexistente: " ++ JS.dq ++ head ++ JS.dq)
    ∧ fixable error = true.
Proof.
  intros Hselected Hs HR HC Hcell Hformula Hnonempty Hplain Hmissing.
  destruct (matchAll_sheetRefPattern head tail Hnonempty Hplain)
    as (e' & cs & more & Hall & Hgroup).
  assert (Htext : formulaText cell = head ++ "!" ++ tail).
  { unfold formulaText. rewrite Hformula. destruct head; done. }
  eexists. split.
  { rewrite analyzeExcelFile_run. cbn zeta. cbn [fst].
    apply (forEach_elem _ _ name _ Hselected).
    intros [] g'. rewrite Hs, bind_run. cbn [ret fst].
    unfold analyzeSheet. rewrite bind_run.
    destruct (fst (forEach _ _ _ g')) as [cellErrors columnValues]. cbn [ret fst].
    rewrite !elem_of_app. right. right. right. left.
    unfold validateCrossSheetReferences.
    apply list_elem_of_In, in_flat_map. exists R. split; [apply in_seq; lia|].
    apply in_flat_map. exists C. split; [apply in_seq; lia|].
    rewrite Hcell. cbn [hasFormula from_option]. rewrite Htext.
    replace (JS.truthy (head ++ "!" ++ tail)) with true by (by destruct head).
    rewrite Hall. cbn [flat_map]. rewrite Hgroup.
    rewrite (bool_decide_eq_false_2 _ Hmissing). left. reflexivity. }
  repeat split; reflexivity.
Qed.

(** The sum over Data!A1, in a workbook that has the sheet Data. *)
Lemma sum_over_existing_sheet_is_reported :
  "Data" ∈ SheetNames Case.summing
  ∧ ∃ error,
      error ∈ fst (analyzeExcelFile Case.summing None fresh)
      ∧ type error = "CROSS_SHEET_REF" ∧ severity error = Some critical
      ∧ located "S" 0 0 error
      ∧ value error = "=" ++ "SUM(Data" ++ "!" ++ "A1)"
      ∧ reason error
        = Some (JS.lit "Referência a sheet inexistente: " ++ JS.dq ++ "SUM(Data" ++ JS.dq)
      ∧ fixable error = true.
Proof.
  split; [apply list_elem_of_In; right; left; reflexivity|].
  apply (reference_after_other_text_is_reported Case.summing None fresh "S"
           Case.summingSheet 0 0 Case.summingCell "SUM(Data" "A1)").
  - apply list_elem_of_In. left. reflexivity.
  - vm_compute. reflexivity.
  - vm_compute. lia.
  - vm_compute. lia.
  - vm_compute. reflexivity.
  - reflexivity.
  - discriminate.
  - unfold plain. apply (bool_decide_unpack _). vm_compute. exact I.
  - apply (bool_decide_unpack _). vm_compute. exact I.
Defined.

(* ================================================================== *)
(** * What a fix writes *)
(* ================================================================== *)

Lemma stripEquals_literal (text : string) :
  stripEquals text = match text with String "=" body => body | _ => text end.
Proof.
  destruct text as [|[[] [] [] [] [] [] [] []] body]; try reflexivity.
  apply (stripEquals_body body).
Qed.

Lemma writers_app (workbook : WorkBook) (errors : list ErrorDetail) (first second : list nat)
    (name address : string) :
  writers workbook errors (first ++ second) name address
    = (writers workbook errors first name address
       ++ writers workbook errors second name address)%list.
Proof. unfold writers. apply flat_map_app. Qed.

Lemma writers_own (workbook : WorkBook) (errors : list ErrorDetail) (index : nat)
    (error : ErrorDetail) (text : string) :
  errors !! index = Some error →
  proposed error = Some text →
  text ≠ "" →
  writers workbook errors [index] (targetSheet workbook error)
    (col error ++ JS.ofNat (row error)) = [text].
Proof.
  intros Hindex Hprop Htext. unfold writers. cbn [flat_map].
  rewrite Hindex, Hprop, (proj2 (truthy_nonempty text) Htext).
  by rewrite bool_decide_eq_true_2.
Qed.

Lemma last_after_own {X : Type} (earlier later : list X) (own : X) :
  last (earlier ++ own :: later) = last (own :: later).
Proof.
  rewrite last_app. by destruct (last (own :: later)) eqn:Hlast;
    [|apply last_None in Hlast].
Qed.

(** C3, as amended.  An accepted finding with a non-empty proposal whose
    target sheet exists.  Right after its index is handled, the cell at its
    column and row on that sheet holds the proposal, without the leading
    [=] if it has one, as formula, and no cached value.  In the workbook the
    call returns, that cell has no cached value, the type tag it had before
    the call (the number tag if the call created it), and as formula the
    proposal, stripped likewise, of the last accepted finding from this
    index on that aims at the cell: this finding's own when none after it
    does. *)
Theorem applyFixes_writes_proposal (workbook : WorkBook) (errors : list ErrorDetail)
    (before after : list nat) (index : nat) (error : ErrorDetail) (text : string)
    (patched : WorkBook) :
  errors !! index = Some error →
  proposed error = Some text →
  text ≠ "" →
  is_Some (Sheets workbook !! targetSheet workbook error) →
  applyFixes workbook (before ++ index :: after) errors = Some patched →
  let name := targetSheet workbook error in
  let address := col error ++ JS.ofNat (row error) in
  let stripped := fun proposal : string =>
    match proposal with String "=" body => body | _ => proposal end in
  (∃ middle cell,
      applyFixes workbook (before ++ [index]) errors = Some middle
      ∧ cellOf middle name address = Some cell
      ∧ f cell = Some (stripped text) ∧ v cell = None)
  ∧ (∃ cell winner,
       cellOf patched name address = Some cell
       ∧ last (writers workbook errors (index :: after) name address) = Some winner
       ∧ f cell = Some (stripped winner) ∧ v cell = None
       ∧ t cell = from_option t TNumber (cellOf workbook name address))
  ∧ (writers workbook errors after name address = [] →
     ∃ cell,
       cellOf patched name address = Some cell
       ∧ f cell = Some (stripped text) ∧ v cell = None).
Proof.
  intros Hindex Hprop Htext Hsheet Hrun name address stripped.
  pose proof (writers_own workbook errors index error text Hindex Hprop Htext) as Hown.
  fold name address in Hown.
  assert (Hwritten : ∀ (old : option CellObject) (proposal : string),
            f (patchedCell old (stripEquals proposal)) = Some (stripped proposal)
            ∧ v (patchedCell old (stripEquals proposal)) = None
            ∧ t (patchedCell old (stripEquals proposal)) = from_option t TNumber old).
  { intros old proposal. rewrite stripEquals_literal. by destruct old. }
  assert (Hfinal : ∃ winner,
            last (writers workbook errors (index :: after) name address) = Some winner
            ∧ cellOf patched name address
              = Some (patchedCell (cellOf workbook name address) (stripEquals winner))).
  { rewrite (cellOf_applyFixes_fold _ _ _ _ name address Hrun Hsheet), fold_patchedCell_last.
    rewrite writers_app, (writers_cons workbook errors index after), Hown.
    cbn [app]. rewrite last_after_own.
    destruct (last (text :: writers workbook errors after name address)) as [winner|] eqn:Hlast;
      [by exists winner | by apply last_None in Hlast]. }
  split; [|split].
  - rewrite applyFixes_app in Hrun.
    destruct (applyFixes workbook before errors) as [earlier|] eqn:Hbefore; [|done].
    assert (Hmiddle : applyFixes workbook (before ++ [index]) errors
                      = Some (applyFix earlier error)).
    { rewrite applyFixes_app, Hbefore. simpl. by rewrite Hindex. }
    exists (applyFix earlier error),
      (patchedCell (cellOf workbook name address) (stripEquals text)).
    split; [exact Hmiddle|].
    rewrite (cellOf_applyFixes_fold _ _ _ _ name address Hmiddle Hsheet), fold_patchedCell_last.
    rewrite writers_app, Hown, last_snoc.
    split; [done|]. destruct (Hwritten (cellOf workbook name address) text) as (? & ? & _).
    done.
  - destruct Hfinal as (winner & Hlast & Hcell).
    exists (patchedCell (cellOf workbook name address) (stripEquals winner)), winner.
    destruct (Hwritten (cellOf workbook name address) winner) as (? & ? & ?). done.
  - intros Hnone. destruct Hfinal as (winner & Hlast & Hcell).
    rewrite (writers_cons workbook errors index after), Hown, Hnone in Hlast.
    injection Hlast as <-.
    exists (patchedCell (cellOf workbook name address) (stripEquals text)).
    destruct (Hwritten (cellOf workbook name address) text) as (? & ? & _). done.
Qed.

(** On the sample ledger the finding on B2 is accepted first and the sum on
    B2 after it: B2 holds the sum; the finding on C5, which no later one
    touches, made a number cell with its own proposal. *)
Lemma ledger_fix_written :
  cellOf Case.patched "S" "B2" = Some {| t := TNumber; v := None; f := Some "SUM(A1:A2)" |}
  ∧ ∃ created,
      cellOf Case.patched "S" "C5" = Some created
      ∧ f created = Some "IFERROR(A1/A2, 0)" ∧ v created = None.
Proof.
  split.
  - destruct (applyFixes_writes_proposal Sample.ledger Case.findings [] [1; 2; 3] 0
                Sample.onB2 "=IFERROR(A1/A2, 0)" Case.patched)
      as (_ & (cell & winner & Hcell & Hlast & Hf & Hv & Ht) & _).
    + reflexivity.
    + reflexivity.
    + discriminate.
    + eexists. vm_compute. reflexivity.
    + vm_compute. reflexivity.
    + vm_compute in Hlast. injection Hlast as <-.
      transitivity (Some cell); [exact Hcell|]. f_equal.
      destruct cell as [tag value formula]. cbn in Hf, Hv, Ht. by subst.
  - apply (applyFixes_writes_proposal Sample.ledger Case.findings [0; 1] [3] 2
             Case.onC5 "IFERROR(A1/A2, 0)" Case.patched).
    + reflexivity.
    + reflexivity.
    + discriminate.
    + eexists. vm_compute. reflexivity.
    + vm_compute. reflexivity.
    + vm_compute. reflexivity.
Defined.

(** C3, as stated, fails when two accepted findings aim at one cell.  In
    Scenario A of the specification the analysis makes two proposals for
    B2; with both accepted, B2 ends with the second and not with the
    first. *)
Lemma later_proposal_replaces_earlier :
  map (fun error => (type error, targetSheet Case.scenarioA error,
                     col error ++ JS.ofNat (row error), proposed error))
    (fst (analyzeExcelFile Case.scenarioA None fresh))
  = [ ("VLOOKUP_NO_LOCK", "S", "B2", Some "=VLOOKUP($A$1,Sheet9!A:B,2)");
      ("CROSS_SHEET_REF", "S", "B2", Some "=S!A:B,2)") ]
  ∧ ∃ patched cell,
      applyFixes Case.scenarioA [0; 1] (fst (analyzeExcelFile Case.scenarioA None fresh))
        = Some patched
      ∧ cellOf patched "S" "B2" = Some cell
      ∧ f cell = Some "S!A:B,2)"
      ∧ f cell ≠ Some "VLOOKUP($A$1,Sheet9!A:B,2)".
Proof.
  split; [vm_compute; reflexivity|].
  eexists _, _. split; [vm_compute; reflexivity|].
  split; [vm_compute; reflexivity|].
  split; [vm_compute; reflexivity | vm_compute; discriminate].
Qed.

(* ================================================================== *)
(** * Missing sheets and the console *)
(* ================================================================== *)

Lemma warned_applyFix (workbook : WorkBook) (earlier error : ErrorDetail) :
  warned (applyFix workbook earlier) error = warned workbook error.
Proof.
  unfold warned. rewrite targetSheet_applyFix.
  destruct (proposed error) as [text|]; [|done].
  destruct (JS.truthy text); [|done].
  pose proof (sheet_present_applyFix workbook earlier (targetSheet workbook error)) as Hsame.
  destruct (Sheets (applyFix workbook earlier) !! targetSheet workbook error),
           (Sheets workbook !! targetSheet workbook error); try done.
  - destruct (proj1 Hsame) as [? ?]; [eauto | done].
  - destruct (proj2 Hsame) as [? ?]; [eauto | done].
Qed.

Lemma warnings_applyFix (workbook : WorkBook) (earlier : ErrorDetail)
    (errors : list ErrorDetail) (fixes : list nat) :
  warnings (applyFix workbook earlier) errors fixes = warnings workbook errors fixes.
Proof.
  unfold warnings. apply flat_map_ext. intros index.
  destruct (errors !! index) as [error|]; [|done]. apply warned_applyFix.
Qed.

(** The call with the console gives the workbook of the call without it,
    and adds to the console the warnings of the accepted findings. *)
Lemma applyFixesLogged_run (workbook : WorkBook) (errors : list ErrorDetail)
    (fixes : list nat) (console : list string) :
  applyFixesLogged workbook fixes errors console
    = (fun patched => (patched, (console ++ warnings workbook errors fixes)%list))
        <$> applyFixes workbook fixes errors.
Proof.
  revert workbook console. induction fixes as [|index fixes IH]; intros workbook console.
  - simpl. by rewrite app_nil_r.
  - simpl. destruct (errors !! index) as [error|]; [|done]. simpl.
    rewrite IH, warnings_applyFix.
    destruct (applyFixes (applyFix workbook error) fixes errors); [|done].
    simpl. by rewrite <- app_assoc.
Qed.

Lemma warnings_app (workbook : WorkBook) (errors : list ErrorDetail) (first second : list nat) :
  warnings workbook errors (first ++ second)
    = (warnings workbook errors first ++ warnings workbook errors second)%list.
Proof. unfold warnings. apply flat_map_app. Qed.

Lemma applyFix_missing_sheet (workbook : WorkBook) (error : ErrorDetail) :
  Sheets workbook !! targetSheet workbook error = None → applyFix workbook error = workbook.
Proof.
  intros Hmissing. unfold applyFix.
  destruct (proposed error) as [text|]; [|done].
  destruct (JS.truthy text); [|done]. by rewrite Hmissing.
Qed.

Lemma applyFixes_without (workbook : WorkBook) (errors : list ErrorDetail)
    (before after : list nat) (index : nat) (error : ErrorDetail) :
  errors !! index = Some error →
  Sheets workbook !! targetSheet workbook error = None →
  applyFixes workbook (before ++ index :: after) errors
    = applyFixes workbook (before ++ after) errors.
Proof.
  intros Hindex Hmissing. rewrite !applyFixes_app.
  destruct (applyFixes workbook before errors) as [earlier|] eqn:Hbefore; [|done].
  simpl. rewrite Hindex. f_equal. apply applyFix_missing_sheet.
  rewrite (targetSheet_applyFixes _ _ _ _ error Hbefore).
  apply eq_None_not_Some.
  rewrite (sheet_present_applyFixes _ _ _ _ _ Hbefore), Hmissing. by intros [? ?].
Qed.

(** C8, as amended.  An accepted index whose finding names a sheet the
    workbook lacks does not make the call fail: when every other accepted
    index has a finding, the call returns a workbook.  The console gets the
    warnings of the findings handled before, then one warning naming the
    sheet if this finding has a non-empty proposal and nothing if it has
    none, then the warnings of the findings handled after.  The workbook is
    the one the call returns without this index, and every other accepted
    finding is applied in it: a cell of an existing sheet is what the last
    proposal that the other accepted findings aim at it makes it. *)
Theorem applyFixes_skips_missing_sheet (workbook : WorkBook) (errors : list ErrorDetail)
    (before after : list nat) (index : nat) (error : ErrorDetail) :
  errors !! index = Some error →
  Sheets workbook !! targetSheet workbook error = None →
  (∀ other, other ∈ (before ++ after)%list → is_Some (errors !! other)) →
  ∃ patched,
    applyFixesLogged workbook (before ++ index :: after) errors []
      = Some (patched,
              (warnings workbook errors before
               ++ (if fixable error
                   then [missingSheetWarning (targetSheet workbook error)] else [])
               ++ warnings workbook errors after)%list)
    ∧ applyFixes workbook (before ++ index :: after) errors = Some patched
    ∧ applyFixes workbook (before ++ after) errors = Some patched
    ∧ ∀ name address,
        is_Some (Sheets workbook !! name) →
        cellOf patched name address
          = match last (writers workbook errors (before ++ after) name address) with
            | Some text =>
                Some {| t := from_option t TNumber (cellOf workbook name address);
                        v := None;
                        f := Some match text with String "=" body => body | _ => text end |}
            | None => cellOf workbook name address
            end.
Proof.
  intros Hindex Hmissing Hothers.
  destruct (applyFixes_succeeds workbook errors (before ++ after) Hothers)
    as [patched Hrun].
  pose proof (applyFixes_without workbook errors before after index error Hindex Hmissing)
    as Hsame.
  exists patched. split; [|split; [by rewrite Hsame | split; [done|]]].
  - rewrite applyFixesLogged_run, Hsame, Hrun. simpl. do 2 f_equal.
    rewrite warnings_app. f_equal.
    change (index :: after) with ([index] ++ after)%list.
    rewrite warnings_app. f_equal.
    unfold warnings, warned, fixable. cbn [flat_map]. rewrite Hindex, app_nil_r. simpl.
    destruct (proposed error) as [text|]; [|done].
    destruct (JS.truthy text); [|done]. by rewrite Hmissing.
  - intros name address Hsheet.
    rewrite (cellOf_applyFixes_fold _ _ _ _ name address Hrun Hsheet), fold_patchedCell_last.
    destruct (last (writers workbook errors (before ++ after) name address)) as [text|];
      [|done].
    rewrite stripEquals_literal. by destruct (cellOf workbook name address).
Qed.

(** The sample ledger, the finding for the lost sheet accepted third of
    four: one warning, and the findings on B2 and C5 are applied. *)
Lemma ledger_lost_sheet_skipped :
  ∃ patched,
    applyFixesLogged Sample.ledger [0; 1; 3; 2] Case.findings []
      = Some (patched,
              ["Sheet " ++ JS.dq ++ "Gone" ++ JS.dq
               ++ JS.lit " não encontrada. Pulando correção."])
    ∧ cellOf patched "S" "B2" = Some {| t := TNumber; v := None; f := Some "SUM(A1:A2)" |}
    ∧ cellOf patched "S" "C5"
      = Some {| t := TNumber; v := None; f := Some "IFERROR(A1/A2, 0)" |}.
Proof.
  destruct (applyFixes_skips_missing_sheet Sample.ledger Case.findings [0; 1] [2] 3
              Sample.onLostSheet)
    as (patched & Hlogged & _ & _ & Hcells).
  - reflexivity.
  - vm_compute. reflexivity.
  - intros other Hother. apply lookup_lt_is_Some.
    apply list_elem_of_In in Hother. simpl in Hother. simpl. lia.
  - exists patched. split; [exact Hlogged|]. split.
    + rewrite (Hcells "S" "B2"); [vm_compute; reflexivity | eexists; vm_compute; reflexivity].
    + rewrite (Hcells "S" "C5"); [vm_compute; reflexivity | eexists; vm_compute; reflexivity].
Defined.

(** C8, as stated, promises a warning for every accepted finding on a
    missing sheet.  A finding without a proposal is passed over before the
    sheet is looked at: the call succeeds and the console stays empty. *)
Lemma finding_without_proposal_skipped_silently :
  proposed Case.silentOnLostSheet = None
  ∧ Sheets Sample.ledger !! targetSheet Sample.ledger Case.silentOnLostSheet = None
  ∧ applyFixesLogged Sample.ledger [0] [Case.silentOnLostSheet] []
    = Some (Sample.ledger, []).
Proof. repeat split; vm_compute; reflexivity. Qed.

(* ================================================================== *)
(** * Formula complexity, seen from the analysis *)
(* ================================================================== *)

(** A finding that every run of the round for a position pushes is a
    finding of the analysis. *)
Lemma analyzeExcelFile_visits (workbook : WorkBook) (selectedSheets : option (list string))
    (g : Realm) (name : string) (worksheet : WorkSheet) (R C : nat) (error : ErrorDetail) :
  name ∈ sheetsToAnalyze workbook selectedSheets →
  Sheets workbook !! name = Some worksheet →
  (r (s (rangeOf worksheet)) ≤ R ≤ r (e (rangeOf worksheet)))%nat →
  (c (s (rangeOf worksheet)) ≤ C ≤ c (e (rangeOf worksheet)))%nat →
  (∀ columnValues g',
     error ∈ fst (fst (visitCell workbook worksheet name (rangeOf worksheet) (R, C)
                         columnValues g'))) →
  error ∈ fst (analyzeExcelFile workbook selectedSheets g).
Proof.
  intros Hselected Hs HR HC Hvisit.
  assert (Hposition : (R, C) ∈ positions (rangeOf worksheet)).
  { apply position_in_range; apply elem_of_seq; lia. }
  assert (Hsheet : ∀ g', error ∈ fst (analyzeSheet workbook name worksheet g')).
  { intros g'. unfold analyzeSheet. rewrite bind_run.
    pose proof (forEach_elem _ _ (R, C) error Hposition Hvisit [] g') as Hin.
    destruct (forEach _ _ _ g') as [[cellErrors columnValues] g'']. simpl in *.
    apply elem_of_app. by left. }
  rewrite analyzeExcelFile_run. simpl.
  apply (forEach_elem _ _ name error Hselected).
  intros [] g'. rewrite Hs, bind_run. simpl. apply Hsheet.
Qed.

(** The finding of the formula detector is pushed by the round of a
    formula cell that does not carry the error tag. *)
Lemma visitCell_formulaIssue (workbook : WorkBook) (worksheet : WorkSheet) (name : string)
    (range : Range) (R C : nat) (cell : CellObject) (error : ErrorDetail) :
  cellAt worksheet (encode_cell {| r := R; c := C |}) = Some cell →
  t cell ≠ TError →
  formulaText cell ≠ "" →
  (∀ g, fst (detectFormulaIssues (formulaText cell) (encode_cell {| r := R; c := C |})
               name R C g) = Some error) →
  ∀ columnValues g,
    error ∈ fst (fst (visitCell workbook worksheet name range (R, C) columnValues g)).
Proof.
  intros Hcell Htag Hformula Hissue columnValues g.
  unfold visitCell. rewrite Hcell, (proj2 (truthy_nonempty _) Hformula).
  destruct (t cell) eqn:Ht; try done;
    rewrite !bind_run; cbn [ret fst snd]; rewrite Hissue;
    rewrite !elem_of_app; right; left; left.
Qed.

(** C9, as amended.  A formula cell of an analysed sheet, inside the
    sheet's range and without the error tag.  If the formula is longer than
    500 characters the analysis reports it as [info], with "=", its first
    100 characters and "..." as value, and that is all the detector says
    about it, however its conditionals are nested.  If the formula has at
    most 500 characters and its upper-case form holds more than five [IF(]
    at a word boundary, nested or side by side, the analysis reports it as
    [warning]. *)
Theorem formula_cell_complexity (workbook : WorkBook)
    (selectedSheets : option (list string)) (g : Realm)
    (name : string) (worksheet : WorkSheet) (R C : nat) (cell : CellObject) :
  name ∈ sheetsToAnalyze workbook selectedSheets →
  Sheets workbook !! name = Some worksheet →
  (r (s (rangeOf worksheet)) ≤ R ≤ r (e (rangeOf worksheet)))%nat →
  (c (s (rangeOf worksheet)) ≤ C ≤ c (e (rangeOf worksheet)))%nat →
  cellAt worksheet (encode_cell {| r := R; c := C |}) = Some cell →
  t cell ≠ TError →
  formulaText cell ≠ "" →
  let formula := formulaText cell in
  let found := fst (analyzeExcelFile workbook selectedSheets g) in
  ((500 < String.length formula)%nat →
   (∃ error,
      error ∈ found
      ∧ type error = "COMPLEX_FORMULA" ∧ severity error = Some info
      ∧ located name R C error
      ∧ value error = "=" ++ JS.substring formula 0 100 ++ "...")
   ∧ ∀ address g',
       type <$> fst (detectFormulaIssues formula address name R C g')
         = Some "COMPLEX_FORMULA")
  ∧ ((String.length formula ≤ 500)%nat →
     (5 < length (matchAll IF_CALL (JS.toUpperCase formula)))%nat →
     ∃ error,
       error ∈ found
       ∧ type error = "NESTED_IFS" ∧ severity error = Some warning
       ∧ located name R C error
       ∧ value error = "=" ++ formula).
Proof.
  intros Hselected Hs HR HC Hcell Htag Hformula formula found. split.
  - intros Hlong. apply Nat.ltb_lt in Hlong. split.
    + eexists. split.
      { apply (analyzeExcelFile_visits workbook selectedSheets g name worksheet R C _
                 Hselected Hs HR HC).
        apply (visitCell_formulaIssue workbook worksheet name (rangeOf worksheet) R C cell _
                 Hcell Htag Hformula).
        intros g'. unfold detectFormulaIssues. fold formula. rewrite Hlong. reflexivity. }
      by repeat split.
    + intros address g'. unfold detectFormulaIssues. by rewrite Hlong.
  - intros Hshort Hmany. apply Nat.ltb_ge in Hshort. apply Nat.ltb_lt in Hmany.
    eexists. split.
    { apply (analyzeExcelFile_visits workbook selectedSheets g name worksheet R C _
               Hselected Hs HR HC).
      apply (visitCell_formulaIssue workbook worksheet name (rangeOf worksheet) R C cell _
               Hcell Htag Hformula).
      intros g'. unfold detectFormulaIssues. fold formula. rewrite Hshort, Hmany.
      reflexivity. }
    by repeat split.
Qed.

(** A1 holds forty conditionals side by side in 521 characters, A2 six
    nested ones in 67: A1 is reported for its length, A2 for its
    conditionals. *)
Lemma complexity_samples :
  (∃ error,
     error ∈ fst (analyzeExcelFile (Sample.single Case.formulas) None fresh)
     ∧ type error = "COMPLEX_FORMULA" ∧ severity error = Some info
     ∧ located "S" 0 0 error
     ∧ value error = "=" ++ JS.substring Sample.fortyIfs 0 100 ++ "...")
  ∧ (∃ error,
       error ∈ fst (analyzeExcelFile (Sample.single Case.formulas) None fresh)
       ∧ type error = "NESTED_IFS" ∧ severity error = Some warning
       ∧ located "S" 1 0 error
       ∧ value error = "=" ++ Sample.sixIfs).
Proof.
  split.
  - apply (formula_cell_complexity (Sample.single Case.formulas) None fresh "S" Case.formulas
             0 0 (Sample.formulaCell TNumber (VNumber 1) Sample.fortyIfs)).
    + apply list_elem_of_In. left. reflexivity.
    + vm_compute. reflexivity.
    + vm_compute. lia.
    + vm_compute. lia.
    + vm_compute. reflexivity.
    + discriminate.
    + discriminate.
    + apply Nat.ltb_lt. vm_compute. reflexivity.
  - apply (formula_cell_complexity (Sample.single Case.formulas) None fresh "S" Case.formulas
             1 0 (Sample.formulaCell TNumber (VNumber 6) Sample.sixIfs)).
    + apply list_elem_of_In. left. reflexivity.
    + vm_compute. reflexivity.
    + vm_compute. lia.
    + vm_compute. lia.
    + vm_compute. reflexivity.
    + discriminate.
    + discriminate.
    + apply Nat.leb_le. vm_compute. reflexivity.
    + apply Nat.ltb_lt. vm_compute. reflexivity.
Defined.

(** C9, as stated, fails twice.  Sixty conditionals nested in one another
    make 661 characters: the formula cell gets the [info] finding and no
    [warning].  And the same formula in a cell with the error tag gets
    neither: the round of a tagged cell ends before the detector. *)
Lemma deep_conditionals_not_flagged :
  (500 < String.length Case.deepIfs)%nat
  ∧ (5 < conditionalDepth Case.deepIfs)%nat
  ∧ map (fun error => (type error, severity error, col error ++ JS.ofNat (row error)))
      (fst (analyzeExcelFile Case.deep None fresh))
    = [("COMPLEX_FORMULA", Some info, "A1")]
  ∧ map (fun error => (type error, severity error, col error ++ JS.ofNat (row error)))
      (fst (analyzeExcelFile Case.deepTagged None fresh))
    = [("DIV", Some critical, "A1")].
Proof.
  split; [apply Nat.ltb_lt; vm_compute; reflexivity|].
  split; [apply Nat.ltb_lt; vm_compute; reflexivity|].
  split; vm_compute; reflexivity.
Qed.

(* ================================================================== *)
(** * Tagged cells whose value is the numeric error code, in the analysis *)
(* ================================================================== *)

(** The report of a VALUE error does not read the patterns. *)
Lemma reportError_VALUE (cellValue cellFormula sheetName : string) (R C : nat)
    (worksheet : WorkSheet) (range : Range) (workbook : WorkBook) (g : Realm) :
  reportError "VALUE" cellValue cellFormula sheetName R C worksheet range workbook g
    = (fst (reportError "VALUE" cellValue cellFormula sheetName R C worksheet range
              workbook fresh), g).
Proof.
  unfold reportError, proposeFixForError. cbn [type].
  by destruct (JS.truthy cellFormula).
Qed.

(** X24.  A cell of an analysed sheet, inside the range, tagged as an
    error and with a number as value (the codec stores the error code
    there) is reported as VALUE, severity warning, whatever the error
    really is.  The round of the cell loop for it pushes this finding and no
    other, in every state; the checks that run on the whole sheet
    afterwards may add findings of their own for the cell.  With a formula
    the proposal wraps the formula with default 0, and without one there is
    no proposal. *)
Theorem numeric_error_value_is_VALUE (workbook : WorkBook)
    (selectedSheets : option (list string)) (g : Realm)
    (name : string) (worksheet : WorkSheet) (R C : nat) (cell : CellObject) (z : Z) :
  name ∈ sheetsToAnalyze workbook selectedSheets →
  Sheets workbook !! name = Some worksheet →
  (r (s (rangeOf worksheet)) ≤ R ≤ r (e (rangeOf worksheet)))%nat →
  (c (s (rangeOf worksheet)) ≤ C ≤ c (e (rangeOf worksheet)))%nat →
  cellAt worksheet (encode_cell {| r := R; c := C |}) = Some cell →
  t cell = TError →
  v cell = Some (VNumber z) →
  ∃ error,
    error ∈ fst (analyzeExcelFile workbook selectedSheets g)
    ∧ (∀ columnValues g',
         fst (fst (visitCell workbook worksheet name (rangeOf worksheet) (R, C)
                     columnValues g')) = [error])
    ∧ type error = "VALUE" ∧ severity error = Some warning
    ∧ located name R C error
    ∧ proposed error
      = if JS.truthy (formulaText cell)
        then Some ("=IFERROR(" ++ formulaText cell ++ ", 0)") else None.
Proof.
  intros Hselected Hs HR HC Hcell Htag Hvalue.
  assert (Hkind : nativeKind (valueText cell) = "VALUE").
  { apply nativeKind_numeral. unfold valueText. rewrite Hvalue. apply numeral_ofZ. }
  set (error := fst (reportError "VALUE" (valueText cell) (formulaText cell) name R C
                       worksheet (rangeOf worksheet) workbook fresh)).
  assert (Hround : ∀ columnValues g',
            fst (fst (visitCell workbook worksheet name (rangeOf worksheet) (R, C)
                        columnValues g')) = [error]).
  { intros columnValues g'. unfold visitCell. rewrite Hcell, Htag, Hkind, bind_run.
    by rewrite reportError_VALUE. }
  exists error. split.
  { apply (analyzeExcelFile_visits workbook selectedSheets g name worksheet R C error
             Hselected Hs HR HC).
    intros columnValues g'. rewrite Hround. left. }
  split; [exact Hround|].
  destruct (reportError_facts "VALUE" (valueText cell) (formulaText cell) name R C
              worksheet (rangeOf worksheet) workbook fresh) as (Hty & Hloc & _ & Hsev).
  split; [exact Hty|]. split; [exact Hsev|]. split; [exact Hloc|].
  unfold error, reportError, proposeFixForError. cbn [type].
  by destruct (JS.truthy (formulaText cell)).
Qed.

(** The error code 23 (a broken reference) with the formula Data!A1: the
    analysis reports VALUE for the cell, and the cross-sheet check adds a
    finding of its own. *)
Lemma code_23_is_reported_as_VALUE :
  map (fun error => (type error, col error ++ JS.ofNat (row error)))
    (fst (analyzeExcelFile (Sample.single Case.codedSheet) None fresh))
  = [("VALUE", "A1"); ("CROSS_SHEET_REF", "A1")]
  ∧ ∃ error,
      error ∈ fst (analyzeExcelFile (Sample.single Case.codedSheet) None fresh)
      ∧ (∀ columnValues g',
           fst (fst (visitCell (Sample.single Case.codedSheet) Case.codedSheet "S"
                       (rangeOf Case.codedSheet) (0, 0) columnValues g')) = [error])
      ∧ type error = "VALUE" ∧ severity error = Some warning
      ∧ located "S" 0 0 error
      ∧ proposed error
        = if JS.truthy (formulaText Case.codedCell)
          then Some ("=IFERROR(" ++ formulaText Case.codedCell ++ ", 0)") else None.
Proof.
  split; [vm_compute; reflexivity|].
  apply (numeric_error_value_is_VALUE (Sample.single Case.codedSheet) None fresh "S"
           Case.codedSheet 0 0 Case.codedCell 23).
  - apply list_elem_of_In. left. reflexivity.
  - vm_compute. reflexivity.
  - vm_compute. lia.
  - vm_compute. lia.
  - vm_compute. reflexivity.
  - reflexivity.
  - reflexivity.
Defined.
